(** * Stay Palms hotel front desk: availability engine and reservation life cycle

    A shallow embedding of the booking core of the application:

    - [App.checkRoomAvailability]            (src/App.tsx)
    - [ReservationForm.getAvailableRooms],
      [ReservationForm.getNextAvailableDateForRequestedDuration],
      [ReservationForm.handleSubmit]         (src/components/ReservationForm.tsx)
    - the action buttons of the reservation list (same file, second component)
    - [UseReservations.updateReservationStatus] (hooks/useReservations)
    - [UseAutoCancellation.checkForNoShows]  (src/hooks/useAutoCancellation.ts)

    and of what surrounds it in the same files:

    - [AppViews], [AppFilter], [AppEdit]: the overdue list, the card filters,
      editing a reservation and sending a reminder (src/App.tsx)
    - [FormState], [ListFlags]: the form's state and availability effect,
      and the flags of a list row (src/components/ReservationForm.tsx)
    - [StoreOps]: [updateReservation], [deleteReservation] and the two row
      transformations (hooks/useReservations)
    - [Dashboard]: the numbers on the cards (src/components/Dashboard.tsx)

    Conventions of the embedding.

    - A JavaScript [Date] is its time value: milliseconds since the epoch, an
      integer ([Date := Z]).
    - A 'YYYY-MM-DD' string (an HTML date input, a SQL [date] column) is the
      day it denotes, counted from 1970-01-01 ([CalendarDate := Z]); the empty
      string of an untouched form field is [None].
    - The browser's time zone is a [Zone]: the offset of the local wall clock
      from UTC, in milliseconds, as a function of the instant, so that
      daylight-saving switches are covered; [fixedOffset] is a zone without
      switches.
    - An 'HH:MM' string is the pair of numbers that
      [timeString.split(':').map(Number)] yields. *)

From Stdlib Require Import ZArith List Bool String Lia.
From stdpp Require Import base tactics option list strings gmap.
From Equations Require Import Equations.
Import ListNotations.
Local Open Scope Z_scope.

(** ** The JavaScript [Date] operations the sources use *)

Module JS.

Definition Date := Z.
Definition CalendarDate := Z.

Definition MS_PER_MINUTE : Z := 60 * 1000.
Definition MS_PER_HOUR : Z := 60 * 60 * 1000.
Definition MS_PER_DAY : Z := 24 * 60 * 60 * 1000.

(** The time zone of the browser, as ECMAScript defines local time:
    [offsetAt t] is LocalTZA(t, true), the offset of the local wall clock
    from UTC at the instant [t]; [offsetOfLocal l] is LocalTZA(l, false), the
    offset by which the local time value [l] is read back (for a local time
    that a clock change skips or repeats, the offset in force before the
    change). The offsets of one zone lie within six hours of one another,
    which holds of every daylight-saving rule; a zone that moves across the
    date line is not covered. *)
Record Zone := {
  offsetAt : Date -> Z;
  offsetOfLocal : Z -> Z;
  offset_shift : forall t l, Z.abs (offsetOfLocal l - offsetAt t) <= 6 * MS_PER_HOUR
}.

(** A zone whose clock is never changed: local time is UTC plus [offset]. *)
Definition fixedOffset (offset : Z) : Zone :=
  {| offsetAt := fun _ => offset;
     offsetOfLocal := fun _ => offset;
     offset_shift := ltac:(intros t l; cbn beta; rewrite Z.sub_diag; discriminate) |}.

(** LocalTime(t) and UTC(t) of ECMAScript *)
Definition LocalTime (tz : Zone) (t : Date) : Z := t + offsetAt tz t.
Definition UTCOfLocal (tz : Zone) (l : Z) : Date := l - offsetOfLocal tz l.

(** [Date.UTC(year, month - 1, day)] *)
Definition DateUTC (d : CalendarDate) : Date := d * MS_PER_DAY.

(** [new Date(year, month - 1, day)]: midnight of that day on the local clock *)
Definition DateLocal (tz : Zone) (d : CalendarDate) : Date := UTCOfLocal tz (d * MS_PER_DAY).

(** [getUTCFullYear()], [getUTCMonth()], [getUTCDate()] read together *)
Definition getUTCCalendarDate (t : Date) : CalendarDate := t / MS_PER_DAY.

(** [getFullYear()], [getMonth()], [getDate()] read together *)
Definition getCalendarDate (tz : Zone) (t : Date) : CalendarDate := LocalTime tz t / MS_PER_DAY.

(** [date.setUTCHours(h, m, 0, 0)] *)
Definition setUTCHours (t : Date) (h m : Z) : Date :=
  DateUTC (getUTCCalendarDate t) + h * MS_PER_HOUR + m * MS_PER_MINUTE.

(** [date.setHours(h, m, 0, 0)]: that time of the same local day *)
Definition setHours (tz : Zone) (t : Date) (h m : Z) : Date :=
  UTCOfLocal tz (getCalendarDate tz t * MS_PER_DAY + h * MS_PER_HOUR + m * MS_PER_MINUTE).

(** [date.setDate(date.getDate() + 1)]: the same local wall-clock time on
    the next local day; 23 or 25 hours later across a daylight-saving switch *)
Definition setDateNextDay (tz : Zone) (t : Date) : Date :=
  UTCOfLocal tz (LocalTime tz t + MS_PER_DAY).

(** A value that is either a 'YYYY-MM-DD' string or a [Date] object
    ([string | Date] in the sources). *)
Inductive DateInput :=
| DateString (s : CalendarDate)
| DateObject (d : Date).

(** Truthiness of an optional string: [undefined], [null] and [''] are falsy. *)
Definition truthy (s : option string) : bool :=
  match s with
  | Some v => negb (String.eqb v "")
  | None => false
  end.

End JS.
Export JS.

(** ** Data model (src/types/index.ts, src/lib/supabase.ts) *)

Inductive Status := Confirmed | CheckedIn | CheckedOut | Cancelled.

#[global] Instance Status_eq_dec : EqDecision Status.
Proof. solve_decision. Defined.

(** 'HH:MM' after [split(':').map(Number)] *)
Record TimeOfDay := { hours : Z; minutes : Z }.

Record Reservation := {
  id : string;
  customerId : string;
  checkInDate : Date;
  checkOutDate : Date;
  roomType : string;
  specificRoomId : option string;
  numberOfGuests : Z;
  totalAmount : Z;
  status : Status;
  specialRequests : option string;
  reminderSent : bool;
  reminderDate : option Date;
  confirmationSent : bool;
  confirmationDate : option Date;
  cancellationComment : option string;
  createdAt : Date
}.

Record Room := {
  roomId : string;
  roomNumber : string;
  roomTypeId : string;
  isActive : bool;
  amenities : list string
}.

Record HotelSettings := {
  totalRooms : Z;
  hotelName : string;
  rooms : list Room;
  checkInTime : TimeOfDay;
  checkOutTime : TimeOfDay
}.

(** [Omit<Reservation, 'id' | 'createdAt' | 'reminderSent'>], the part of it
    the availability check reads. *)
Record NewReservation := {
  newCheckInDate : Date;
  newCheckOutDate : Date;
  newRoomType : string
}.

(** ** src/App.tsx *)

Module App.

(** [createTimeAwareDate] of [checkRoomAvailability]: UTC throughout. *)
Definition createTimeAwareDate (dateInput : DateInput) (timeString : TimeOfDay) : Date :=
  let date :=
    match dateInput with
    | DateString s => DateUTC s
    | DateObject d => DateUTC (getUTCCalendarDate d)
    end in
  setUTCHours date (hours timeString) (minutes timeString).

(** The callback of [reservations.filter(...)] inside the loop. *)
Definition occupiesNight (hotelSettings : HotelSettings) (newReservation : NewReservation)
    (currentCheckIn currentCheckOut : Date) (reservation : Reservation) : bool :=
  if bool_decide (status reservation = Cancelled) || bool_decide (status reservation = CheckedOut)
  then false
  else if negb (String.eqb (roomType reservation) (newRoomType newReservation))
  then false
  else
    let resCheckIn := createTimeAwareDate (DateObject (checkInDate reservation)) (checkInTime hotelSettings) in
    let resCheckOut := createTimeAwareDate (DateObject (checkOutDate reservation)) (checkOutTime hotelSettings) in
    negb ((resCheckOut <=? currentCheckIn) || (resCheckIn >=? currentCheckOut)).

(** One pass through the body of the [while] loop for [currentDate]:
    [true] when the night is pushed onto [overbookedDates]. *)
Definition nightIsOverbooked (hotelSettings : HotelSettings) (reservations : list Reservation)
    (newReservation : NewReservation) (currentDate : Date) : bool :=
  let activeRooms := List.filter isActive (rooms hotelSettings) in
  let currentCheckIn := createTimeAwareDate (DateObject currentDate) (checkInTime hotelSettings) in
  let nextDay := currentDate + 24 * 60 * 60 * 1000 in
  let currentCheckOut := createTimeAwareDate (DateObject nextDay) (checkOutTime hotelSettings) in
  let occupiedRoomsOfType :=
    Z.of_nat (length (List.filter
      (occupiesNight hotelSettings newReservation currentCheckIn currentCheckOut) reservations)) in
  let roomsOfType :=
    Z.of_nat (length (List.filter
      (fun room => String.eqb (roomTypeId room) (newRoomType newReservation)) activeRooms)) in
  occupiedRoomsOfType + 1 >? roomsOfType.

(** [while (currentDate < checkOutDate) { ...; currentDate.setDate(currentDate.getDate() + 1) }].
    The loop ends: [setDate] moves the date forward by a day, give or take
    the change of the zone's offset, so by more than twelve hours. *)
Equations? availabilityLoop (tz : Zone) (hotelSettings : HotelSettings) (reservations : list Reservation)
    (newReservation : NewReservation) (checkOutDate : Date)
    (currentDate : Date) (overbookedDates : list Date) : list Date
  by wf (Z.to_nat ((checkOutDate - currentDate + 12 * MS_PER_HOUR - 1) / (12 * MS_PER_HOUR))) lt :=
  availabilityLoop tz hotelSettings reservations newReservation checkOutDate currentDate overbookedDates
    with Z_lt_dec currentDate checkOutDate => {
    | left _ :=
        availabilityLoop tz hotelSettings reservations newReservation checkOutDate
          (setDateNextDay tz currentDate)
          (if nightIsOverbooked hotelSettings reservations newReservation currentDate
           then overbookedDates ++ [currentDate] else overbookedDates);
    | right _ := overbookedDates }.
Proof.
  match goal with
  | |- (Z.to_nat ((?out - setDateNextDay _ ?cur + _ - 1) / _) < _)%nat =>
      pose proof (offset_shift tz cur (LocalTime tz cur + MS_PER_DAY)) as Hshift;
      unfold setDateNextDay, UTCOfLocal in *;
      set (next := LocalTime tz cur + MS_PER_DAY - offsetOfLocal tz (LocalTime tz cur + MS_PER_DAY)) in *;
      assert (cur + 12 * MS_PER_HOUR <= next) as Hstep
        by (subst next; unfold LocalTime, MS_PER_DAY, MS_PER_HOUR in *; lia);
      assert ((out - next + 12 * MS_PER_HOUR - 1) / (12 * MS_PER_HOUR)
              <= (out - cur + 12 * MS_PER_HOUR - 1 + (- 1) * (12 * MS_PER_HOUR)) / (12 * MS_PER_HOUR))
        as Hle by (apply Z.div_le_mono; [reflexivity | lia]);
      rewrite Z.div_add in Hle by discriminate;
      assert (1 <= (out - cur + 12 * MS_PER_HOUR - 1) / (12 * MS_PER_HOUR)) as Hone
        by (apply Z.div_le_lower_bound; [reflexivity | unfold MS_PER_HOUR in *; lia]);
      lia
  end.
Qed.

Definition checkRoomAvailability (tz : Zone) (hotelSettings : HotelSettings) (reservations : list Reservation)
    (newReservation : NewReservation) : list Date :=
  let checkInDate := newCheckInDate newReservation in
  let checkOutDate := newCheckOutDate newReservation in
  availabilityLoop tz hotelSettings reservations newReservation checkOutDate checkInDate [].

End App.

(** ** src/components/ReservationForm.tsx: the reservation form *)

Module ReservationForm.

(** The [formData] state. The two date fields hold [''] or 'YYYY-MM-DD'. *)
Record FormData := {
  formCustomerId : string;
  formCheckInDate : option CalendarDate;
  formCheckOutDate : option CalendarDate;
  formRoomType : string;
  formSpecificRoomId : string;
  formNumberOfGuests : Z;
  formTotalAmount : Z;
  formSpecialRequests : string
}.

(** [createTimeAwareDate] of the form: local time throughout. *)
Definition createTimeAwareDate (tz : Zone) (dateInput : DateInput) (timeString : TimeOfDay) : Date :=
  let date :=
    match dateInput with
    | DateString s => DateLocal tz s
    | DateObject d => DateLocal tz (getCalendarDate tz d)
    end in
  setHours tz date (hours timeString) (minutes timeString).

(** The callback of [existingReservations.filter(...)], the same text in
    [getAvailableRooms] and in the search loop. *)
Definition overlapsWindow (tz : Zone) (hotelSettings : HotelSettings) (initialData : option Reservation)
    (requestedRoomType : string) (newCheckIn newCheckOut : Date) (reservation : Reservation) : bool :=
  if match initialData with
     | Some initial => String.eqb (id reservation) (id initial)
     | None => false
     end
  then false
  else if bool_decide (status reservation = Cancelled) || bool_decide (status reservation = CheckedOut)
  then false
  else if negb (String.eqb (roomType reservation) requestedRoomType)
  then false
  else
    let resCheckIn := createTimeAwareDate tz (DateObject (checkInDate reservation)) (checkInTime hotelSettings) in
    let resCheckOut := createTimeAwareDate tz (DateObject (checkOutDate reservation)) (checkOutTime hotelSettings) in
    negb ((resCheckOut <=? newCheckIn) || (resCheckIn >=? newCheckOut)).

(** The callback of [overlappingReservations.forEach(...)], acting on the
    pair of [specificRoomBookings] (a [Set<string>]) and [genericBookingsCount]. *)
Definition tallyStep (acc : gset string * Z) (reservation : Reservation) : gset string * Z :=
  if truthy (specificRoomId reservation)
  then (match specificRoomId reservation with
        | Some r => {[ r ]} ∪ acc.1
        | None => acc.1
        end, acc.2)
  else (acc.1, acc.2 + 1).

Definition tallyBookings (overlappingReservations : list Reservation) : gset string * Z :=
  fold_left tallyStep overlappingReservations (∅, 0).

(** From [roomsOfType] and the overlapping reservations to
    [(availableSpecificRooms, totalAvailableRooms)]. *)
Definition reducePool (roomsOfType : list Room) (overlappingReservations : list Reservation)
    : list Room * Z :=
  let '(specificRoomBookings, genericBookingsCount) := tallyBookings overlappingReservations in
  let availableSpecificRooms :=
    List.filter (fun room => negb (bool_decide (roomId room ∈ specificRoomBookings))) roomsOfType in
  let totalAvailableRooms :=
    Z.max 0 (Z.of_nat (length availableSpecificRooms) - genericBookingsCount) in
  (availableSpecificRooms, totalAvailableRooms).

Definition getAvailableRooms (tz : Zone) (rooms : list Room) (existingReservations : list Reservation)
    (hotelSettings : HotelSettings) (initialData : option Reservation) (formData : FormData)
    : list Room :=
  match formCheckInDate formData, formCheckOutDate formData with
  | Some checkIn, Some checkOut =>
      if String.eqb (formRoomType formData) "" then []
      else
        let checkInDate := DateLocal tz checkIn in
        let checkOutDate := DateLocal tz checkOut in
        let roomsOfType :=
          List.filter (fun room => String.eqb (roomTypeId room) (formRoomType formData) && isActive room)
            rooms in
        let newCheckIn := createTimeAwareDate tz (DateObject checkInDate) (checkInTime hotelSettings) in
        let newCheckOut := createTimeAwareDate tz (DateObject checkOutDate) (checkOutTime hotelSettings) in
        let overlappingReservations :=
          List.filter
            (overlapsWindow tz hotelSettings initialData (formRoomType formData) newCheckIn newCheckOut)
            existingReservations in
        let '(availableSpecificRooms, totalAvailableRooms) :=
          reducePool roomsOfType overlappingReservations in
        take (Z.to_nat totalAvailableRooms) availableSpecificRooms
  | _, _ => []
  end.

(** [for (let i = 0; i < maxSearchDays; i++) { ... }], with [remaining]
    standing for [maxSearchDays - i]. *)
Fixpoint searchLoop (tz : Zone) (existingReservations : list Reservation) (hotelSettings : HotelSettings)
    (initialData : option Reservation) (requestedRoomType : string) (roomsOfType : list Room)
    (requestedDurationMs : Z) (remaining : nat) (searchDate : Date) : option Date :=
  match remaining with
  | O => None
  | S remaining' =>
      let potentialCheckOutDate := searchDate + requestedDurationMs in
      let potentialCheckIn :=
        createTimeAwareDate tz (DateObject searchDate) (checkInTime hotelSettings) in
      let potentialCheckOut :=
        createTimeAwareDate tz (DateObject potentialCheckOutDate) (checkOutTime hotelSettings) in
      let overlappingReservationsForPeriod :=
        List.filter
          (overlapsWindow tz hotelSettings initialData requestedRoomType potentialCheckIn potentialCheckOut)
          existingReservations in
      let '(_, totalAvailableRoomsForPeriod) :=
        reducePool roomsOfType overlappingReservationsForPeriod in
      if totalAvailableRoomsForPeriod >? 0 then Some searchDate
      else searchLoop tz existingReservations hotelSettings initialData requestedRoomType roomsOfType
             requestedDurationMs remaining' (searchDate + 24 * 60 * 60 * 1000)
  end.

Definition maxSearchDays : nat := 365.

(** [now] is the value of [new Date()]. *)
Definition getNextAvailableDateForRequestedDuration (tz : Zone) (now : Date) (rooms : list Room)
    (existingReservations : list Reservation) (hotelSettings : HotelSettings)
    (initialData : option Reservation) (formData : FormData) : option Date :=
  match formCheckInDate formData, formCheckOutDate formData with
  | Some checkIn, Some checkOut =>
      if String.eqb (formRoomType formData) "" then None
      else
        let checkInDate := DateLocal tz checkIn in
        let checkOutDate := DateLocal tz checkOut in
        let requestedDurationMs := checkOutDate - checkInDate in
        if requestedDurationMs <=? 0 then None
        else
          let roomsOfType :=
            List.filter (fun room => String.eqb (roomTypeId room) (formRoomType formData) && isActive room)
              rooms in
          if (length roomsOfType =? 0)%nat then None
          else
            let todayLocal := DateLocal tz (getCalendarDate tz now) in
            let searchDate := Z.max todayLocal (checkInDate + 24 * 60 * 60 * 1000) in
            searchLoop tz existingReservations hotelSettings initialData (formRoomType formData)
              roomsOfType requestedDurationMs maxSearchDays searchDate
  | _, _ => None
  end.

(** What [handleSubmit] hands to [onSubmit]. A date built from an empty
    field is an Invalid Date ([None]). *)
Record SubmittedReservation := {
  subCustomerId : string;
  subCheckInDate : option Date;
  subCheckOutDate : option Date;
  subRoomType : string;
  subSpecificRoomId : string;
  subNumberOfGuests : Z;
  subTotalAmount : Z;
  subStatus : Status;
  subSpecialRequests : option string
}.

Inductive SubmitOutcome :=
| Alert (message : string)
| OnSubmit (reservation : SubmittedReservation).

(** [split('-').map(Number)] followed by [new Date(year, month - 1, day)] *)
Definition parseLocalDate (tz : Zone) (field : option CalendarDate) : option Date :=
  match field with
  | Some d => Some (DateLocal tz d)
  | None => None
  end.

(** [a <= b] on two [Date] objects; any comparison with an Invalid Date is false. *)
Definition dateLe (a b : option Date) : bool :=
  match a, b with
  | Some x, Some y => x <=? y
  | _, _ => false
  end.

Definition handleSubmit (tz : Zone) (formData : FormData) : SubmitOutcome :=
  let checkInDate := parseLocalDate tz (formCheckInDate formData) in
  let checkOutDate := parseLocalDate tz (formCheckOutDate formData) in
  if dateLe checkOutDate checkInDate
  then Alert "Check-out date must be after check-in date"
  else
    let numberOfGuests :=
      if formNumberOfGuests formData >? 0 then formNumberOfGuests formData else 1 in
    OnSubmit {|
      subCustomerId := formCustomerId formData;
      subCheckInDate := checkInDate;
      subCheckOutDate := checkOutDate;
      subRoomType := formRoomType formData;
      subSpecificRoomId := formSpecificRoomId formData;
      subNumberOfGuests := numberOfGuests;
      subTotalAmount := formTotalAmount formData;
      subStatus := Confirmed;
      subSpecialRequests :=
        if String.eqb (formSpecialRequests formData) "" then None
        else Some (formSpecialRequests formData)
    |}.

End ReservationForm.

(** ** hooks/useReservations: the reservation store *)

Module UseReservations.

(** A row of the [reservations] table. [check_in_date] and [check_out_date]
    are SQL dates; the timestamps are kept as the instants they denote. *)
Record DatabaseReservation := {
  db_id : string;
  customer_id : string;
  check_in_date : CalendarDate;
  check_out_date : CalendarDate;
  room_type : string;
  specific_room_id : option string;
  number_of_guests : Z;
  total_amount : Z;
  db_status : Status;
  special_requests : option string;
  reminder_sent : bool;
  reminder_date : option Date;
  confirmation_sent : bool;
  confirmation_date : option Date;
  cancellation_comment : option string;
  created_at : Date
}.

(** [new Date(check_in_date + 'T00:00:00.000Z')] is midnight UTC of that day. *)
Definition transformReservation (dbReservation : DatabaseReservation) : Reservation := {|
  id := db_id dbReservation;
  customerId := customer_id dbReservation;
  checkInDate := DateUTC (check_in_date dbReservation);
  checkOutDate := DateUTC (check_out_date dbReservation);
  roomType := room_type dbReservation;
  specificRoomId := specific_room_id dbReservation;
  numberOfGuests := number_of_guests dbReservation;
  totalAmount := total_amount dbReservation;
  status := db_status dbReservation;
  specialRequests := special_requests dbReservation;
  reminderSent := reminder_sent dbReservation;
  reminderDate := reminder_date dbReservation;
  confirmationSent := confirmation_sent dbReservation;
  confirmationDate := confirmation_date dbReservation;
  cancellationComment := cancellation_comment dbReservation;
  createdAt := created_at dbReservation
|}.

(** The hook's view of the world: the table behind the data-access client,
    listed in the order of the hook's query, and the two pieces of React
    state the status update writes. *)
Record State := {
  table : list DatabaseReservation;
  reservations : list Reservation;
  error : option string
}.

(** [.update(updateData)] applied to one row, with
    [updateData = { status }] extended by [cancellation_comment] when
    [status === 'cancelled' && comment]. *)
Definition applyUpdateData (newStatus : Status) (comment : option string)
    (row : DatabaseReservation) : DatabaseReservation := {|
  db_id := db_id row;
  customer_id := customer_id row;
  check_in_date := check_in_date row;
  check_out_date := check_out_date row;
  room_type := room_type row;
  specific_room_id := specific_room_id row;
  number_of_guests := number_of_guests row;
  total_amount := total_amount row;
  db_status := newStatus;
  special_requests := special_requests row;
  reminder_sent := reminder_sent row;
  reminder_date := reminder_date row;
  confirmation_sent := confirmation_sent row;
  confirmation_date := confirmation_date row;
  cancellation_comment :=
    if bool_decide (newStatus = Cancelled) && truthy comment
    then comment else cancellation_comment row;
  created_at := created_at row
|}.

(** What a [catch] of the hook receives: an [Error] object with its message
    (a [RangeError] of [toISOString()], say), or the error object of the
    data-access client, which is a plain object and not an [Error]. *)
Inductive Thrown :=
| ErrorObject (message : string)
| ClientError.

(** [err instanceof Error ? err.message : fallback] *)
Definition errorMessage (err : Thrown) (fallback : string) : string :=
  match err with
  | ErrorObject message => message
  | ClientError => fallback
  end.

(** [.update(updateData).eq('id', id)] on one row of the table. *)
Definition updateRow (reservationId : string) (newStatus : Status) (comment : option string)
    (row : DatabaseReservation) : DatabaseReservation :=
  if String.eqb (db_id row) reservationId then applyUpdateData newStatus comment row else row.

(** [.from('reservations').update(updateData).eq('id', id).select().single()],
    then [setReservations(prev => prev.map(...))]. [.single()] returns the
    client's error unless exactly one row comes back; the hook throws it,
    catches it, calls [setError(errorMessage)] and throws again. *)
Definition updateReservationStatus (reservationId : string) (newStatus : Status)
    (comment : option string) (st : State) : State :=
  let table' := map (updateRow reservationId newStatus comment) (table st) in
  let selected := List.filter (fun row => String.eqb (db_id row) reservationId) table' in
  match selected with
  | [data] =>
      let updatedReservation := transformReservation data in
      {| table := table';
         reservations :=
           map (fun r => if String.eqb (id r) reservationId then updatedReservation else r)
             (reservations st);
         error := error st |}
  | _ =>
      {| table := table';
         reservations := reservations st;
         error := Some (errorMessage ClientError "Failed to update reservation status") |}
  end.

End UseReservations.
Export UseReservations.

(** ** src/hooks/useAutoCancellation.ts *)

Module UseAutoCancellation.

(** One call [onUpdateStatus(reservationId, status, comment)]. *)
Record StatusUpdate := {
  updId : string;
  updStatus : Status;
  updComment : option string
}.

(** [d.setHours(0, 0, 0, 0)] *)
Definition atLocalMidnight (tz : Zone) (d : Date) : Date := setHours tz d 0 0.

Definition isCheckInToday (tz : Zone) (now : Date) (reservation : Reservation) : bool :=
  let today := atLocalMidnight tz now in
  let checkInDateOnly := atLocalMidnight tz (checkInDate reservation) in
  checkInDateOnly =? today.

Definition isStayOverdue (tz : Zone) (now : Date) (reservation : Reservation) : bool :=
  let today := atLocalMidnight tz now in
  let checkOutDateOnly := atLocalMidnight tz (checkOutDate reservation) in
  checkOutDateOnly <? today.

(** The callback of [reservations.filter(...)]. *)
Definition isNoShow (tz : Zone) (now : Date) (reservation : Reservation) : bool :=
  if negb (bool_decide (status reservation = Confirmed)) then false
  else
    let cutoffTime := setHours tz now 11 0 in
    let isCheckInOverdue := isCheckInToday tz now reservation && (now >=? cutoffTime) in
    isCheckInOverdue || isStayOverdue tz now reservation.

Definition departureReason (toLocaleDateString : Date -> string) (reservation : Reservation) : string :=
  "Automatically cancelled - Guest did not check in by departure date ("
    +:+ toLocaleDateString (checkOutDate reservation) +:+ ")".

Definition cutoffReason (toLocaleDateString : Date -> string) (reservation : Reservation) : string :=
  "Automatically cancelled - Guest did not check in by 11:00 AM on "
    +:+ toLocaleDateString (checkInDate reservation).

(** The body of [noShowReservations.forEach(...)]. [toLocaleDateString] is
    the browser's date formatting. *)
Definition cancelNoShow (tz : Zone) (toLocaleDateString : Date -> string) (now : Date)
    (reservation : Reservation) : StatusUpdate :=
  let cancellationComment :=
    if isStayOverdue tz now reservation
    then departureReason toLocaleDateString reservation
    else cutoffReason toLocaleDateString reservation in
  {| updId := id reservation; updStatus := Cancelled; updComment := Some cancellationComment |}.

(** The calls [checkForNoShows] makes, in order, when [new Date()] is [now]. *)
Definition checkForNoShows (tz : Zone) (toLocaleDateString : Date -> string) (now : Date)
    (reservations : list Reservation) : list StatusUpdate :=
  let noShowReservations := List.filter (isNoShow tz now) reservations in
  map (cancelNoShow tz toLocaleDateString now) noShowReservations.

(** [onUpdateStatus] as [App] wires it: it ends in [updateReservationStatus]. *)
Definition onUpdateStatus (st : State) (call : StatusUpdate) : State :=
  updateReservationStatus (updId call) (updStatus call) (updComment call) st.

(** The effect of one call on one row of the table. *)
Definition callOnRow (call : StatusUpdate) (row : DatabaseReservation) : DatabaseReservation :=
  updateRow (updId call) (updStatus call) (updComment call) row.

(** One run of the sweep on the hook's list. *)
Definition useAutoCancellation (tz : Zone) (toLocaleDateString : Date -> string) (now : Date)
    (st : State) : State :=
  fold_left onUpdateStatus (checkForNoShows tz toLocaleDateString now (reservations st)) st.

End UseAutoCancellation.

(** ** src/components/ReservationForm.tsx, second component: the reservation list *)

Module ReservationList.

(** The 'Check In' button exists in a row only when
    [row.status === 'confirmed']. *)
Definition clickCheckIn (row : Reservation) (st : State) : State :=
  if bool_decide (status row = Confirmed)
  then updateReservationStatus (id row) CheckedIn None st
  else st.

(** The 'Check Out' button exists only when [row.status === 'checked-in']. *)
Definition clickCheckOut (row : Reservation) (st : State) : State :=
  if bool_decide (status row = CheckedIn)
  then updateReservationStatus (id row) CheckedOut None st
  else st.

(** The 'Cancel' button exists only when the row is confirmed or checked in;
    it stores [reservations.find(r => r.id === row.id) || null]. *)
Definition clickCancel (row : Reservation) (st : State) : option Reservation :=
  if bool_decide (status row = Confirmed) || bool_decide (status row = CheckedIn)
  then List.find (fun r => String.eqb (id r) (id row)) (reservations st)
  else None.

Definition handleCancelReservation (reservationToCancel : option Reservation)
    (cancellationComment : string) (st : State) : State :=
  match reservationToCancel with
  | Some r => updateReservationStatus (id r) Cancelled (Some cancellationComment) st
  | None => st
  end.

End ReservationList.

(** The operations of the system that change a reservation's status: the
    three operator actions on a row the list shows, and the sweep. *)
Inductive transition (tz : Zone) (toLocaleDateString : Date -> string) : State -> State -> Prop :=
| ManualCheckIn st row :
    In row (reservations st) ->
    transition tz toLocaleDateString st (ReservationList.clickCheckIn row st)
| ManualCheckOut st row :
    In row (reservations st) ->
    transition tz toLocaleDateString st (ReservationList.clickCheckOut row st)
| ManualCancel st row comment :
    In row (reservations st) ->
    transition tz toLocaleDateString st
      (ReservationList.handleCancelReservation (ReservationList.clickCancel row st) comment st)
| PolicySweep st now :
    transition tz toLocaleDateString st
      (UseAutoCancellation.useAutoCancellation tz toLocaleDateString now st).

(** ** The engine as the specification words it *)

Module Spec.

(** Two half-open intervals [[a,b)] and [[c,d)] overlap iff [a < d] and [c < b]. *)
Definition overlap (a b c d : Z) : bool := (a <? d) && (c <? b).

(** A time of day as an offset from midnight, in milliseconds. *)
Definition timeOfDayMs (t : TimeOfDay) : Z := hours t * MS_PER_HOUR + minutes t * MS_PER_MINUTE.

(** §4.1, in the UTC-normalised reading, "exactly one canonical instant per
    calendar day": the time of day counted from the start of that day. *)
Definition instantOn (day : CalendarDate) (timeOfDay : TimeOfDay) : Z :=
  day * MS_PER_DAY + timeOfDayMs timeOfDay.

(** The calendar day a date of the data model stands for: a reservation's
    dates are kept as days ([check_in_date], [check_out_date]) and reach the
    engine as midnight UTC of that day. *)
Definition dayOf (date : Date) : CalendarDate := date / MS_PER_DAY.

Definition resolveInstant (date : Date) (timeOfDay : TimeOfDay) : Z :=
  instantOn (dayOf date) timeOfDay.

(** The nights of a stay, as the instants the check steps through: check-in,
    then the same wall-clock time on each following day of the hotel's
    clock, as long as the instant is before check-out. [fuel] bounds their
    number. *)
Fixpoint nightsFrom (tz : Zone) (fuel : nat) (night checkOut : Date) : list Date :=
  match fuel with
  | O => []
  | S fuel' =>
      if night <? checkOut
      then night :: nightsFrom tz fuel' (setDateNextDay tz night) checkOut
      else []
  end.

(** Two nights are more than twelve hours apart, so a stay has at most this
    many. *)
Definition nightBound (checkIn checkOut : Date) : nat :=
  Z.to_nat ((checkOut - checkIn + 12 * MS_PER_HOUR - 1) / (12 * MS_PER_HOUR)).

Definition stayNights (tz : Zone) (checkIn checkOut : Date) : list Date :=
  nightsFrom tz (nightBound checkIn checkOut) checkIn checkOut.

Definition isLive (r : Reservation) : bool :=
  negb (bool_decide (status r = Cancelled)) && negb (bool_decide (status r = CheckedOut)).

(** Existing reservations of the same room type, neither cancelled nor
    checked out, whose effective window overlaps the night's window. *)
Definition occupiedCount (policy : HotelSettings) (requestedType : string)
    (existing : list Reservation) (night : Date) : Z :=
  Z.of_nat (length (List.filter
    (fun r =>
       String.eqb (roomType r) requestedType && isLive r &&
       overlap (resolveInstant night (checkInTime policy))
               (resolveInstant (night + MS_PER_DAY) (checkOutTime policy))
               (resolveInstant (checkInDate r) (checkInTime policy))
               (resolveInstant (checkOutDate r) (checkOutTime policy)))
    existing)).

Definition activeRoomsOfType (roster : list Room) (requestedType : string) : list Room :=
  List.filter (fun room => isActive room && String.eqb (roomTypeId room) requestedType) roster.

Definition overbooked (policy : HotelSettings) (requestedType : string)
    (existing : list Reservation) (night : Date) : bool :=
  occupiedCount policy requestedType existing night + 1
    >? Z.of_nat (length (activeRoomsOfType (rooms policy) requestedType)).

Definition findOverbookedNights (tz : Zone) (candidate : NewReservation)
    (existing : list Reservation) (policy : HotelSettings) : list Date :=
  List.filter (overbooked policy (newRoomType candidate) existing)
    (stayNights tz (newCheckInDate candidate) (newCheckOutDate candidate)).

End Spec.

(** ** The room resolver and the date search as the specification words them *)

Module SpecRooms.

(** The reservation an edit leaves out of account. *)
Definition isExcluded (excludeReservationId : option string) (r : Reservation) : bool :=
  match excludeReservationId with
  | Some i => String.eqb (id r) i
  | None => false
  end.

(** The whole-stay overlap test of §4.3, that of §4.2: the window of [r]
    against the window of a stay from calendar day [checkIn] to calendar day
    [checkOut]. *)
Definition overlapsStay (policy : HotelSettings) (checkIn checkOut : CalendarDate)
    (r : Reservation) : bool :=
  Spec.overlap
    (Spec.instantOn checkIn (checkInTime policy))
    (Spec.instantOn checkOut (checkOutTime policy))
    (Spec.resolveInstant (checkInDate r) (checkInTime policy))
    (Spec.resolveInstant (checkOutDate r) (checkOutTime policy)).

(** An overlapping reservation, neither cancelled nor checked out, other
    than the one being edited. *)
Definition blocksStay (policy : HotelSettings) (excludeReservationId : option string)
    (checkIn checkOut : CalendarDate) (r : Reservation) : bool :=
  negb (isExcluded excludeReservationId r) && Spec.isLive r && overlapsStay policy checkIn checkOut r.

(** The same, among the reservations of the requested room type. *)
Definition blocksStayOfType (policy : HotelSettings) (excludeReservationId : option string)
    (requestedType : string) (checkIn checkOut : CalendarDate) (r : Reservation) : bool :=
  String.eqb (roomType r) requestedType && blocksStay policy excludeReservationId checkIn checkOut r.

(** A reservation either pins a specific room or is generic. *)
Definition isGeneric (r : Reservation) : bool := negb (truthy (specificRoomId r)).

Definition pins (r : Reservation) (room : Room) : bool :=
  match specificRoomId r with
  | Some i => negb (String.eqb i "") && String.eqb i (roomId room)
  | None => false
  end.

(** Remove the pinned rooms from the pool, reduce its size by the number of
    generic reservations, return the first N remaining rooms. *)
Definition poolReduction (pool : list Room) (blocking : list Reservation) : list Room :=
  let remaining := List.filter (fun room => negb (existsb (fun r => pins r room) blocking)) pool in
  let generic := length (List.filter isGeneric blocking) in
  take (length remaining - generic)%nat remaining.

(** §4.3 with the overlapping reservations taken among those of the
    requested room type. *)
Definition availableRooms (requestedType : string) (checkIn checkOut : CalendarDate)
    (existing : list Reservation) (policy : HotelSettings) (roster : list Room)
    (excludeReservationId : option string) : list Room :=
  poolReduction (Spec.activeRoomsOfType roster requestedType)
    (List.filter (blocksStayOfType policy excludeReservationId requestedType checkIn checkOut) existing).

(** §4.3 read to the letter: every overlapping reservation counts, whatever
    its room type. *)
Definition availableRoomsAsStated (requestedType : string) (checkIn checkOut : CalendarDate)
    (existing : list Reservation) (policy : HotelSettings) (roster : list Room)
    (excludeReservationId : option string) : list Room :=
  poolReduction (Spec.activeRoomsOfType roster requestedType)
    (List.filter (blocksStay policy excludeReservationId checkIn checkOut) existing).

(** §4.4: a start day is feasible when the pool reduction of §4.3 leaves at
    least one room for the stay of [nights] days that starts there. *)
Definition feasible (requestedType : string) (nights : Z) (existing : list Reservation)
    (policy : HotelSettings) (roster : list Room) (excludeReservationId : option string)
    (start : CalendarDate) : bool :=
  0 <? Z.of_nat (length (availableRooms requestedType start (start + nights) existing policy
                           roster excludeReservationId)).

(** [max(today, fromDate + 1 day)] *)
Definition scanStart (today fromDate : CalendarDate) : CalendarDate :=
  Z.max today (fromDate + 1).

(** The candidate start days of the scan: 365 consecutive days. *)
Definition candidates (start : CalendarDate) : list CalendarDate :=
  map (fun k => start + Z.of_nat k) (seq 0 365).

Definition nextFeasibleStart (requestedType : string) (nights : Z) (today fromDate : CalendarDate)
    (existing : list Reservation) (policy : HotelSettings) (roster : list Room)
    (excludeReservationId : option string) : option CalendarDate :=
  List.find (feasible requestedType nights existing policy roster excludeReservationId)
    (candidates (scanStart today fromDate)).

End SpecRooms.

(** ** The reservation life cycle as the specification words it *)

Module SpecLifecycle.

(** Terminal states: checked-out and cancelled. *)
Definition isTerminal (s : Status) : bool :=
  match s with
  | CheckedOut | Cancelled => true
  | Confirmed | CheckedIn => false
  end.

(** The store and the list the hook keeps agree, and [id] is the primary
    key of the table. *)
Definition coherent (st : State) : Prop :=
  List.NoDup (map db_id (table st))
  /\ reservations st = map transformReservation (table st).

(** Every field of a reservation other than [status] and
    [cancellationComment]. *)
Definition sameOtherFields (r r' : Reservation) : Prop :=
  id r' = id r
  /\ customerId r' = customerId r
  /\ checkInDate r' = checkInDate r
  /\ checkOutDate r' = checkOutDate r
  /\ roomType r' = roomType r
  /\ specificRoomId r' = specificRoomId r
  /\ numberOfGuests r' = numberOfGuests r
  /\ totalAmount r' = totalAmount r
  /\ specialRequests r' = specialRequests r
  /\ reminderSent r' = reminderSent r
  /\ reminderDate r' = reminderDate r
  /\ confirmationSent r' = confirmationSent r
  /\ confirmationDate r' = confirmationDate r
  /\ createdAt r' = createdAt r.

(** Every column of a row other than [status] and [cancellation_comment]. *)
Definition sameOtherColumns (row row' : DatabaseReservation) : Prop :=
  db_id row' = db_id row
  /\ customer_id row' = customer_id row
  /\ check_in_date row' = check_in_date row
  /\ check_out_date row' = check_out_date row
  /\ room_type row' = room_type row
  /\ specific_room_id row' = specific_room_id row
  /\ number_of_guests row' = number_of_guests row
  /\ total_amount row' = total_amount row
  /\ special_requests row' = special_requests row
  /\ reminder_sent row' = reminder_sent row
  /\ reminder_date row' = reminder_date row
  /\ confirmation_sent row' = confirmation_sent row
  /\ confirmation_date row' = confirmation_date row
  /\ created_at row' = created_at row.

(** The comment is written only when the target status is cancelled and a
    (non-empty) comment is supplied. *)
Definition commentWritten (newStatus : Status) (comment : option string) : bool :=
  bool_decide (newStatus = Cancelled) && truthy comment.

(** What a status update may do to the reservation [r], leaving [r']. *)
Definition updatedAs (reservationId : string) (newStatus : Status) (comment : option string)
    (r r' : Reservation) : Prop :=
  if String.eqb (id r) reservationId
  then status r' = newStatus
       /\ cancellationComment r'
          = (if commentWritten newStatus comment then comment else cancellationComment r)
       /\ sameOtherFields r r'
  else r' = r.

Definition rowUpdatedAs (reservationId : string) (newStatus : Status) (comment : option string)
    (row row' : DatabaseReservation) : Prop :=
  if String.eqb (db_id row) reservationId
  then db_status row' = newStatus
       /\ cancellation_comment row'
          = (if commentWritten newStatus comment then comment else cancellation_comment row)
       /\ sameOtherColumns row row'
  else row' = row.

(** Check-in date is today: the reservation's check-in day is the day the
    hotel's clock shows. *)
Definition checkInIsToday (tz : Zone) (now : Date) (r : Reservation) : bool :=
  Spec.dayOf (checkInDate r) =? getCalendarDate tz now.

(** The hotel's clock shows 11:00 or later. *)
Definition atOrPastCutoff (tz : Zone) (now : Date) : bool :=
  11 * MS_PER_HOUR <=? LocalTime tz now mod MS_PER_DAY.

(** Check-out date is strictly before today. *)
Definition departedBeforeToday (tz : Zone) (now : Date) (r : Reservation) : bool :=
  Spec.dayOf (checkOutDate r) <? getCalendarDate tz now.

(** The reservations the sweep is to cancel: confirmed, and one of the two
    conditions. *)
Definition autoCancelled (tz : Zone) (now : Date) (r : Reservation) : bool :=
  bool_decide (status r = Confirmed)
  && ((checkInIsToday tz now r && atOrPastCutoff tz now) || departedBeforeToday tz now r).

(** [r'] is [r] cancelled with the comment [comment]. *)
Definition cancelledWith (comment : option string) (r r' : Reservation) : Prop :=
  status r' = Cancelled
  /\ cancellationComment r' = comment
  /\ sameOtherFields r r'.

(** A comment cites [what] when [what] occurs in it. *)
Definition cites (what comment : string) : Prop :=
  exists before after : string, comment = (before +:+ what +:+ after)%string.

(** The reason of an automatic cancellation: it cites the missed departure
    date when the stay is over, the 11:00 cutoff otherwise. *)
Definition citesReason (tz : Zone) (toLocaleDateString : Date -> string) (now : Date)
    (r : Reservation) (comment : string) : Prop :=
  if departedBeforeToday tz now r
  then cites "departure date" comment /\ cites (toLocaleDateString (checkOutDate r)) comment
  else cites "11:00" comment.

(** What the sweep is to do to the reservation [r], leaving [r']. *)
Definition sweptAs (tz : Zone) (toLocaleDateString : Date -> string) (now : Date)
    (r r' : Reservation) : Prop :=
  if autoCancelled tz now r
  then status r' = Cancelled
       /\ (exists comment, cancellationComment r' = Some comment
                           /\ citesReason tz toLocaleDateString now r comment)
       /\ sameOtherFields r r'
  else r' = r.

(** A status never leaves a terminal state and never comes back to
    confirmed. *)
Definition statusMonotone (r r' : Reservation) : Prop :=
  id r' = id r
  /\ (isTerminal (status r) = true -> status r' = status r)
  /\ (status r <> Confirmed -> status r' <> Confirmed).

End SpecLifecycle.

(** The candidate that asks for the stay of an existing reservation. *)
Definition candidateOf (r : Reservation) : NewReservation :=
  {| newCheckInDate := checkInDate r; newCheckOutDate := checkOutDate r; newRoomType := roomType r |}.

(** The window test of the availability check for night [night] of a candidate. *)
Definition countedOnNight (policy : HotelSettings) (candidate : NewReservation) (night : Date)
    (r : Reservation) : bool :=
  App.occupiesNight policy candidate
    (App.createTimeAwareDate (DateObject night) (checkInTime policy))
    (App.createTimeAwareDate (DateObject (night + 24 * 60 * 60 * 1000)) (checkOutTime policy)) r.

(** ** Concrete data used by the examples below *)

Module Examples.

Local Open Scope string_scope.

(** US Central Standard Time, UTC-6: the hotel's wall clock in winter. *)
Definition tzCentral : Zone := fixedOffset (- 6 * MS_PER_HOUR).

(** A browser whose clock is UTC. *)
Definition tzUTC : Zone := fixedOffset 0.

(** A browser one hour east of UTC. *)
Definition tzEast : Zone := fixedOffset (1 * MS_PER_HOUR).

(** America/Chicago in 2025: UTC-6, and UTC-5 from March 9th 08:00Z to
    November 2nd 07:00Z. *)
Definition springForward : Date := 20156 * MS_PER_DAY + 8 * MS_PER_HOUR.
Definition fallBack : Date := 20394 * MS_PER_DAY + 7 * MS_PER_HOUR.

Definition chicago : Zone :=
  {| offsetAt := fun t =>
       if ((springForward <=? t) && (t <? fallBack))%Z
       then - 5 * MS_PER_HOUR else - 6 * MS_PER_HOUR;
     offsetOfLocal := fun l =>
       if ((springForward - 5 * MS_PER_HOUR <=? l) && (l <? fallBack - 5 * MS_PER_HOUR))%Z
       then - 5 * MS_PER_HOUR else - 6 * MS_PER_HOUR;
     offset_shift :=
       ltac:(intros t l; cbn beta;
             destruct ((springForward <=? t) && (t <? fallBack))%Z,
                      ((springForward - 5 * MS_PER_HOUR <=? l) && (l <? fallBack - 5 * MS_PER_HOUR))%Z;
             vm_compute; discriminate) |}.

(** Day numbers of 2025-01-09 ... 2025-01-13. *)
Definition jan9 : CalendarDate := 20097.
Definition jan10 : CalendarDate := 20098.
Definition jan11 : CalendarDate := 20099.
Definition jan12 : CalendarDate := 20100.
Definition jan13 : CalendarDate := 20101.

Definition threePm : TimeOfDay := {| hours := 15; minutes := 0 |}.
Definition elevenAm : TimeOfDay := {| hours := 11; minutes := 0 |}.

Definition room101 : Room :=
  {| roomId := "1"; roomNumber := "101"; roomTypeId := "standard"; isActive := true;
     amenities := ["wifi"; "tv"] |}.
Definition room102 : Room :=
  {| roomId := "2"; roomNumber := "102"; roomTypeId := "standard"; isActive := true;
     amenities := ["wifi"; "tv"] |}.
Definition room201 : Room :=
  {| roomId := "3"; roomNumber := "201"; roomTypeId := "deluxe"; isActive := true;
     amenities := ["wifi"; "tv"; "minibar"] |}.

(** The default settings of [App]: check-in 15:00, check-out 11:00. *)
Definition defaultSettings : HotelSettings :=
  {| totalRooms := 3; hotelName := "The Stay Palms Hotel";
     rooms := [room101; room102; room201];
     checkInTime := threePm; checkOutTime := elevenAm |}.

(** A policy with check-in at 10:00 and check-out at 12:00. *)
Definition earlyCheckInSettings : HotelSettings :=
  {| totalRooms := 3; hotelName := "The Stay Palms Hotel";
     rooms := [room101; room102; room201];
     checkInTime := {| hours := 10; minutes := 0 |};
     checkOutTime := {| hours := 12; minutes := 0 |} |}.

Definition row (i : string) (checkIn checkOut : CalendarDate) (type : string)
    (room : option string) (s : Status) : DatabaseReservation :=
  {| db_id := i; customer_id := "customer-1";
     check_in_date := checkIn; check_out_date := checkOut;
     room_type := type; specific_room_id := room;
     number_of_guests := 2; total_amount := 240; db_status := s;
     special_requests := None; reminder_sent := false; reminder_date := None;
     confirmation_sent := false; confirmation_date := None;
     cancellation_comment := None; created_at := DateUTC 20090 |}.

Definition stayA : Reservation := transformReservation (row "RES-A" jan10 jan11 "standard" None Confirmed).
Definition stayB : Reservation := transformReservation (row "RES-B" jan11 jan12 "standard" None Confirmed).

Definition standardForm (checkIn checkOut : option CalendarDate) : ReservationForm.FormData :=
  {| ReservationForm.formCustomerId := "customer-1";
     ReservationForm.formCheckInDate := checkIn;
     ReservationForm.formCheckOutDate := checkOut;
     ReservationForm.formRoomType := "standard";
     ReservationForm.formSpecificRoomId := "";
     ReservationForm.formNumberOfGuests := 2;
     ReservationForm.formTotalAmount := 240;
     ReservationForm.formSpecialRequests := "" |}.

(** A deluxe booking without a room, and a deluxe booking that names room 101. *)
Definition deluxeGeneric : Reservation :=
  transformReservation (row "RES-D1" jan10 jan12 "deluxe" None Confirmed).
Definition deluxeOn101 : Reservation :=
  transformReservation (row "RES-D2" jan10 jan12 "deluxe" (Some "1") Confirmed).

(** A store with one cancelled and one confirmed reservation. *)
Definition cancelledRow : DatabaseReservation := row "RES-X" jan10 jan11 "standard" None Cancelled.
Definition confirmedRow : DatabaseReservation := row "RES-Y" jan10 jan12 "standard" (Some "2") Confirmed.

Definition store : State :=
  {| table := [cancelledRow; confirmedRow];
     reservations := [transformReservation cancelledRow; transformReservation confirmedRow];
     error := None |}.

(** 11:01 on 2025-01-10, on a clock at UTC. *)
Definition jan10_11h01 : Date := DateLocal tzUTC jan10 + 11 * MS_PER_HOUR + 1 * MS_PER_MINUTE.

(** 11:01 on 2025-01-09, on the hotel's clock. *)
Definition jan9_11h01_central : Date :=
  DateLocal tzCentral jan9 + 11 * MS_PER_HOUR + 1 * MS_PER_MINUTE.

(** Noon on 2025-01-12, on the hotel's clock. *)
Definition jan12_noon_central : Date := DateLocal tzCentral jan12 + 12 * MS_PER_HOUR.

(** The two standard rooms, and bookings of them for January 10th to 12th. *)
Definition standardRooms : HotelSettings :=
  {| totalRooms := 2; hotelName := "The Stay Palms Hotel";
     rooms := [room101; room102];
     checkInTime := threePm; checkOutTime := elevenAm |}.

Definition genericBooking : Reservation :=
  transformReservation (row "RES-G" jan10 jan12 "standard" None Confirmed).
Definition bookingOf101 : Reservation :=
  transformReservation (row "RES-S" jan10 jan12 "standard" (Some "1") Confirmed).

Definition standardStay (checkIn checkOut : CalendarDate) : NewReservation :=
  {| newCheckInDate := DateLocal tzUTC checkIn; newCheckOutDate := DateLocal tzUTC checkOut;
     newRoomType := "standard" |}.

(** A guest in house whose check-out date was January 9th. *)
Definition inHouseRow : DatabaseReservation := row "RES-H" 20095 jan9 "standard" (Some "1") CheckedIn.

Definition houseStore : State :=
  {| table := [inHouseRow; confirmedRow];
     reservations := [transformReservation inHouseRow; transformReservation confirmedRow];
     error := None |}.

(** Day numbers of 2025-10-30, 2025-11-01, 2025-11-03 and 2025-11-04, and a
    booking of room 101 for November 1st to 4th. *)
Definition oct30 : CalendarDate := 20391.
Definition nov1 : CalendarDate := 20393.
Definition nov3 : CalendarDate := 20395.
Definition nov4 : CalendarDate := 20396.

Definition autumnBooking : Reservation :=
  transformReservation (row "RES-N" nov1 nov4 "standard" (Some "1") Confirmed).

(** A stand-in for the browser's date formatting. *)
Definition printDate (d : Date) : string := "1/10/2025".

End Examples.

(** * The rest of the cited files *)

(** ** More of the JavaScript [Date] and [Math] operations *)

Module JSClock.

(** [getHours()] and [getMinutes()], on the local clock *)
Definition getHours (tz : Zone) (t : Date) : Z := (LocalTime tz t mod MS_PER_DAY) / MS_PER_HOUR.
Definition getMinutes (tz : Zone) (t : Date) : Z := (LocalTime tz t mod MS_PER_HOUR) / MS_PER_MINUTE.

(** [Math.ceil(ms / (1000 * 60 * 60 * 24))] for an integer number of milliseconds *)
Definition ceilDays (ms : Z) : Z := - ((- ms) / (1000 * 60 * 60 * 24)).

(** [date.toISOString().split('T')[0]]: the calendar date on the UTC clock *)
Definition toISODate (t : Date) : CalendarDate := getUTCCalendarDate t.

(** [new Date('YYYY-MM-DD')]: a date-only string is read as midnight UTC *)
Definition parseISODate (s : CalendarDate) : Date := DateUTC s.

(** Truthiness of a number: [0] is falsy. *)
Definition truthyNumber (n : Z) : bool := negb (n =? 0).

End JSClock.
Export JSClock.

(** ** src/App.tsx: the derived lists *)

Module AppViews.

(** [todayUTC], computed once when the component mounts at [mountTime]. *)
Definition todayUTC (mountTime : Date) : Date := DateUTC (getUTCCalendarDate mountTime).

(** The callback of the [overdueCheckOuts] filter; [now] is the [new Date()]
    of the run of the memo. *)
Definition isOverdueCheckOut (tz : Zone) (now : Date) (hotelSettings : HotelSettings)
    (reservation : Reservation) : bool :=
  let currentTime := getHours tz now * 60 + getMinutes tz now in
  let checkOutTimeInMinutes :=
    hours (checkOutTime hotelSettings) * 60 + minutes (checkOutTime hotelSettings) in
  if negb (bool_decide (status reservation = CheckedIn)) then false
  else
    let today := setHours tz now 0 0 in
    let checkOutDate := setHours tz (checkOutDate reservation) 0 0 in
    if checkOutDate <? today then true
    else if (checkOutDate =? today) && (currentTime >? checkOutTimeInMinutes) then true
    else false.

(** [overdueCheckOuts] is a [useMemo] on [reservations] and
    [hotelSettings.checkOutTime]: it is computed when one of them changes,
    at the instant [computedAt], and keeps that value as the clock moves on. *)
Definition overdueCheckOuts (tz : Zone) (computedAt : Date) (hotelSettings : HotelSettings)
    (reservations : list Reservation) : list Reservation :=
  List.filter (isOverdueCheckOut tz computedAt hotelSettings) reservations.

Inductive DateType := Upcoming | Overdue | PendingReminders | NoShowRisk.

(** [currentReservationFilter] *)
Record ReservationFilter := {
  filterStatus : option Status;
  filterDateType : option DateType
}.

(** The card-based part of the [filteredReservations] callback, the block
    taken when there is no text search and a card filter is set. [today] is
    the memoised [todayUTC], [now] is [new Date()]. *)
Definition matchesCardFilter (tz : Zone) (today now : Date) (hotelSettings : HotelSettings)
    (currentReservationFilter : ReservationFilter) (reservation : Reservation) : bool :=
  if match filterStatus currentReservationFilter with
     | Some s => negb (bool_decide (status reservation = s))
     | None => false
     end
  then false
  else
    match filterDateType currentReservationFilter with
    | None => true
    | Some Upcoming =>
        if negb ((checkInDate reservation >=? today)
                 && bool_decide (status reservation = Confirmed))
        then false else true
    | Some Overdue =>
        let checkOutDateUTC := DateUTC (getUTCCalendarDate (checkOutDate reservation)) in
        let currentTime := getHours tz now * 60 + getMinutes tz now in
        let checkOutTimeInMinutes :=
          hours (checkOutTime hotelSettings) * 60 + minutes (checkOutTime hotelSettings) in
        let isOverdue :=
          bool_decide (status reservation = CheckedIn)
          && ((checkOutDateUTC <? today)
              || ((checkOutDateUTC =? today) && (currentTime >? checkOutTimeInMinutes))) in
        if negb isOverdue then false else true
    | Some PendingReminders =>
        let daysUntilCheckIn := ceilDays (checkInDate reservation - today) in
        if negb ((daysUntilCheckIn <=? 3) && (daysUntilCheckIn >=? 0)
                 && negb (reminderSent reservation)
                 && bool_decide (status reservation = Confirmed))
        then false else true
    | Some NoShowRisk =>
        let checkInDateUTC := DateUTC (getUTCCalendarDate (checkInDate reservation)) in
        let dayAfterCheckIn := checkInDateUTC + 24 * 60 * 60 * 1000 in
        let currentTimeInMinutes := getHours tz now * 60 + getMinutes tz now in
        let oneAMInMinutes := 1 * 60 in
        let isNoShowRisk :=
          (dayAfterCheckIn =? today)
          && bool_decide (status reservation = Confirmed)
          && (currentTimeInMinutes >=? oneAMInMinutes) in
        if negb isNoShowRisk then false else true
    end.

End AppViews.

(** ** The reservation list: the flags of a row *)

Module ListFlags.

(** [isNoShowRisk] of [tableData]: check-in date is today, the reservation
    is confirmed and the local clock shows 9 or later. *)
Definition isNoShowRisk (tz : Zone) (now : Date) (reservation : Reservation) : bool :=
  let checkInDateOnly := DateLocal tz (getCalendarDate tz (checkInDate reservation)) in
  let today := DateLocal tz (getCalendarDate tz now) in
  (checkInDateOnly =? today)
  && bool_decide (status reservation = Confirmed)
  && (getHours tz now >=? 9).

(** [needsReminder] of [tableData] *)
Definition needsReminder (now : Date) (reservation : Reservation) : bool :=
  let isUpcoming := checkInDate reservation >? now in
  isUpcoming && negb (reminderSent reservation)
  && bool_decide (status reservation = Confirmed).

End ListFlags.

(** ** The reservation form: its state and its availability effect *)

Module FormState.

Import ReservationForm.

(** [formatDateForInput]: the 'YYYY-MM-DD' of the date on the local clock *)
Definition formatDateForInput (tz : Zone) (date : Date) : CalendarDate := getCalendarDate tz date.

(** [a || b] on strings *)
Definition orElse (a b : string) : string := if String.eqb a "" then b else a.

(** The initial [formData] of [useState]. *)
Definition initialFormData (tz : Zone) (initialData : option Reservation)
    (selectedCustomerId : option string) : FormData :=
  {| formCustomerId :=
       orElse (match initialData with Some r => customerId r | None => "" end)
         (orElse (match selectedCustomerId with Some c => c | None => "" end) "");
     formCheckInDate :=
       match initialData with
       | Some r => Some (formatDateForInput tz (checkInDate r))
       | None => None
       end;
     formCheckOutDate :=
       match initialData with
       | Some r => Some (formatDateForInput tz (checkOutDate r))
       | None => None
       end;
     formRoomType := match initialData with Some r => roomType r | None => "" end;
     formSpecificRoomId :=
       match initialData with
       | Some r => match specificRoomId r with Some i => i | None => "" end
       | None => ""
       end;
     formNumberOfGuests :=
       match initialData with
       | Some r => if truthyNumber (numberOfGuests r) then numberOfGuests r else 1
       | None => 1
       end;
     formTotalAmount := match initialData with Some r => totalAmount r | None => 0 end;
     formSpecialRequests :=
       match initialData with
       | Some r => match specialRequests r with Some t => t | None => "" end
       | None => ""
       end |}.

Definition setSpecificRoomId (formData : FormData) (room : string) : FormData :=
  {| formCustomerId := formCustomerId formData;
     formCheckInDate := formCheckInDate formData;
     formCheckOutDate := formCheckOutDate formData;
     formRoomType := formRoomType formData;
     formSpecificRoomId := room;
     formNumberOfGuests := formNumberOfGuests formData;
     formTotalAmount := formTotalAmount formData;
     formSpecialRequests := formSpecialRequests formData |}.

(** The first [useEffect]: the new [formData] and [showAvailability]. The
    two [setFormData(prev => ...)] are applied in order to the current state. *)
Definition availabilityEffect (tz : Zone) (rooms : list Room) (existingReservations : list Reservation)
    (hotelSettings : HotelSettings) (initialData : option Reservation) (formData : FormData)
    : FormData * bool :=
  match formCheckInDate formData, formCheckOutDate formData with
  | Some _, Some _ =>
      if String.eqb (formRoomType formData) "" then (formData, false)
      else
        let availableRooms :=
          getAvailableRooms tz rooms existingReservations hotelSettings initialData formData in
        let prev1 :=
          match availableRooms with
          | [room] =>
              if String.eqb (formSpecificRoomId formData) ""
              then setSpecificRoomId formData (roomId room) else formData
          | _ => formData
          end in
        let prev2 :=
          if negb (String.eqb (formSpecificRoomId formData) "")
             && negb (existsb (fun room => String.eqb (roomId room) (formSpecificRoomId formData))
                        availableRooms)
          then setSpecificRoomId prev1 "" else prev1 in
        (prev2, true)
  | _, _ => (formData, false)
  end.

End FormState.

(** ** hooks/useReservations: the other operations of the store *)

Module StoreOps.

(** [Omit<DatabaseReservation, 'created_at'>] *)
Record DatabaseReservationData := {
  d_id : string;
  d_customer_id : string;
  d_check_in_date : CalendarDate;
  d_check_out_date : CalendarDate;
  d_room_type : string;
  d_specific_room_id : option string;
  d_number_of_guests : Z;
  d_total_amount : Z;
  d_status : Status;
  d_special_requests : option string;
  d_reminder_sent : bool;
  d_reminder_date : option Date;
  d_confirmation_sent : bool;
  d_confirmation_date : option Date;
  d_cancellation_comment : option string
}.

(** [transformToDbReservation]; it does not read [createdAt]. *)
Definition transformToDbReservation (reservation : Reservation) : DatabaseReservationData := {|
  d_id := id reservation;
  d_customer_id := customerId reservation;
  d_check_in_date := toISODate (checkInDate reservation);
  d_check_out_date := toISODate (checkOutDate reservation);
  d_room_type := roomType reservation;
  d_specific_room_id := specificRoomId reservation;
  d_number_of_guests := numberOfGuests reservation;
  d_total_amount := totalAmount reservation;
  d_status := status reservation;
  d_special_requests := specialRequests reservation;
  d_reminder_sent := reminderSent reservation;
  d_reminder_date := reminderDate reservation;
  d_confirmation_sent := confirmationSent reservation;
  d_confirmation_date := confirmationDate reservation;
  d_cancellation_comment := cancellationComment reservation
|}.

(** The columns of a row other than [created_at]. *)
Definition columnsOf (row : DatabaseReservation) : DatabaseReservationData := {|
  d_id := db_id row;
  d_customer_id := customer_id row;
  d_check_in_date := check_in_date row;
  d_check_out_date := check_out_date row;
  d_room_type := room_type row;
  d_specific_room_id := specific_room_id row;
  d_number_of_guests := number_of_guests row;
  d_total_amount := total_amount row;
  d_status := db_status row;
  d_special_requests := special_requests row;
  d_reminder_sent := reminder_sent row;
  d_reminder_date := reminder_date row;
  d_confirmation_sent := confirmation_sent row;
  d_confirmation_date := confirmation_date row;
  d_cancellation_comment := cancellation_comment row
|}.

(** [Partial<Omit<Reservation, 'id' | 'createdAt'>>]: [None] is a key that is
    absent or [undefined]. A date that is present may be an Invalid Date
    ([Some None]). *)
Record ReservationPatch := {
  pCustomerId : option string;
  pCheckInDate : option (option Date);
  pCheckOutDate : option (option Date);
  pRoomType : option string;
  pSpecificRoomId : option string;
  pNumberOfGuests : option Z;
  pTotalAmount : option Z;
  pStatus : option Status;
  pSpecialRequests : option string;
  pReminderSent : option bool;
  pReminderDate : option Date;
  pConfirmationSent : option bool;
  pConfirmationDate : option Date;
  pCancellationComment : option string
}.

(** [updateData] of [updateReservation]: the columns to write. *)
Record UpdateData := {
  u_customer_id : option string;
  u_check_in_date : option CalendarDate;
  u_check_out_date : option CalendarDate;
  u_room_type : option string;
  u_specific_room_id : option string;
  u_number_of_guests : option Z;
  u_total_amount : option Z;
  u_status : option Status;
  u_special_requests : option string;
  u_reminder_sent : option bool;
  u_reminder_date : option Date;
  u_confirmation_sent : option bool;
  u_confirmation_date : option Date;
  u_cancellation_comment : option string
}.

(** [if (x) ...] on an optional string, and on an optional number *)
Definition whenTruthy (x : option string) : option string :=
  match x with
  | Some v => if String.eqb v "" then None else Some v
  | None => None
  end.

Definition whenNonZero (x : option Z) : option Z :=
  match x with
  | Some n => if truthyNumber n then Some n else None
  | None => None
  end.

(** The message of the [RangeError] that [toISOString()] raises on an Invalid Date. *)
Definition invalidTimeValue : string := "Invalid time value".

(** The construction of [updateData]; an Invalid Date makes [toISOString()]
    throw a [RangeError] ([inl]). *)
Definition buildUpdateData (reservationData : ReservationPatch) : Thrown + UpdateData :=
  match pCheckInDate reservationData, pCheckOutDate reservationData with
  | Some None, _ | _, Some None => inl (ErrorObject invalidTimeValue)
  | checkIn, checkOut =>
      inr {|
        u_customer_id := whenTruthy (pCustomerId reservationData);
        u_check_in_date := match checkIn with Some (Some d) => Some (toISODate d) | _ => None end;
        u_check_out_date := match checkOut with Some (Some d) => Some (toISODate d) | _ => None end;
        u_room_type := whenTruthy (pRoomType reservationData);
        u_specific_room_id := pSpecificRoomId reservationData;
        u_number_of_guests := whenNonZero (pNumberOfGuests reservationData);
        u_total_amount := pTotalAmount reservationData;
        u_status := pStatus reservationData;
        u_special_requests := pSpecialRequests reservationData;
        u_reminder_sent := pReminderSent reservationData;
        u_reminder_date := pReminderDate reservationData;
        u_confirmation_sent := pConfirmationSent reservationData;
        u_confirmation_date := pConfirmationDate reservationData;
        u_cancellation_comment := pCancellationComment reservationData
      |}
  end.

Definition orKeep {A} (new : option A) (old : A) : A :=
  match new with Some v => v | None => old end.

Definition orKeepOpt {A} (new : option A) (old : option A) : option A :=
  match new with Some v => Some v | None => old end.

(** [.update(updateData)] applied to one row. *)
Definition applyUpdate (updateData : UpdateData) (row : DatabaseReservation) : DatabaseReservation := {|
  db_id := db_id row;
  customer_id := orKeep (u_customer_id updateData) (customer_id row);
  check_in_date := orKeep (u_check_in_date updateData) (check_in_date row);
  check_out_date := orKeep (u_check_out_date updateData) (check_out_date row);
  room_type := orKeep (u_room_type updateData) (room_type row);
  specific_room_id := orKeepOpt (u_specific_room_id updateData) (specific_room_id row);
  number_of_guests := orKeep (u_number_of_guests updateData) (number_of_guests row);
  total_amount := orKeep (u_total_amount updateData) (total_amount row);
  db_status := orKeep (u_status updateData) (db_status row);
  special_requests := orKeepOpt (u_special_requests updateData) (special_requests row);
  reminder_sent := orKeep (u_reminder_sent updateData) (reminder_sent row);
  reminder_date := orKeepOpt (u_reminder_date updateData) (reminder_date row);
  confirmation_sent := orKeep (u_confirmation_sent updateData) (confirmation_sent row);
  confirmation_date := orKeepOpt (u_confirmation_date updateData) (confirmation_date row);
  cancellation_comment := orKeepOpt (u_cancellation_comment updateData) (cancellation_comment row);
  created_at := created_at row
|}.

(** [updateReservation]. [rejects] is the verdict of the table's constraints
    on a row to be written (the foreign key to [customers], the column
    types), which live in the database; a refused write comes back as the
    client's error. *)
Definition updateReservation (rejects : DatabaseReservation -> bool)
    (reservationId : string) (reservationData : ReservationPatch) (st : State) : State :=
  let failed err :=
    {| table := table st; reservations := reservations st;
       error := Some (errorMessage err "Failed to update reservation") |} in
  match buildUpdateData reservationData with
  | inl err => failed err
  | inr updateData =>
      let matching := List.filter (fun row => String.eqb (db_id row) reservationId) (table st) in
      if existsb (fun row => rejects (applyUpdate updateData row)) matching
      then failed ClientError
      else
        let table' :=
          map (fun row => if String.eqb (db_id row) reservationId
                          then applyUpdate updateData row else row) (table st) in
        let selected := List.filter (fun row => String.eqb (db_id row) reservationId) table' in
        match selected with
        | [data] =>
            let updatedReservation := transformReservation data in
            {| table := table';
               reservations :=
                 map (fun r => if String.eqb (id r) reservationId then updatedReservation else r)
                   (reservations st);
               error := error st |}
        | _ =>
            {| table := table'; reservations := reservations st;
               error := Some (errorMessage ClientError "Failed to update reservation") |}
        end
  end.

(** [deleteReservation] *)
Definition deleteReservation (reservationId : string) (st : State) : State :=
  {| table := List.filter (fun row => negb (String.eqb (db_id row) reservationId)) (table st);
     reservations := List.filter (fun r => negb (String.eqb (id r) reservationId)) (reservations st);
     error := error st |}.

End StoreOps.

(** ** src/App.tsx: editing a reservation and sending a reminder *)

Module AppEdit.

Import StoreOps.

(** The object [updateReservation] of [App] passes to the hook:
    [{...reservationData, reminderSent, reminderDate}] with the two reminder
    fields of [editingReservation]. *)
Definition editPatch (editingReservation : Reservation)
    (reservationData : ReservationForm.SubmittedReservation) : ReservationPatch := {|
  pCustomerId := Some (ReservationForm.subCustomerId reservationData);
  pCheckInDate := Some (ReservationForm.subCheckInDate reservationData);
  pCheckOutDate := Some (ReservationForm.subCheckOutDate reservationData);
  pRoomType := Some (ReservationForm.subRoomType reservationData);
  pSpecificRoomId := Some (ReservationForm.subSpecificRoomId reservationData);
  pNumberOfGuests := Some (ReservationForm.subNumberOfGuests reservationData);
  pTotalAmount := Some (ReservationForm.subTotalAmount reservationData);
  pStatus := Some (ReservationForm.subStatus reservationData);
  pSpecialRequests := ReservationForm.subSpecialRequests reservationData;
  pReminderSent := Some (reminderSent editingReservation);
  pReminderDate := reminderDate editingReservation;
  pConfirmationSent := None;
  pConfirmationDate := None;
  pCancellationComment := None
|}.

(** [updateReservation] of [App] *)
Definition updateReservation (rejects : DatabaseReservation -> bool)
    (editingReservation : option Reservation)
    (reservationData : ReservationForm.SubmittedReservation) (st : State) : State :=
  match editingReservation with
  | None => st
  | Some editing =>
      StoreOps.updateReservation rejects (id editing) (editPatch editing reservationData) st
  end.

(** The form opened on [editingReservation] and submitted: the store after
    [handleSubmit] and [onSubmit = updateReservation]. An alert leaves it as
    it was. *)
Definition submitEdit (tz : Zone) (rejects : DatabaseReservation -> bool)
    (editing : Reservation) (formData : ReservationForm.FormData) (st : State) : State :=
  match ReservationForm.handleSubmit tz formData with
  | ReservationForm.Alert _ => st
  | ReservationForm.OnSubmit reservationData =>
      updateReservation rejects (Some editing) reservationData st
  end.

(** [{ reminderSent: true, reminderDate: new Date() }] *)
Definition reminderPatch (sentAt : Date) : ReservationPatch := {|
  pCustomerId := None; pCheckInDate := None; pCheckOutDate := None; pRoomType := None;
  pSpecificRoomId := None; pNumberOfGuests := None; pTotalAmount := None; pStatus := None;
  pSpecialRequests := None;
  pReminderSent := Some true;
  pReminderDate := Some sentAt;
  pConfirmationSent := None; pConfirmationDate := None; pCancellationComment := None
|}.

(** [sendReminder]: [customerKnown] tells whether [customers] holds the
    reservation's customer, [emailSent] is [result.success] of [sendEmail],
    [sentAt] is [new Date()]. *)
Definition sendReminder (rejects : DatabaseReservation -> bool)
    (customerKnown emailSent : bool) (sentAt : Date) (reservationId : string) (st : State) : State :=
  match List.find (fun r => String.eqb (id r) reservationId) (reservations st) with
  | Some reservation =>
      if customerKnown && emailSent
      then StoreOps.updateReservation rejects reservationId (reminderPatch sentAt) st
      else st
  | None => st
  end.

(** The [updateData] that opening the form on [editing] with the fields
    [formData] and submitting it sends to the store, if it gets that far. *)
Definition editUpdateData (tz : Zone) (editing : Reservation) (formData : ReservationForm.FormData)
    : option UpdateData :=
  match ReservationForm.handleSubmit tz formData with
  | ReservationForm.Alert _ => None
  | ReservationForm.OnSubmit reservationData =>
      match buildUpdateData (editPatch editing reservationData) with
      | inl _ => None
      | inr updateData => Some updateData
      end
  end.

(** A reservation with the reminder recorded at [sentAt]. *)
Definition withReminder (sentAt : Date) (r : Reservation) : Reservation := {|
  id := id r;
  customerId := customerId r;
  checkInDate := checkInDate r;
  checkOutDate := checkOutDate r;
  roomType := roomType r;
  specificRoomId := specificRoomId r;
  numberOfGuests := numberOfGuests r;
  totalAmount := totalAmount r;
  status := status r;
  specialRequests := specialRequests r;
  reminderSent := true;
  reminderDate := Some sentAt;
  confirmationSent := confirmationSent r;
  confirmationDate := confirmationDate r;
  cancellationComment := cancellationComment r;
  createdAt := createdAt r
|}.

End AppEdit.

(** ** src/components/Dashboard.tsx: the numbers on the cards *)

Module Dashboard.

Import AppViews.

(** [now] is the [new Date()] of the render; [todayUTC] is recomputed on every
    render here, unlike the memoised one of [App]. *)
Definition upcomingReservations (now : Date) (reservations : list Reservation) : list Reservation :=
  List.filter (fun r => (checkInDate r >=? todayUTC now) && bool_decide (status r = Confirmed))
    reservations.

Definition currentlyCheckedIn (reservations : list Reservation) : list Reservation :=
  List.filter (fun r => bool_decide (status r = CheckedIn)) reservations.

Definition pendingReminders (now : Date) (reservations : list Reservation) : nat :=
  length
    (List.filter
       (fun r =>
          if negb (bool_decide (status r = Confirmed)) || reminderSent r then false
          else
            let daysUntilCheckIn := ceilDays (checkInDate r - todayUTC now) in
            (daysUntilCheckIn <=? 3) && (daysUntilCheckIn >=? 0))
       reservations).

Definition noShowRisk (tz : Zone) (now : Date) (reservations : list Reservation) : nat :=
  length
    (List.filter
       (fun r =>
          let checkInDateUTC := DateUTC (getUTCCalendarDate (checkInDate r)) in
          let dayAfterCheckIn := checkInDateUTC + 24 * 60 * 60 * 1000 in
          let currentTimeInMinutes := getHours tz now * 60 + getMinutes tz now in
          let oneAMInMinutes := 1 * 60 in
          (dayAfterCheckIn =? todayUTC now)
          && bool_decide (status r = Confirmed)
          && (currentTimeInMinutes >=? oneAMInMinutes))
       reservations).

(** The clickable entries of [stats], as [filterKey] and [value], in the order
    of the source. [overdueCheckOuts] is the list [App] passes in. *)
Definition clickableStats (tz : Zone) (now : Date) (overdueCheckOuts reservations : list Reservation)
    : list (string * nat) :=
  [ ("upcoming"%string, length (upcomingReservations now reservations));
    ("checked-in"%string, length (currentlyCheckedIn reservations));
    ("overdue"%string, length overdueCheckOuts);
    ("email-reminders"%string, pendingReminders now reservations);
    ("no-show-risk"%string, noShowRisk tz now reservations) ].

End Dashboard.

(** ** src/App.tsx: from a card to the filtered list *)

Module AppFilter.

Import AppViews.

Record ListView := {
  activeTab : string;
  reservationSearchTerm : string;
  currentReservationFilter : option ReservationFilter
}.

(** [filterKey.replace('reservationId:', '')] for a key that starts with it *)
Definition dropReservationIdPrefix (filterKey : string) : string :=
  String.substring 14 (String.length filterKey - 14) filterKey.

Definition handleFilterClick (filterKey : string) (view : ListView) : ListView :=
  if String.prefix "reservationId:" filterKey
  then {| activeTab := "reservations";
          reservationSearchTerm := dropReservationIdPrefix filterKey;
          currentReservationFilter := None |}
  else
    let setFilter f :=
      {| activeTab := "reservations"; reservationSearchTerm := "";
         currentReservationFilter := f |} in
    if String.eqb filterKey "upcoming"
    then setFilter (Some {| filterStatus := None; filterDateType := Some Upcoming |})
    else if String.eqb filterKey "checked-in"
    then setFilter (Some {| filterStatus := Some CheckedIn; filterDateType := None |})
    else if String.eqb filterKey "overdue"
    then setFilter (Some {| filterStatus := None; filterDateType := Some Overdue |})
    else if String.eqb filterKey "pending-reminders"
    then setFilter (Some {| filterStatus := None; filterDateType := Some PendingReminders |})
    else if String.eqb filterKey "no-show-risk"
    then setFilter (Some {| filterStatus := None; filterDateType := Some NoShowRisk |})
    else if String.eqb filterKey "email-reminders"
    then {| activeTab := "email"; reservationSearchTerm := "";
            currentReservationFilter := currentReservationFilter view |}
    else setFilter None.

(** [filteredReservations]. [trim] is [String.prototype.trim]; [matchesSearch]
    is the text search of the callback (the customer lookup and the
    case-insensitive [includes]), given the trimmed term. [today] is the
    memoised [todayUTC] of [App], [now] the [new Date()] of the callback. *)
Definition filteredReservations (trim : string -> string)
    (matchesSearch : string -> Reservation -> bool)
    (tz : Zone) (today now : Date) (hotelSettings : HotelSettings) (view : ListView)
    (reservations : list Reservation) : list Reservation :=
  List.filter
    (fun reservation =>
       match String.eqb (trim (reservationSearchTerm view)) "", currentReservationFilter view with
       | true, Some currentReservationFilter =>
           matchesCardFilter tz today now hotelSettings currentReservationFilter reservation
       | _, _ =>
           let trimmedSearchTerm := trim (reservationSearchTerm view) in
           if String.eqb trimmedSearchTerm "" then true
           else matchesSearch trimmedSearchTerm reservation
       end)
    reservations.

End AppFilter.

(** * Properties *)

(** ** Calendar arithmetic *)

Lemma MS_PER_DAY_pos : 0 < MS_PER_DAY.
Proof. reflexivity. Qed.

(** On a clock that is never changed the operations are plain arithmetic. *)
Ltac fixed_clock :=
  unfold LocalTime, UTCOfLocal in *; cbn [offsetAt offsetOfLocal fixedOffset] in *.

Lemma setDateNextDay_fixed offset t : setDateNextDay (fixedOffset offset) t = t + MS_PER_DAY.
Proof. unfold setDateNextDay. fixed_clock. lia. Qed.

(** A step of [setDate] is a day long, give or take the change of the offset. *)
Lemma setDateNextDay_step tz t :
  t + 18 * MS_PER_HOUR <= setDateNextDay tz t <= t + 30 * MS_PER_HOUR.
Proof.
  pose proof (offset_shift tz t (LocalTime tz t + MS_PER_DAY)) as Hshift.
  unfold setDateNextDay, UTCOfLocal, LocalTime, MS_PER_DAY, MS_PER_HOUR in *. lia.
Qed.

Lemma getUTCCalendarDate_DateUTC d : getUTCCalendarDate (DateUTC d) = d.
Proof. unfold getUTCCalendarDate, DateUTC. apply Z.div_mul. discriminate. Qed.

Lemma getCalendarDate_DateLocal offset d :
  getCalendarDate (fixedOffset offset) (DateLocal (fixedOffset offset) d) = d.
Proof.
  unfold getCalendarDate, DateLocal. fixed_clock.
  replace (d * MS_PER_DAY - offset + offset) with (d * MS_PER_DAY) by lia.
  apply Z.div_mul. discriminate.
Qed.

Lemma getUTCCalendarDate_plus_days t k :
  getUTCCalendarDate (t + k * MS_PER_DAY) = getUTCCalendarDate t + k.
Proof. unfold getUTCCalendarDate. apply Z.div_add. discriminate. Qed.

Lemma getCalendarDate_plus_days offset t k :
  getCalendarDate (fixedOffset offset) (t + k * MS_PER_DAY)
  = getCalendarDate (fixedOffset offset) t + k.
Proof.
  unfold getCalendarDate. fixed_clock.
  replace (t + k * MS_PER_DAY + offset) with (t + offset + k * MS_PER_DAY) by lia.
  apply Z.div_add. discriminate.
Qed.

Lemma getUTCCalendarDate_mono a b : a <= b -> getUTCCalendarDate a <= getUTCCalendarDate b.
Proof. intros H. unfold getUTCCalendarDate. apply Z.div_le_mono; [reflexivity | exact H]. Qed.

(** The helper of the availability check resolves a date to the time of day
    on the UTC calendar day of the date. *)
Lemma App_createTimeAwareDate_object t tm :
  App.createTimeAwareDate (DateObject t) tm = Spec.resolveInstant t tm.
Proof.
  unfold App.createTimeAwareDate, setUTCHours, Spec.resolveInstant, Spec.instantOn, Spec.dayOf,
    Spec.timeOfDayMs.
  rewrite getUTCCalendarDate_DateUTC. unfold DateUTC, getUTCCalendarDate. lia.
Qed.

(** The helper of the form resolves a date to the time of day on the local
    calendar day of the date, here on a clock that is never changed. *)
Lemma Form_createTimeAwareDate_object offset t tm :
  ReservationForm.createTimeAwareDate (fixedOffset offset) (DateObject t) tm
  = Spec.instantOn (getCalendarDate (fixedOffset offset) t) tm - offset.
Proof.
  unfold ReservationForm.createTimeAwareDate, setHours, Spec.instantOn, Spec.timeOfDayMs.
  rewrite getCalendarDate_DateLocal. fixed_clock. lia.
Qed.

(** ** C1: the availability check *)

Lemma occupiesNight_spec policy candidate night r :
  App.occupiesNight policy candidate
    (App.createTimeAwareDate (DateObject night) (checkInTime policy))
    (App.createTimeAwareDate (DateObject (night + 24 * 60 * 60 * 1000)) (checkOutTime policy)) r
  = String.eqb (roomType r) (newRoomType candidate) && Spec.isLive r &&
    Spec.overlap (Spec.resolveInstant night (checkInTime policy))
                 (Spec.resolveInstant (night + MS_PER_DAY) (checkOutTime policy))
                 (Spec.resolveInstant (checkInDate r) (checkInTime policy))
                 (Spec.resolveInstant (checkOutDate r) (checkOutTime policy)).
Proof.
  unfold App.occupiesNight, Spec.isLive, Spec.overlap.
  change (24 * 60 * 60 * 1000) with MS_PER_DAY. rewrite !App_createTimeAwareDate_object.
  set (a := Spec.resolveInstant night _).
  set (b := Spec.resolveInstant (night + MS_PER_DAY) _).
  set (c := Spec.resolveInstant (checkInDate r) _).
  set (d := Spec.resolveInstant (checkOutDate r) _).
  destruct (bool_decide (status r = Cancelled)), (bool_decide (status r = CheckedOut)),
    (String.eqb (roomType r) (newRoomType candidate)); simpl; try reflexivity.
  destruct (Z.leb_spec d a), (Z.ltb_spec a d), (Z.geb_spec c b), (Z.ltb_spec c b);
    simpl; try reflexivity; lia.
Qed.

Lemma nightIsOverbooked_spec policy existing candidate night :
  App.nightIsOverbooked policy existing candidate night
  = Spec.overbooked policy (newRoomType candidate) existing night.
Proof.
  unfold App.nightIsOverbooked, Spec.overbooked, Spec.occupiedCount, Spec.activeRoomsOfType.
  f_equal.
  - f_equal. f_equal. f_equal. apply filter_ext. intros r. apply occupiesNight_spec.
  - f_equal. f_equal. induction (rooms policy) as [|room l IH]; [reflexivity|].
    simpl. destruct (isActive room); simpl; [|exact IH].
    destruct (String.eqb (roomTypeId room) (newRoomType candidate)); simpl; congruence.
Qed.

Lemma nightBound_done checkIn checkOut : checkOut <= checkIn -> Spec.nightBound checkIn checkOut = O.
Proof.
  intros H. unfold Spec.nightBound.
  assert ((checkOut - checkIn + 12 * MS_PER_HOUR - 1) / (12 * MS_PER_HOUR) < 1); [|lia].
  apply Z.div_lt_upper_bound; unfold MS_PER_HOUR in *; lia.
Qed.

Lemma nightBound_step tz checkIn checkOut :
  checkIn < checkOut ->
  (Spec.nightBound (setDateNextDay tz checkIn) checkOut < Spec.nightBound checkIn checkOut)%nat.
Proof.
  intros H. unfold Spec.nightBound. pose proof (setDateNextDay_step tz checkIn) as [Hstep _].
  assert ((checkOut - setDateNextDay tz checkIn + 12 * MS_PER_HOUR - 1) / (12 * MS_PER_HOUR)
          <= (checkOut - checkIn + 12 * MS_PER_HOUR - 1 + (- 1) * (12 * MS_PER_HOUR))
             / (12 * MS_PER_HOUR)) as Hle
    by (apply Z.div_le_mono; [reflexivity | unfold MS_PER_HOUR in *; lia]).
  rewrite Z.div_add in Hle by discriminate.
  assert (1 <= (checkOut - checkIn + 12 * MS_PER_HOUR - 1) / (12 * MS_PER_HOUR))
    by (apply Z.div_le_lower_bound; [reflexivity | unfold MS_PER_HOUR in *; lia]).
  lia.
Qed.

(** Fuel beyond the bound changes nothing. *)
Lemma nightsFrom_enough tz checkOut : forall fuel fuel' night,
  (Spec.nightBound night checkOut <= fuel)%nat ->
  (Spec.nightBound night checkOut <= fuel')%nat ->
  Spec.nightsFrom tz fuel night checkOut = Spec.nightsFrom tz fuel' night checkOut.
Proof.
  induction fuel as [|fuel IH]; intros fuel' night Hfuel Hfuel'.
  - assert (checkOut <= night) as Hle.
    { destruct (Z_lt_dec night checkOut) as [Hlt|]; [|lia].
      pose proof (nightBound_step tz _ _ Hlt). lia. }
    destruct fuel' as [|fuel']; [reflexivity|]. cbn [Spec.nightsFrom].
    destruct (Z.ltb_spec night checkOut); [lia | reflexivity].
  - cbn [Spec.nightsFrom]. destruct (Z.ltb_spec night checkOut) as [Hlt|Hge].
    + pose proof (nightBound_step tz _ _ Hlt) as Hstep.
      destruct fuel' as [|fuel']; [lia|]. cbn [Spec.nightsFrom].
      destruct (Z.ltb_spec night checkOut); [|lia]. f_equal. apply IH; lia.
    + destruct fuel' as [|fuel']; [reflexivity|]. cbn [Spec.nightsFrom].
      destruct (Z.ltb_spec night checkOut); [lia | reflexivity].
Qed.

Lemma stayNights_done tz checkIn checkOut :
  checkOut <= checkIn -> Spec.stayNights tz checkIn checkOut = [].
Proof. intros H. unfold Spec.stayNights. now rewrite nightBound_done. Qed.

Lemma stayNights_step tz checkIn checkOut :
  checkIn < checkOut ->
  Spec.stayNights tz checkIn checkOut
  = checkIn :: Spec.stayNights tz (setDateNextDay tz checkIn) checkOut.
Proof.
  intros H. unfold Spec.stayNights. pose proof (nightBound_step tz _ _ H) as Hstep.
  destruct (Spec.nightBound checkIn checkOut) as [|n] eqn:Hn; [lia|]. cbn [Spec.nightsFrom].
  destruct (Z.ltb_spec checkIn checkOut); [|lia]. f_equal. apply nightsFrom_enough; lia.
Qed.

(** The loop appends, in order, the overbooked nights from [currentDate] on. *)
Lemma availabilityLoop_spec tz policy existing candidate checkOut :
  forall (n : nat) currentDate acc,
    (Spec.nightBound currentDate checkOut <= n)%nat ->
    App.availabilityLoop tz policy existing candidate checkOut currentDate acc
    = acc ++ List.filter (Spec.overbooked policy (newRoomType candidate) existing)
               (Spec.stayNights tz currentDate checkOut).
Proof.
  induction n as [|n IH]; intros currentDate acc Hn.
  - assert (checkOut <= currentDate) as Hle.
    { destruct (Z_lt_dec currentDate checkOut) as [Hlt|]; [|lia].
      pose proof (nightBound_step tz _ _ Hlt). lia. }
    rewrite (stayNights_done _ _ _ Hle). simp availabilityLoop.
    destruct (Z_lt_dec currentDate checkOut); [lia|]. simpl. now rewrite app_nil_r.
  - simp availabilityLoop. destruct (Z_lt_dec currentDate checkOut) as [Hlt|Hge]; simpl.
    + rewrite (stayNights_step _ _ _ Hlt), nightIsOverbooked_spec.
      rewrite IH by (pose proof (nightBound_step tz _ _ Hlt); lia).
      cbn [List.filter].
      destruct (Spec.overbooked policy (newRoomType candidate) existing currentDate);
        [rewrite <- app_assoc|]; reflexivity.
    + rewrite stayNights_done by lia. now rewrite app_nil_r.
Qed.

Lemma checkRoomAvailability_as_filter tz policy existing candidate :
  App.checkRoomAvailability tz policy existing candidate
  = List.filter (Spec.overbooked policy (newRoomType candidate) existing)
      (Spec.stayNights tz (newCheckInDate candidate) (newCheckOutDate candidate)).
Proof.
  unfold App.checkRoomAvailability.
  now rewrite (availabilityLoop_spec tz policy existing candidate _ _ _ _ (Nat.le_refl _)).
Qed.

Lemma nights_increase tz (k : nat) checkIn :
  checkIn <= Nat.iter k (setDateNextDay tz) checkIn.
Proof.
  induction k as [|k IH]; [reflexivity|]. rewrite Nat.iter_succ.
  pose proof (setDateNextDay_step tz (Nat.iter k (setDateNextDay tz) checkIn)) as [Hstep _].
  unfold MS_PER_HOUR in *. lia.
Qed.

(** The nights of a stay are check-in and the days that follow it on the
    hotel's clock, before check-out. *)
Lemma stayNights_elem tz checkOut : forall (n : nat) checkIn night,
  (Spec.nightBound checkIn checkOut <= n)%nat ->
  In night (Spec.stayNights tz checkIn checkOut)
  <-> exists k : nat, night = Nat.iter k (setDateNextDay tz) checkIn /\ night < checkOut.
Proof.
  induction n as [|n IH]; intros checkIn night Hn.
  - assert (checkOut <= checkIn) as Hle.
    { destruct (Z_lt_dec checkIn checkOut) as [Hlt|]; [|lia].
      pose proof (nightBound_step tz _ _ Hlt). lia. }
    rewrite (stayNights_done _ _ _ Hle). split; [intros []|].
    intros (k & -> & Hk). pose proof (nights_increase tz k checkIn). lia.
  - destruct (Z_lt_dec checkIn checkOut) as [Hlt|Hge].
    + rewrite (stayNights_step _ _ _ Hlt). cbn [In].
      rewrite IH by (pose proof (nightBound_step tz _ _ Hlt); lia). split.
      * intros [<- | (k & -> & Hk)].
        -- exists O. split; [reflexivity | exact Hlt].
        -- exists (S k). rewrite Nat.iter_succ_r. split; [reflexivity | exact Hk].
      * intros (k & -> & Hk). destruct k as [|k]; [now left|]. right.
        exists k. rewrite <- Nat.iter_succ_r. split; [reflexivity | exact Hk].
    + rewrite stayNights_done by lia. split; [intros []|].
      intros (k & -> & Hk). pose proof (nights_increase tz k checkIn). lia.
Qed.

(** On a clock that is never changed the nights are a day apart. *)
Lemma nights_fixed offset (k : nat) checkIn :
  Nat.iter k (setDateNextDay (fixedOffset offset)) checkIn = checkIn + Z.of_nat k * MS_PER_DAY.
Proof.
  induction k as [|k IH]; [simpl; lia|].
  rewrite Nat.iter_succ, IH, setDateNextDay_fixed. lia.
Qed.

(** C1. [checkRoomAvailability] returns exactly the overbooked nights of the
    candidate's stay, in order. The nights are check-in and the same
    wall-clock time on each following day of the hotel's clock, strictly
    before check-out; a night is overbooked exactly when the count of
    existing reservations of the same room type, neither cancelled nor
    checked out, whose window [resolveInstant(in, checkInTime),
    resolveInstant(out, checkOutTime)) overlaps the night's window
    [resolveInstant(night, checkInTime), resolveInstant(night + 1, checkOutTime))
    under the half-open test, plus one, exceeds the number of active rooms of
    that type. [resolveInstant] is the time of day on the UTC calendar day
    of the date. *)
Theorem checkRoomAvailability_overbooked_nights :
  forall tz policy existing candidate,
    App.checkRoomAvailability tz policy existing candidate
      = Spec.findOverbookedNights tz candidate existing policy
    /\ (forall night,
          In night (App.checkRoomAvailability tz policy existing candidate) <->
          (exists k : nat,
              night = Nat.iter k (setDateNextDay tz) (newCheckInDate candidate)
              /\ night < newCheckOutDate candidate)
          /\ Spec.occupiedCount policy (newRoomType candidate) existing night + 1
             > Z.of_nat (length (Spec.activeRoomsOfType (rooms policy) (newRoomType candidate))))
    /\ (App.checkRoomAvailability tz policy existing candidate = [] <->
        forall night,
          In night (Spec.stayNights tz (newCheckInDate candidate) (newCheckOutDate candidate)) ->
          Spec.overbooked policy (newRoomType candidate) existing night = false).
Proof.
  intros tz policy existing candidate.
  assert (App.checkRoomAvailability tz policy existing candidate
          = Spec.findOverbookedNights tz candidate existing policy) as Heq
    by apply checkRoomAvailability_as_filter.
  split; [exact Heq|]. rewrite Heq. unfold Spec.findOverbookedNights. split.
  - intros night. rewrite filter_In, (stayNights_elem tz _ _ _ _ (Nat.le_refl _)).
    unfold Spec.overbooked. rewrite Z.gtb_gt. reflexivity.
  - split.
    + intros Hnil night Hin.
      destruct (Spec.overbooked policy (newRoomType candidate) existing night) eqn:Hov;
        [|reflexivity].
      assert (In night []) as []. rewrite <- Hnil. apply filter_In. now split.
    + intros Hall.
      induction (Spec.stayNights tz (newCheckInDate candidate) (newCheckOutDate candidate))
        as [|night l IH]; [reflexivity|].
      simpl. rewrite (Hall night) by now left. apply IH. intros n Hn. apply Hall. now right.
Qed.

(** Across the change to daylight-saving time the nights are 23 hours
    apart: for a stay from March 9th to March 11th, 2025, entered on a clock
    in Chicago, in a hotel without a suite, the check reports the local
    midnights 06:00Z and 05:00Z. *)
Example nights_across_a_clock_change :
  App.checkRoomAvailability Examples.chicago Examples.standardRooms []
    {| newCheckInDate := DateLocal Examples.chicago 20156;
       newCheckOutDate := DateLocal Examples.chicago 20158;
       newRoomType := "suite" |}
  = [DateUTC 20156 + 6 * MS_PER_HOUR; DateUTC 20157 + 5 * MS_PER_HOUR].
Proof. vm_compute. reflexivity. Qed.

(** ** C2: one clock for every date *)

Lemma createTimeAwareDate_sites_differ_by_offset offset s tm :
  ReservationForm.createTimeAwareDate (fixedOffset offset) (DateString s) tm
  = App.createTimeAwareDate (DateString s) tm - offset.
Proof.
  unfold ReservationForm.createTimeAwareDate, App.createTimeAwareDate, setHours, setUTCHours.
  rewrite getCalendarDate_DateLocal, getUTCCalendarDate_DateUTC. unfold DateUTC. fixed_clock. lia.
Qed.

Lemma createTimeAwareDate_sites_agree_in_utc input tm :
  ReservationForm.createTimeAwareDate (fixedOffset 0) input tm = App.createTimeAwareDate input tm.
Proof.
  destruct input as [s|d]; unfold ReservationForm.createTimeAwareDate, App.createTimeAwareDate,
    setHours, setUTCHours, DateLocal, DateUTC, getCalendarDate, getUTCCalendarDate;
    fixed_clock; rewrite ?Z.add_0_r, ?Z.sub_0_r; reflexivity.
Qed.

(** C2. The two copies of [createTimeAwareDate] do not resolve the same
    instant: on the hotel's clock (UTC-6) the check-in date 2025-01-10 as the
    store delivers it, with the 15:00 policy, is 2025-01-10T15:00Z for the
    availability check and 2025-01-09T21:00Z (15:00 local on January 9th) for
    the form's room resolver and date search. *)
Theorem createTimeAwareDate_sites_disagree :
  App.createTimeAwareDate (DateObject (DateUTC Examples.jan10)) Examples.threePm
    = DateUTC Examples.jan10 + 15 * MS_PER_HOUR
  /\ ReservationForm.createTimeAwareDate Examples.tzCentral (DateObject (DateUTC Examples.jan10))
       Examples.threePm
    = DateUTC Examples.jan9 + 21 * MS_PER_HOUR
  /\ App.createTimeAwareDate (DateObject (DateUTC Examples.jan10)) Examples.threePm
     <> ReservationForm.createTimeAwareDate Examples.tzCentral (DateObject (DateUTC Examples.jan10))
          Examples.threePm.
Proof. repeat split; vm_compute; congruence. Qed.

(** ** C3: same-day turnover *)

(** Counterexample to C3 as stated: with check-in at 10:00 and check-out at
    12:00, a stay that leaves on January 11th is counted against the first
    night of the stay that arrives on January 11th, and the arriving stay is
    refused the single room left. *)
Lemma back_to_back_overlap_under_early_check_in :
  checkOutDate Examples.stayA = checkInDate Examples.stayB
  /\ roomType Examples.stayA = roomType Examples.stayB
  /\ countedOnNight Examples.earlyCheckInSettings (candidateOf Examples.stayB)
       (checkInDate Examples.stayB) Examples.stayA = true
  /\ Spec.overlap
       (Spec.resolveInstant (checkInDate Examples.stayA) (checkInTime Examples.earlyCheckInSettings))
       (Spec.resolveInstant (checkOutDate Examples.stayA) (checkOutTime Examples.earlyCheckInSettings))
       (Spec.resolveInstant (checkInDate Examples.stayB) (checkInTime Examples.earlyCheckInSettings))
       (Spec.resolveInstant (checkOutDate Examples.stayB) (checkOutTime Examples.earlyCheckInSettings))
     = true.
Proof. repeat split; vm_compute; reflexivity. Qed.

Lemma overlap_false_l a b c d : d <= a -> Spec.overlap a b c d = false.
Proof. intros H. unfold Spec.overlap. destruct (Z.ltb_spec a d); [lia|reflexivity]. Qed.

Lemma overlap_false_r a b c d : b <= c -> Spec.overlap a b c d = false.
Proof.
  intros H. unfold Spec.overlap. destruct (Z.ltb_spec c b); [lia|]. apply andb_false_r.
Qed.

Lemma overlap_sym a b c d : Spec.overlap a b c d = Spec.overlap c d a b.
Proof. unfold Spec.overlap. apply andb_comm. Qed.

(** A stay that leaves by the day of a night is not counted on that night,
    when check-out is not later in the day than check-in. *)
Lemma not_counted_after_departure policy candidate night r :
  Spec.timeOfDayMs (checkOutTime policy) <= Spec.timeOfDayMs (checkInTime policy) ->
  getUTCCalendarDate (checkOutDate r) <= getUTCCalendarDate night ->
  countedOnNight policy candidate night r = false.
Proof.
  intros Hpolicy Hday. unfold countedOnNight. rewrite occupiesNight_spec.
  rewrite overlap_false_l; [apply andb_false_r|].
  unfold Spec.resolveInstant, Spec.instantOn, Spec.dayOf, getUTCCalendarDate in *.
  unfold MS_PER_DAY in *. lia.
Qed.

(** A stay that arrives after the day of a night is not counted on that
    night, under the same policies. *)
Lemma not_counted_before_arrival policy candidate night r :
  Spec.timeOfDayMs (checkOutTime policy) <= Spec.timeOfDayMs (checkInTime policy) ->
  getUTCCalendarDate night < getUTCCalendarDate (checkInDate r) ->
  countedOnNight policy candidate night r = false.
Proof.
  intros Hpolicy Hday. unfold countedOnNight. rewrite occupiesNight_spec.
  rewrite overlap_false_r; [apply andb_false_r|].
  pose proof (getUTCCalendarDate_plus_days night 1) as Hnext. rewrite Z.mul_1_l in Hnext.
  unfold Spec.resolveInstant, Spec.instantOn, Spec.dayOf, getUTCCalendarDate in *.
  rewrite Hnext. unfold MS_PER_DAY in *. lia.
Qed.

(** C3 (amended). Under a policy whose check-out time is not later than its
    check-in time, take two reservations where the first leaves on the day
    the second arrives, the days being the UTC calendar days of the dates,
    which is how the availability check reads them. The test of the check
    finds the two windows apart, in either order; the first is counted on no
    night from the second's arrival on, the second on no night before the
    first's departure; and the first is counted on no night that the check
    examines for a candidate that arrives on that day. *)
Theorem back_to_back_not_overlapping :
  forall policy a b,
    Spec.timeOfDayMs (checkOutTime policy) <= Spec.timeOfDayMs (checkInTime policy) ->
    getUTCCalendarDate (checkOutDate a) = getUTCCalendarDate (checkInDate b) ->
    let aIn := App.createTimeAwareDate (DateObject (checkInDate a)) (checkInTime policy) in
    let aOut := App.createTimeAwareDate (DateObject (checkOutDate a)) (checkOutTime policy) in
    let bIn := App.createTimeAwareDate (DateObject (checkInDate b)) (checkInTime policy) in
    let bOut := App.createTimeAwareDate (DateObject (checkOutDate b)) (checkOutTime policy) in
    negb ((aOut <=? bIn) || (aIn >=? bOut)) = false
    /\ negb ((bOut <=? aIn) || (bIn >=? aOut)) = false
    /\ (forall candidate night,
          getUTCCalendarDate (checkInDate b) <= getUTCCalendarDate night ->
          countedOnNight policy candidate night a = false)
    /\ (forall candidate night,
          getUTCCalendarDate night < getUTCCalendarDate (checkOutDate a) ->
          countedOnNight policy candidate night b = false)
    /\ (forall tz candidate night,
          getUTCCalendarDate (newCheckInDate candidate) = getUTCCalendarDate (checkInDate b) ->
          In night (Spec.stayNights tz (newCheckInDate candidate) (newCheckOutDate candidate)) ->
          countedOnNight policy candidate night a = false).
Proof.
  intros policy a b Hpolicy Hsame aIn aOut bIn bOut.
  assert (aOut <= bIn) as Hturn.
  { subst aOut bIn. rewrite !App_createTimeAwareDate_object.
    unfold Spec.resolveInstant, Spec.instantOn, Spec.dayOf, getUTCCalendarDate in *.
    rewrite Hsame. lia. }
  split; [|split; [|split; [|split]]].
  - destruct (Z.leb_spec aOut bIn); [reflexivity | lia].
  - destruct (Z.geb_spec bIn aOut); [|lia]. now rewrite orb_true_r.
  - intros candidate night Hday. apply not_counted_after_departure; [exact Hpolicy | lia].
  - intros candidate night Hday. apply not_counted_before_arrival; [exact Hpolicy | lia].
  - intros tz candidate night Hday Hnight.
    apply (stayNights_elem tz _ _ _ _ (Nat.le_refl _)) in Hnight as (k & -> & _).
    apply not_counted_after_departure; [exact Hpolicy|].
    rewrite Hsame, <- Hday. apply getUTCCalendarDate_mono, nights_increase.
Qed.

Lemma back_to_back_not_overlapping_witness :
  countedOnNight Examples.defaultSettings (candidateOf Examples.stayB)
    (checkInDate Examples.stayB) Examples.stayA = false.
Proof.
  apply (back_to_back_not_overlapping Examples.defaultSettings Examples.stayA Examples.stayB).
  - vm_compute. congruence.
  - reflexivity.
  - reflexivity.
Defined.

(** ** C9: validation of the stay before submission *)

(** Local midnights come in the order of their days, on every clock. *)
Lemma DateLocal_le tz a b : a <= b -> DateLocal tz a <= DateLocal tz b.
Proof.
  intros Hle. destruct (Z.eq_dec a b) as [->|Hne]; [reflexivity|].
  pose proof (offset_shift tz 0 (a * MS_PER_DAY)) as Ha.
  pose proof (offset_shift tz 0 (b * MS_PER_DAY)) as Hb.
  unfold DateLocal, UTCOfLocal, MS_PER_DAY, MS_PER_HOUR in *. lia.
Qed.

(** C9. A submission whose check-out date is not after its check-in date is
    answered by the alert and returns: [onSubmit] is not invoked. *)
Theorem handleSubmit_rejects_non_positive_stay :
  forall tz formData checkIn checkOut,
    ReservationForm.formCheckInDate formData = Some checkIn ->
    ReservationForm.formCheckOutDate formData = Some checkOut ->
    checkOut <= checkIn ->
    ReservationForm.handleSubmit tz formData
      = ReservationForm.Alert "Check-out date must be after check-in date"
    /\ forall reservation,
         ReservationForm.handleSubmit tz formData <> ReservationForm.OnSubmit reservation.
Proof.
  intros tz formData checkIn checkOut Hin Hout Hle.
  assert (ReservationForm.handleSubmit tz formData
          = ReservationForm.Alert "Check-out date must be after check-in date") as Heq.
  { unfold ReservationForm.handleSubmit. rewrite Hin, Hout. simpl.
    pose proof (DateLocal_le tz checkOut checkIn Hle).
    destruct (Z.leb_spec (DateLocal tz checkOut) (DateLocal tz checkIn)); [reflexivity | lia]. }
  split; [exact Heq|]. intros reservation. rewrite Heq. discriminate.
Qed.

Lemma handleSubmit_rejects_non_positive_stay_witness :
  ReservationForm.handleSubmit Examples.tzCentral
    (Examples.standardForm (Some Examples.jan10) (Some Examples.jan10))
  = ReservationForm.Alert "Check-out date must be after check-in date".
Proof.
  apply (handleSubmit_rejects_non_positive_stay Examples.tzCentral
           (Examples.standardForm (Some Examples.jan10) (Some Examples.jan10))
           Examples.jan10 Examples.jan10); [reflexivity | reflexivity | vm_compute; congruence].
Defined.

(** ** C4: the room resolver *)

Section PoolReduction.

Implicit Types (l : list Reservation) (r : Reservation) (room : Room).

Lemma tally_fold l : forall acc,
  (forall x, x ∈ (fold_left ReservationForm.tallyStep l acc).1 <->
             x ∈ acc.1 \/ exists r, In r l /\ truthy (specificRoomId r) = true
                                   /\ specificRoomId r = Some x)
  /\ (fold_left ReservationForm.tallyStep l acc).2
     = acc.2 + Z.of_nat (length (List.filter SpecRooms.isGeneric l)).
Proof.
  induction l as [|r l IH]; intros acc; simpl.
  - split; [|lia]. intros x. split; [now left|]. intros [H|(r & [] & _)]. exact H.
  - destruct (IH (ReservationForm.tallyStep acc r)) as [IHset IHcount]. split.
    + intros x. rewrite IHset. unfold ReservationForm.tallyStep.
      destruct (truthy (specificRoomId r)) eqn:Ht.
      * destruct (specificRoomId r) as [i|] eqn:Hi; [|discriminate]. simpl.
        rewrite elem_of_union, elem_of_singleton. split.
        -- intros [[-> | H] | (r' & Hin & Ht' & Hx)].
           ++ right. exists r. rewrite Hi. auto.
           ++ now left.
           ++ right. exists r'. auto.
        -- intros [H | (r' & [<- | Hin] & Ht' & Hx)].
           ++ left. now right.
           ++ left. left. congruence.
           ++ right. exists r'. auto.
      * simpl. split.
        -- intros [H | (r' & Hin & Ht' & Hx)]; [now left|]. right. exists r'. auto.
        -- intros [H | (r' & [<- | Hin] & Ht' & Hx)]; [now left | congruence |].
           right. exists r'. auto.
    + rewrite IHcount. unfold ReservationForm.tallyStep, SpecRooms.isGeneric.
      destruct (truthy (specificRoomId r)); simpl; lia.
Qed.

Lemma pins_spec r room :
  SpecRooms.pins r room = true <->
  truthy (specificRoomId r) = true /\ specificRoomId r = Some (roomId room).
Proof.
  unfold SpecRooms.pins, truthy. destruct (specificRoomId r) as [i|]; [|intuition discriminate].
  rewrite andb_true_iff, String.eqb_eq. split.
  - intros [H ->]. auto.
  - intros [H [= ->]]. auto.
Qed.

Lemma reducePool_spec pool l :
  ReservationForm.reducePool pool l
  = (List.filter (fun room => negb (existsb (fun r => SpecRooms.pins r room) l)) pool,
     Z.max 0 (Z.of_nat (length
       (List.filter (fun room => negb (existsb (fun r => SpecRooms.pins r room) l)) pool))
       - Z.of_nat (length (List.filter SpecRooms.isGeneric l)))).
Proof.
  unfold ReservationForm.reducePool, ReservationForm.tallyBookings.
  destruct (tally_fold l (∅, 0)) as [Hset Hcount].
  destruct (fold_left ReservationForm.tallyStep l (∅, 0)) as [specific generic] eqn:Hfold.
  simpl in Hset, Hcount.
  assert (forall room, bool_decide (roomId room ∈ specific)
                       = existsb (fun r => SpecRooms.pins r room) l) as Hpin.
  { intros room. apply eq_true_iff_eq. rewrite bool_decide_eq_true, Hset, existsb_exists.
    split.
    - intros [H | (r & Hin & Ht & Hx)]; [now apply not_elem_of_empty in H|].
      exists r. split; [exact Hin|]. now apply pins_spec.
    - intros (r & Hin & Hp). apply pins_spec in Hp as [Ht Hx]. right. exists r. auto. }
  rewrite (filter_ext _ (fun room => negb (existsb (fun r => SpecRooms.pins r room) l)))
    by (intros room; now rewrite Hpin).
  rewrite Hcount. reflexivity.
Qed.

End PoolReduction.

(** The comparison of the filter is the half-open overlap test. *)
Lemma apart_is_no_overlap a b c d :
  negb ((d <=? a) || (c >=? b)) = Spec.overlap a b c d.
Proof.
  unfold Spec.overlap.
  destruct (Z.leb_spec d a), (Z.ltb_spec a d), (Z.geb_spec c b), (Z.ltb_spec c b);
    simpl; try reflexivity; lia.
Qed.

Lemma roomsOfType_spec roster requestedType :
  List.filter (fun room => String.eqb (roomTypeId room) requestedType && isActive room) roster
  = Spec.activeRoomsOfType roster requestedType.
Proof. unfold Spec.activeRoomsOfType. apply filter_ext. intros room. apply andb_comm. Qed.

Lemma take_max0 {A} (avail : list A) (generic : nat) :
  take (Z.to_nat (Z.max 0 (Z.of_nat (length avail) - Z.of_nat generic))) avail
  = take (length avail - generic)%nat avail.
Proof. f_equal. lia. Qed.

(** On every clock, [getAvailableRooms] is the pool reduction of §4.3 on the
    reservations its filter keeps. *)
Lemma getAvailableRooms_reduces_the_pool tz roster existing policy initialData formData
    checkIn checkOut :
  ReservationForm.formCheckInDate formData = Some checkIn ->
  ReservationForm.formCheckOutDate formData = Some checkOut ->
  ReservationForm.formRoomType formData <> "" ->
  ReservationForm.getAvailableRooms tz roster existing policy initialData formData
  = SpecRooms.poolReduction
      (Spec.activeRoomsOfType roster (ReservationForm.formRoomType formData))
      (List.filter
         (ReservationForm.overlapsWindow tz policy initialData (ReservationForm.formRoomType formData)
            (ReservationForm.createTimeAwareDate tz (DateObject (DateLocal tz checkIn))
               (checkInTime policy))
            (ReservationForm.createTimeAwareDate tz (DateObject (DateLocal tz checkOut))
               (checkOutTime policy)))
         existing).
Proof.
  intros Hin Hout Htype.
  unfold ReservationForm.getAvailableRooms, SpecRooms.poolReduction.
  rewrite Hin, Hout. apply String.eqb_neq in Htype. rewrite Htype.
  rewrite roomsOfType_spec, reducePool_spec. apply take_max0.
Qed.

(** At UTC and east of it, by less than a day, midnight UTC of a day is a
    time of that same day on the local clock. *)
Lemma local_day_of_stored offset d :
  0 <= offset < MS_PER_DAY ->
  getCalendarDate (fixedOffset offset) (DateUTC d) = d.
Proof.
  intros Hoffset. unfold getCalendarDate, DateUTC. fixed_clock.
  symmetry. apply (Z.div_unique _ _ _ offset); lia.
Qed.

(** On such a clock the filter of the form keeps a stored reservation
    exactly when it blocks the stay in the sense of §4.3. *)
Lemma overlapsWindow_spec offset policy initialData requestedType checkIn checkOut row :
  0 <= offset < MS_PER_DAY ->
  ReservationForm.overlapsWindow (fixedOffset offset) policy initialData requestedType
    (ReservationForm.createTimeAwareDate (fixedOffset offset)
       (DateObject (DateLocal (fixedOffset offset) checkIn)) (checkInTime policy))
    (ReservationForm.createTimeAwareDate (fixedOffset offset)
       (DateObject (DateLocal (fixedOffset offset) checkOut)) (checkOutTime policy))
    (transformReservation row)
  = SpecRooms.blocksStayOfType policy (option_map id initialData) requestedType checkIn checkOut
      (transformReservation row).
Proof.
  intros Hoffset.
  unfold ReservationForm.overlapsWindow, SpecRooms.blocksStayOfType, SpecRooms.blocksStay,
    SpecRooms.isExcluded, Spec.isLive, SpecRooms.overlapsStay.
  rewrite apart_is_no_overlap, !Form_createTimeAwareDate_object, !getCalendarDate_DateLocal.
  cbn [transformReservation checkInDate checkOutDate].
  rewrite !(local_day_of_stored offset _ Hoffset).
  unfold Spec.resolveInstant, Spec.dayOf. fold (getUTCCalendarDate (DateUTC (check_in_date row))).
  fold (getUTCCalendarDate (DateUTC (check_out_date row))). rewrite !getUTCCalendarDate_DateUTC.
  assert (forall a b c d, Spec.overlap (a - offset) (b - offset) (c - offset) (d - offset)
                          = Spec.overlap a b c d) as ->.
  { intros a b c d. unfold Spec.overlap.
    destruct (Z.ltb_spec (a - offset) (d - offset)), (Z.ltb_spec a d),
      (Z.ltb_spec (c - offset) (b - offset)), (Z.ltb_spec c b); try reflexivity; lia. }
  destruct initialData as [initial|]; simpl;
    [destruct (String.eqb (db_id row) (id initial)); simpl|];
    destruct (bool_decide (db_status row = Cancelled)), (bool_decide (db_status row = CheckedOut)),
      (String.eqb (room_type row) requestedType); simpl; reflexivity.
Qed.

Lemma filter_ext_map {A B} (f g : B -> bool) (h : A -> B) (l : list A) :
  (forall x, f (h x) = g (h x)) -> List.filter f (map h l) = List.filter g (map h l).
Proof.
  intros Hfg. induction l as [|x l IH]; [reflexivity|]. cbn [map List.filter].
  now rewrite Hfg, IH.
Qed.

Lemma getAvailableRooms_spec offset roster rows policy initialData formData checkIn checkOut :
  0 <= offset < MS_PER_DAY ->
  ReservationForm.formCheckInDate formData = Some checkIn ->
  ReservationForm.formCheckOutDate formData = Some checkOut ->
  ReservationForm.formRoomType formData <> "" ->
  ReservationForm.getAvailableRooms (fixedOffset offset) roster (map transformReservation rows)
    policy initialData formData
  = SpecRooms.availableRooms (ReservationForm.formRoomType formData) checkIn checkOut
      (map transformReservation rows) policy roster (option_map id initialData).
Proof.
  intros Hoffset Hin Hout Htype.
  rewrite (getAvailableRooms_reduces_the_pool _ _ _ _ _ _ _ _ Hin Hout Htype).
  unfold SpecRooms.availableRooms. f_equal.
  apply filter_ext_map. intros row. now apply overlapsWindow_spec.
Qed.

(** Counterexample to C4 as stated: a deluxe booking without a room does not
    reduce the pool of standard rooms (the resolver returns both, where the
    statement read to the letter leaves one), and a deluxe booking that names
    room 101 does not remove room 101 from the standard rooms returned. *)
Lemma bookings_of_another_type_are_ignored :
  map roomId
    (ReservationForm.getAvailableRooms Examples.tzUTC (rooms Examples.defaultSettings)
       [Examples.deluxeGeneric] Examples.defaultSettings None
       (Examples.standardForm (Some Examples.jan10) (Some Examples.jan12)))
    = ["1"; "2"]%string
  /\ map roomId
       (SpecRooms.availableRoomsAsStated "standard" Examples.jan10 Examples.jan12
          [Examples.deluxeGeneric] Examples.defaultSettings (rooms Examples.defaultSettings) None)
     = ["1"]%string
  /\ In Examples.room101
       (ReservationForm.getAvailableRooms Examples.tzUTC (rooms Examples.defaultSettings)
          [Examples.deluxeOn101] Examples.defaultSettings None
          (Examples.standardForm (Some Examples.jan10) (Some Examples.jan12)))
  /\ SpecRooms.blocksStay Examples.defaultSettings None Examples.jan10 Examples.jan12
       Examples.deluxeOn101 = true
  /\ SpecRooms.pins Examples.deluxeOn101 Examples.room101 = true.
Proof.
  split; [vm_compute; reflexivity|].
  split; [vm_compute; reflexivity|].
  split; [vm_compute; left; reflexivity|].
  split; vm_compute; reflexivity.
Qed.

Lemma In_take {A} (x : A) n (l : list A) : In x (take n l) -> In x l.
Proof.
  intros H. rewrite <- (take_drop n l). apply in_or_app. now left.
Qed.

(** C4 (amended). On a clock at UTC or east of it by less than a day, with
    the reservations as the store delivers them, [getAvailableRooms] starts
    from the active rooms of the requested type, removes every room pinned by
    an overlapping reservation of that type that is neither cancelled nor
    checked out (whole-stay overlap test on the stored days, the reservation
    being edited left out), reduces the size of what remains by the number of
    such reservations without a room, and returns the first N remaining
    rooms, N being the reduced size (possibly 0); so it never returns a room
    pinned by such a reservation. *)
Theorem getAvailableRooms_pool_reduction :
  forall offset roster rows policy initialData formData checkIn checkOut,
    0 <= offset < MS_PER_DAY ->
    ReservationForm.formCheckInDate formData = Some checkIn ->
    ReservationForm.formCheckOutDate formData = Some checkOut ->
    ReservationForm.formRoomType formData <> ""%string ->
    let existing := map transformReservation rows in
    ReservationForm.getAvailableRooms (fixedOffset offset) roster existing policy initialData
      formData
      = SpecRooms.availableRooms (ReservationForm.formRoomType formData) checkIn checkOut
          existing policy roster (option_map id initialData)
    /\ forall room r,
         In room (ReservationForm.getAvailableRooms (fixedOffset offset) roster existing policy
                    initialData formData) ->
         In r existing ->
         SpecRooms.blocksStayOfType policy (option_map id initialData)
           (ReservationForm.formRoomType formData) checkIn checkOut r = true ->
         SpecRooms.pins r room = false.
Proof.
  intros offset roster rows policy initialData formData checkIn checkOut Hoffset Hin Hout Htype
    existing.
  pose proof (getAvailableRooms_spec offset roster rows policy initialData formData
                checkIn checkOut Hoffset Hin Hout Htype) as Heq.
  split; [exact Heq|]. subst existing. rewrite Heq. clear Heq.
  intros room r Hroom Hr Hblocks.
  unfold SpecRooms.availableRooms, SpecRooms.poolReduction in Hroom.
  apply In_take, filter_In in Hroom as [_ Hfree].
  destruct (SpecRooms.pins r room) eqn:Hpins; [|reflexivity].
  apply negb_true_iff in Hfree.
  assert (existsb (fun r0 => SpecRooms.pins r0 room)
            (List.filter (SpecRooms.blocksStayOfType policy (option_map id initialData)
               (ReservationForm.formRoomType formData) checkIn checkOut)
               (map transformReservation rows)) = true) as Hex.
  { apply existsb_exists. exists r. split; [|exact Hpins]. apply filter_In. now split. }
  congruence.
Qed.

Lemma getAvailableRooms_pool_reduction_witness :
  ReservationForm.getAvailableRooms Examples.tzEast (rooms Examples.standardRooms)
    (reservations Examples.store) Examples.standardRooms None
    (Examples.standardForm (Some Examples.jan11) (Some Examples.jan12))
  = [Examples.room101].
Proof.
  destruct (getAvailableRooms_pool_reduction (1 * MS_PER_HOUR) (rooms Examples.standardRooms)
              (table Examples.store) Examples.standardRooms None
              (Examples.standardForm (Some Examples.jan11) (Some Examples.jan12))
              Examples.jan11 Examples.jan12) as [Heq _].
  - vm_compute. split; congruence.
  - reflexivity.
  - reflexivity.
  - discriminate.
  - etransitivity; [exact Heq|]. vm_compute. reflexivity.
Defined.

(** What the amended statement leaves out: on the hotel's clock (UTC-6) the
    form reads the stored days one day early (the defect of C2), and offers
    room 2 for the night of January 11th although the confirmed reservation
    RES-Y pins it from January 10th to 12th. *)
Example pinned_room_offered_west_of_utc :
  map roomId
    (ReservationForm.getAvailableRooms Examples.tzCentral (rooms Examples.standardRooms)
       (reservations Examples.store) Examples.standardRooms None
       (Examples.standardForm (Some Examples.jan11) (Some Examples.jan12)))
    = ["1"; "2"]%string
  /\ map roomId
       (SpecRooms.availableRooms "standard" Examples.jan11 Examples.jan12
          (reservations Examples.store) Examples.standardRooms (rooms Examples.standardRooms) None)
     = ["1"]%string
  /\ SpecRooms.blocksStayOfType Examples.standardRooms None "standard" Examples.jan11 Examples.jan12
       (transformReservation Examples.confirmedRow) = true
  /\ SpecRooms.pins (transformReservation Examples.confirmedRow) Examples.room102 = true.
Proof. repeat split; vm_compute; reflexivity. Qed.

(** ** C6: the next-available-date search *)

Lemma DateLocal_plus_days offset s k :
  DateLocal (fixedOffset offset) s + k * MS_PER_DAY = DateLocal (fixedOffset offset) (s + k).
Proof. unfold DateLocal. fixed_clock. lia. Qed.

(** The size the loop tests is the number of rooms the pool reduction leaves. *)
Lemma reduced_pool_size pool blocking :
  ((ReservationForm.reducePool pool blocking).2 >? 0)
  = (0 <? Z.of_nat (length (SpecRooms.poolReduction pool blocking))).
Proof.
  rewrite reducePool_spec. unfold SpecRooms.poolReduction. cbn [snd]. rewrite length_take.
  match goal with |- (?t >? 0) = (0 <? ?n) =>
    destruct (Z.gtb_spec t 0), (Z.ltb_spec 0 n) end; try reflexivity; lia.
Qed.

(** At UTC and east of it, the test of one pass of the search loop is the
    feasibility of that start day. *)
Lemma feasible_is_loop_test offset roster rows policy initialData requestedType nights s :
  0 <= offset < MS_PER_DAY ->
  ((ReservationForm.reducePool
      (List.filter (fun room => String.eqb (roomTypeId room) requestedType && isActive room) roster)
      (List.filter
         (ReservationForm.overlapsWindow (fixedOffset offset) policy initialData requestedType
            (ReservationForm.createTimeAwareDate (fixedOffset offset)
               (DateObject (DateLocal (fixedOffset offset) s)) (checkInTime policy))
            (ReservationForm.createTimeAwareDate (fixedOffset offset)
               (DateObject (DateLocal (fixedOffset offset) (s + nights))) (checkOutTime policy)))
         (map transformReservation rows))).2 >? 0)
  = SpecRooms.feasible requestedType nights (map transformReservation rows) policy roster
      (option_map id initialData) s.
Proof.
  intros Hoffset. rewrite reduced_pool_size, roomsOfType_spec.
  unfold SpecRooms.feasible, SpecRooms.availableRooms. do 4 f_equal.
  apply filter_ext_map. intros row. now apply overlapsWindow_spec.
Qed.

Lemma candidatesFrom_step (s : CalendarDate) (n : nat) :
  map (fun k => s + Z.of_nat k) (seq 0 (S n))
  = s :: map (fun k => (s + 1) + Z.of_nat k) (seq 0 n).
Proof.
  cbn [seq map]. f_equal; [lia|].
  rewrite <- seq_shift, map_map. apply map_ext. intros k. lia.
Qed.

Lemma searchLoop_spec offset roster rows policy initialData requestedType nights :
  0 <= offset < MS_PER_DAY ->
  forall remaining s,
    ReservationForm.searchLoop (fixedOffset offset) (map transformReservation rows) policy
      initialData requestedType
      (List.filter (fun room => String.eqb (roomTypeId room) requestedType && isActive room) roster)
      (nights * MS_PER_DAY) remaining (DateLocal (fixedOffset offset) s)
    = option_map (DateLocal (fixedOffset offset))
        (List.find (SpecRooms.feasible requestedType nights (map transformReservation rows) policy
                      roster (option_map id initialData))
           (map (fun k => s + Z.of_nat k) (seq 0 remaining))).
Proof.
  intros Hoffset. induction remaining as [|remaining IH]; intros s; [reflexivity|].
  rewrite candidatesFrom_step. cbn [ReservationForm.searchLoop List.find].
  rewrite <- (feasible_is_loop_test offset roster rows policy initialData requestedType nights s
                Hoffset).
  rewrite DateLocal_plus_days.
  destruct (ReservationForm.reducePool _ _) as [avail total]. cbn [snd].
  destruct (total >? 0); [reflexivity|].
  change (24 * 60 * 60 * 1000) with (1 * MS_PER_DAY). rewrite DateLocal_plus_days. apply IH.
Qed.

Lemma find_candidates (f : CalendarDate -> bool) (n : nat) : forall s x,
  List.find f (map (fun k => s + Z.of_nat k) (seq 0 n)) = Some x ->
  s <= x < s + Z.of_nat n /\ f x = true /\ forall y, s <= y < x -> f y = false.
Proof.
  induction n as [|n IH]; intros s x; [discriminate|].
  rewrite candidatesFrom_step. cbn [List.find]. destruct (f s) eqn:Hs.
  - intros [= <-]. repeat split; [lia | lia | exact Hs | intros y Hy; lia].
  - intros H. apply IH in H as (Hrange & Hx & Hbefore). repeat split; [lia | lia | exact Hx |].
    intros y Hy. destruct (Z.eq_dec y s) as [->|]; [exact Hs|]. apply Hbefore. lia.
Qed.

Lemma find_candidates_none (f : CalendarDate -> bool) (n : nat) : forall s,
  List.find f (map (fun k => s + Z.of_nat k) (seq 0 n)) = None <->
  forall y, s <= y < s + Z.of_nat n -> f y = false.
Proof.
  induction n as [|n IH]; intros s.
  - simpl. split; [intros _ y Hy; lia | reflexivity].
  - rewrite candidatesFrom_step. cbn [List.find]. destruct (f s) eqn:Hs.
    + split; [discriminate|]. intros H. rewrite H in Hs by lia. discriminate.
    + rewrite IH. split.
      * intros H y Hy. destruct (Z.eq_dec y s) as [->|]; [exact Hs|]. apply H. lia.
      * intros H y Hy. apply H. lia.
Qed.

Lemma feasible_needs_rooms requestedType nights existing policy roster exclude s :
  Spec.activeRoomsOfType roster requestedType = [] ->
  SpecRooms.feasible requestedType nights existing policy roster exclude s = false.
Proof.
  intros Hnone. unfold SpecRooms.feasible, SpecRooms.availableRooms, SpecRooms.poolReduction.
  rewrite Hnone. reflexivity.
Qed.

(** What the search does where the form reads the stored days as they are
    stored, at UTC and east of it: it returns the first feasible start day
    among the 365 days from max(today, fromDate + 1 day) on, as local
    midnight of that day, and nothing when none of them is feasible. *)
Lemma search_is_first_feasible_east_of_utc offset now roster rows policy initialData formData
    fromDate checkOut :
  0 <= offset < MS_PER_DAY ->
  ReservationForm.formCheckInDate formData = Some fromDate ->
  ReservationForm.formCheckOutDate formData = Some checkOut ->
  ReservationForm.formRoomType formData <> ""%string ->
  fromDate < checkOut ->
  ReservationForm.getNextAvailableDateForRequestedDuration (fixedOffset offset) now roster
    (map transformReservation rows) policy initialData formData
  = option_map (DateLocal (fixedOffset offset))
      (SpecRooms.nextFeasibleStart (ReservationForm.formRoomType formData) (checkOut - fromDate)
         (getCalendarDate (fixedOffset offset) now) fromDate
         (map transformReservation rows) policy roster (option_map id initialData)).
Proof.
  intros Hoffset Hin Hout Htype Hlt.
  unfold ReservationForm.getNextAvailableDateForRequestedDuration, SpecRooms.nextFeasibleStart,
    SpecRooms.candidates.
  rewrite Hin, Hout. pose proof Htype as Hneq. apply String.eqb_neq in Hneq. rewrite Hneq.
  assert (DateLocal (fixedOffset offset) checkOut - DateLocal (fixedOffset offset) fromDate
          = (checkOut - fromDate) * MS_PER_DAY) as ->
    by (unfold DateLocal; fixed_clock; lia).
  destruct (Z.leb_spec ((checkOut - fromDate) * MS_PER_DAY) 0) as [Hbad|_];
    [unfold MS_PER_DAY in Hbad; lia|].
  destruct (List.filter _ roster) as [|room pool] eqn:Hpool.
  - cbn [length Nat.eqb].
    match goal with |- None = option_map _ (List.find ?f ?l) =>
      assert (List.find f l = None) as ->; [|reflexivity] end.
    apply find_candidates_none. intros y _. apply feasible_needs_rooms.
    now rewrite <- roomsOfType_spec.
  - cbn [length Nat.eqb]. rewrite <- Hpool.
    assert (Z.max (DateLocal (fixedOffset offset) (getCalendarDate (fixedOffset offset) now))
              (DateLocal (fixedOffset offset) fromDate + 24 * 60 * 60 * 1000)
            = DateLocal (fixedOffset offset)
                (SpecRooms.scanStart (getCalendarDate (fixedOffset offset) now) fromDate)) as ->.
    { unfold SpecRooms.scanStart, DateLocal. fixed_clock. unfold MS_PER_DAY. lia. }
    now apply searchLoop_spec.
Qed.

(** C6. On the hotel's clock (UTC-6) the search does not apply the pool
    reduction to the window it proposes. Both standard rooms are booked from
    January 10th to 12th; asked on January 9th for one night from January
    10th, the search returns January 11th (local midnight), a day on which
    no room is free: the first feasible start is January 12th, and the
    availability check itself refuses the stay of January 11th. *)
Theorem next_available_date_misses_bookings_west_of_utc :
  let existing := [Examples.bookingOf101; transformReservation Examples.confirmedRow] in
  let form := Examples.standardForm (Some Examples.jan10) (Some Examples.jan11) in
  ReservationForm.getNextAvailableDateForRequestedDuration Examples.tzCentral
    Examples.jan9_11h01_central (rooms Examples.standardRooms) existing Examples.standardRooms
    None form
  = Some (DateLocal Examples.tzCentral Examples.jan11)
  /\ SpecRooms.feasible "standard" 1 existing Examples.standardRooms
       (rooms Examples.standardRooms) None Examples.jan11 = false
  /\ SpecRooms.nextFeasibleStart "standard" 1
       (getCalendarDate Examples.tzCentral Examples.jan9_11h01_central) Examples.jan10
       existing Examples.standardRooms (rooms Examples.standardRooms) None
     = Some Examples.jan12
  /\ App.checkRoomAvailability Examples.tzCentral Examples.standardRooms existing
       {| newCheckInDate := DateLocal Examples.tzCentral Examples.jan11;
          newCheckOutDate := DateLocal Examples.tzCentral Examples.jan12;
          newRoomType := "standard" |}
     = [DateLocal Examples.tzCentral Examples.jan11].
Proof. repeat split; vm_compute; reflexivity. Qed.

(** The same request on a clock at UTC gets January 12th. *)
Example next_available_date_on_a_utc_clock :
  ReservationForm.getNextAvailableDateForRequestedDuration Examples.tzUTC
    (DateUTC Examples.jan9) (rooms Examples.standardRooms)
    [Examples.bookingOf101; transformReservation Examples.confirmedRow] Examples.standardRooms
    None (Examples.standardForm (Some Examples.jan10) (Some Examples.jan11))
  = Some (DateUTC Examples.jan12).
Proof. vm_compute. reflexivity. Qed.

(** Across the end of daylight-saving time the steps of 24 hours leave
    local midnight: on the clock of America/Chicago, with room 101 booked for
    November 1st to 4th, the search asked on October 30th returns the instant
    2025-11-04T05:00Z, which is 23:00 on November 3rd on that clock. *)
Example next_available_date_across_a_clock_change :
  let found := DateUTC Examples.nov4 + 5 * MS_PER_HOUR in
  ReservationForm.getNextAvailableDateForRequestedDuration Examples.chicago
    (DateLocal Examples.chicago Examples.oct30 + 12 * MS_PER_HOUR) [Examples.room101]
    [Examples.autumnBooking] Examples.standardRooms None
    (Examples.standardForm (Some Examples.oct30) (Some (Examples.oct30 + 1)))
  = Some found
  /\ getCalendarDate Examples.chicago found = Examples.nov3
  /\ getHours Examples.chicago found = 23.
Proof. repeat split; vm_compute; reflexivity. Qed.

(** ** The reservation store *)

Section Store.

Import SpecLifecycle.

Lemma updateRow_id i s c row : db_id (updateRow i s c row) = db_id row.
Proof. unfold updateRow. destruct (String.eqb (db_id row) i); reflexivity. Qed.

Lemma update_table i s c st :
  table (updateReservationStatus i s c st) = map (updateRow i s c) (table st).
Proof.
  unfold updateReservationStatus.
  destruct (List.filter _ _) as [|data [|]]; reflexivity.
Qed.

Lemma filter_key_NoDup {A} (key : A -> string) (i : string) (l : list A) :
  List.NoDup (map key l) ->
  (length (List.filter (fun x => String.eqb (key x) i) l) <= 1)%nat.
Proof.
  induction l as [|x l IH]; simpl; [lia|].
  intros Hnd. apply List.NoDup_cons_iff in Hnd as [Hx Hnd]. specialize (IH Hnd).
  destruct (String.eqb (key x) i) eqn:Hxi; [|exact IH]. simpl.
  apply String.eqb_eq in Hxi. subst i.
  assert (List.filter (fun y => String.eqb (key y) (key x)) l = []) as ->; [|simpl; lia].
  clear IH Hnd. induction l as [|y l IH]; [reflexivity|]. simpl in *.
  destruct (String.eqb (key y) (key x)) eqn:Hyx.
  - apply String.eqb_eq in Hyx. exfalso. apply Hx. now left.
  - apply IH. intros H. apply Hx. now right.
Qed.

Lemma map_updateRow_absent i s c (rows : list DatabaseReservation) :
  List.filter (fun row => String.eqb (db_id row) i) (map (updateRow i s c) rows) = [] ->
  map (updateRow i s c) rows = rows.
Proof.
  induction rows as [|row rows IH]; [reflexivity|]. simpl.
  rewrite updateRow_id. destruct (String.eqb (db_id row) i) eqn:Hi; [discriminate|].
  intros H. rewrite (IH H). f_equal. unfold updateRow. now rewrite Hi.
Qed.

Lemma map_updateRow_ids i s c (rows : list DatabaseReservation) :
  map db_id (map (updateRow i s c) rows) = map db_id rows.
Proof. rewrite map_map. apply map_ext. intros row. apply updateRow_id. Qed.

(** A status update keeps the hook's list equal to the image of the table. *)
Lemma update_reservations i s c st :
  coherent st ->
  reservations (updateReservationStatus i s c st)
  = map transformReservation (map (updateRow i s c) (table st)).
Proof.
  intros [Hnd Hco]. unfold updateReservationStatus.
  destruct (List.filter _ (map (updateRow i s c) (table st))) as [|data [|data' rest]] eqn:Hsel.
  - simpl. now rewrite (map_updateRow_absent _ _ _ _ Hsel).
  - simpl. rewrite Hco, !map_map. apply map_ext_in. intros row Hrow. simpl.
    unfold updateRow at 1. destruct (String.eqb (db_id row) i) eqn:Hi; [|reflexivity].
    assert (In (applyUpdateData s c row) [data]) as [<- | []]; [|reflexivity].
    rewrite <- Hsel. apply filter_In. split; [|exact Hi].
    apply in_map_iff. exists row. split; [|exact Hrow]. unfold updateRow. now rewrite Hi.
  - exfalso. pose proof (filter_key_NoDup db_id i (map (updateRow i s c) (table st))) as Hle.
    rewrite map_updateRow_ids, Hsel in Hle. specialize (Hle Hnd). simpl in Hle. lia.
Qed.

Lemma update_coherent i s c st :
  coherent st -> coherent (updateReservationStatus i s c st).
Proof.
  intros Hco. split.
  - rewrite update_table, map_updateRow_ids. apply Hco.
  - rewrite update_reservations by exact Hco. now rewrite update_table.
Qed.

Lemma Forall2_map_in {A B} (P : A -> B -> Prop) (f : A -> B) (l : list A) :
  (forall x, In x l -> P x (f x)) -> Forall2 P l (map f l).
Proof.
  induction l as [|x l IH]; intros H; simpl; constructor.
  - apply H. now left.
  - apply IH. intros y Hy. apply H. now right.
Qed.

Lemma Forall2_map_map_in {A B} (P : B -> B -> Prop) (f g : A -> B) (l : list A) :
  (forall x, In x l -> P (f x) (g x)) -> Forall2 P (map f l) (map g l).
Proof.
  induction l as [|x l IH]; intros H; simpl; constructor.
  - apply H. now left.
  - apply IH. intros y Hy. apply H. now right.
Qed.

Lemma applyUpdateData_rowUpdatedAs i s c row :
  rowUpdatedAs i s c row (updateRow i s c row).
Proof.
  unfold rowUpdatedAs, updateRow. destruct (String.eqb (db_id row) i); [|reflexivity].
  unfold sameOtherColumns, commentWritten. simpl. repeat split; reflexivity.
Qed.

Lemma transform_updatedAs i s c row :
  updatedAs i s c (transformReservation row) (transformReservation (updateRow i s c row)).
Proof.
  unfold updatedAs, updateRow. simpl. destruct (String.eqb (db_id row) i); [|reflexivity].
  unfold sameOtherFields, commentWritten. simpl. repeat split; reflexivity.
Qed.

Lemma update_reservations_frame i s c st :
  coherent st ->
  Forall2 (updatedAs i s c) (reservations st) (reservations (updateReservationStatus i s c st)).
Proof.
  intros Hco. rewrite update_reservations by exact Hco. destruct Hco as [_ ->].
  rewrite map_map. apply Forall2_map_map_in. intros row _. apply transform_updatedAs.
Qed.

(** C10. A status update writes the status column of the rows with that id,
    and their cancellation comment only when the target status is cancelled
    and a comment is supplied; every other column of those rows and every
    other row stay as they were, and so do the reservations of the hook's
    list. *)
Theorem updateReservationStatus_frame :
  forall reservationId newStatus comment st,
    coherent st ->
    Forall2 (rowUpdatedAs reservationId newStatus comment)
      (table st) (table (updateReservationStatus reservationId newStatus comment st))
    /\ Forall2 (updatedAs reservationId newStatus comment)
         (reservations st) (reservations (updateReservationStatus reservationId newStatus comment st))
    /\ coherent (updateReservationStatus reservationId newStatus comment st).
Proof.
  intros i s c st Hco. split; [|split].
  - rewrite update_table. apply Forall2_map_in. intros row _. apply applyUpdateData_rowUpdatedAs.
  - now apply update_reservations_frame.
  - now apply update_coherent.
Qed.

(** *** The sweep on the store *)

Lemma calls_fold calls : forall st,
  coherent st ->
  coherent (fold_left UseAutoCancellation.onUpdateStatus calls st)
  /\ table (fold_left UseAutoCancellation.onUpdateStatus calls st)
     = map (fun row => fold_left (fun r c => UseAutoCancellation.callOnRow c r) calls row) (table st).
Proof.
  induction calls as [|call calls IH]; intros st Hco; simpl.
  - split; [exact Hco | now rewrite map_id].
  - destruct (IH (UseAutoCancellation.onUpdateStatus st call)) as [H1 H2]; [now apply update_coherent|].
    split; [exact H1|]. rewrite H2. unfold UseAutoCancellation.onUpdateStatus at 1. rewrite update_table, map_map.
    reflexivity.
Qed.

Lemma rowAfter_no_match calls : forall row,
  (forall c, In c calls -> UseAutoCancellation.updId c <> db_id row) ->
  fold_left (fun r c => UseAutoCancellation.callOnRow c r) calls row = row.
Proof.
  induction calls as [|call calls IH]; intros row Hno; [reflexivity|]. simpl.
  assert (UseAutoCancellation.callOnRow call row = row) as ->.
  { unfold UseAutoCancellation.callOnRow, updateRow. destruct (String.eqb_spec (db_id row) (UseAutoCancellation.updId call))
      as [Heq|]; [|reflexivity]. exfalso. apply (Hno call); [now left | now symmetry]. }
  apply IH. intros c Hc. apply Hno. now right.
Qed.

Lemma checkForNoShows_ids tz fmt now rs c :
  In c (UseAutoCancellation.checkForNoShows tz fmt now rs) ->
  In (UseAutoCancellation.updId c) (map id rs).
Proof.
  unfold UseAutoCancellation.checkForNoShows. intros H.
  apply in_map_iff in H as (r & <- & Hr). apply filter_In in Hr as [Hr _].
  simpl. now apply in_map.
Qed.

(** What the calls of one sweep do to a row of the table. *)
Lemma rowAfter_sweep tz fmt now : forall rs row,
  List.NoDup (map id rs) ->
  In (transformReservation row) rs ->
  fold_left (fun r c => UseAutoCancellation.callOnRow c r) (UseAutoCancellation.checkForNoShows tz fmt now rs) row
  = if UseAutoCancellation.isNoShow tz now (transformReservation row)
    then applyUpdateData Cancelled
           (UseAutoCancellation.updComment
              (UseAutoCancellation.cancelNoShow tz fmt now (transformReservation row))) row
    else row.
Proof.
  induction rs as [|r rs IH]; intros row Hnd Hin; [destruct Hin|].
  apply List.NoDup_cons_iff in Hnd as [Hr Hnd].
  assert (forall row', db_id row' = id r ->
            fold_left (fun r0 c => UseAutoCancellation.callOnRow c r0)
              (UseAutoCancellation.checkForNoShows tz fmt now rs) row' = row') as Hrest.
  { intros row' Hid. apply rowAfter_no_match. intros c Hc Heq.
    apply checkForNoShows_ids in Hc. apply Hr. rewrite <- Hid, <- Heq. exact Hc. }
  unfold UseAutoCancellation.checkForNoShows in *. simpl.
  destruct Hin as [-> | Hin].
  - destruct (UseAutoCancellation.isNoShow tz now (transformReservation row)); simpl.
    + unfold UseAutoCancellation.callOnRow at 2, updateRow. simpl. rewrite String.eqb_refl. now apply Hrest.
    + now apply Hrest.
  - assert (id r <> db_id row) as Hne.
    { intros Heq. apply Hr. rewrite Heq. change (db_id row) with (id (transformReservation row)).
      now apply in_map. }
    destruct (UseAutoCancellation.isNoShow tz now r); simpl; [|now apply IH].
    unfold UseAutoCancellation.callOnRow at 2, updateRow. simpl.
    destruct (String.eqb_spec (db_id row) (id r)) as [Heq|_]; [congruence|]. now apply IH.
Qed.

Lemma ids_of_transformed rows : map id (map transformReservation rows) = map db_id rows.
Proof. rewrite map_map. reflexivity. Qed.

Lemma sweep_table tz fmt now st :
  coherent st ->
  coherent (UseAutoCancellation.useAutoCancellation tz fmt now st)
  /\ table (UseAutoCancellation.useAutoCancellation tz fmt now st)
     = map (fun row =>
              if UseAutoCancellation.isNoShow tz now (transformReservation row)
              then applyUpdateData Cancelled
                     (UseAutoCancellation.updComment
                        (UseAutoCancellation.cancelNoShow tz fmt now (transformReservation row))) row
              else row) (table st).
Proof.
  intros Hco. unfold UseAutoCancellation.useAutoCancellation.
  destruct (calls_fold (UseAutoCancellation.checkForNoShows tz fmt now (reservations st)) st Hco)
    as [H1 H2].
  split; [exact H1|]. rewrite H2. apply map_ext_in. intros row Hrow.
  destruct Hco as [Hnd Hres]. rewrite Hres. apply rowAfter_sweep.
  - now rewrite ids_of_transformed.
  - now apply in_map.
Qed.

(** *** The list after a sweep *)

Lemma cancelNoShow_comment_truthy tz fmt now r :
  truthy (UseAutoCancellation.updComment (UseAutoCancellation.cancelNoShow tz fmt now r)) = true.
Proof.
  unfold UseAutoCancellation.cancelNoShow, UseAutoCancellation.departureReason,
    UseAutoCancellation.cutoffReason. cbn [UseAutoCancellation.updComment].
  destruct (UseAutoCancellation.isStayOverdue tz now r); reflexivity.
Qed.

(** The list of the hook after one sweep, reservation by reservation: what
    the filter selects is cancelled with the comment of the call, the rest
    is as it was. *)
Lemma sweep_reservations tz fmt now st :
  coherent st ->
  Forall2
    (fun r r' =>
       if UseAutoCancellation.isNoShow tz now r
       then cancelledWith
              (UseAutoCancellation.updComment (UseAutoCancellation.cancelNoShow tz fmt now r)) r r'
       else r' = r)
    (reservations st) (reservations (UseAutoCancellation.useAutoCancellation tz fmt now st)).
Proof.
  intros Hco. destruct (sweep_table tz fmt now st Hco) as [[_ Hres'] Htab].
  rewrite Hres', Htab. destruct Hco as [_ ->]. rewrite map_map.
  apply Forall2_map_map_in. intros row _.
  destruct (UseAutoCancellation.isNoShow tz now (transformReservation row)); [|reflexivity].
  unfold cancelledWith, sameOtherFields. cbn -[truthy UseAutoCancellation.cancelNoShow].
  rewrite cancelNoShow_comment_truthy. repeat split; reflexivity.
Qed.

Lemma isNoShow_confirmed tz now r :
  UseAutoCancellation.isNoShow tz now r = true -> status r = Confirmed.
Proof.
  unfold UseAutoCancellation.isNoShow. case_bool_decide as Hst; [intros _; exact Hst|].
  discriminate.
Qed.

(** After a sweep no reservation of the list is selected by the filter. *)
Lemma sweep_leaves_no_no_show tz fmt now st :
  coherent st ->
  UseAutoCancellation.checkForNoShows tz fmt now
    (reservations (UseAutoCancellation.useAutoCancellation tz fmt now st)) = [].
Proof.
  intros Hco. pose proof (sweep_reservations tz fmt now st Hco) as Hswept.
  unfold UseAutoCancellation.checkForNoShows.
  induction Hswept as [|r r' l l' Hr _ IH]; [reflexivity|]. cbn [List.filter].
  assert (UseAutoCancellation.isNoShow tz now r' = false) as ->; [|exact IH].
  destruct (UseAutoCancellation.isNoShow tz now r) eqn:Hsel.
  - destruct Hr as (Hstatus & _).
    destruct (UseAutoCancellation.isNoShow tz now r') eqn:Hsel'; [|reflexivity].
    apply isNoShow_confirmed in Hsel'. congruence.
  - now subst r'.
Qed.

(** C8. Running the sweep a second time at the same instant changes
    nothing: after the first pass the filter selects no reservation, so the
    second pass makes no call and leaves the store, and with it every status,
    as the first pass left it. *)
Theorem sweep_idempotent :
  forall tz toLocaleDateString now st,
    coherent st ->
    UseAutoCancellation.checkForNoShows tz toLocaleDateString now
      (reservations (UseAutoCancellation.useAutoCancellation tz toLocaleDateString now st)) = []
    /\ UseAutoCancellation.useAutoCancellation tz toLocaleDateString now
         (UseAutoCancellation.useAutoCancellation tz toLocaleDateString now st)
       = UseAutoCancellation.useAutoCancellation tz toLocaleDateString now st
    /\ map status
         (reservations
            (UseAutoCancellation.useAutoCancellation tz toLocaleDateString now
               (UseAutoCancellation.useAutoCancellation tz toLocaleDateString now st)))
       = map status
           (reservations (UseAutoCancellation.useAutoCancellation tz toLocaleDateString now st)).
Proof.
  intros tz fmt now st Hco.
  pose proof (sweep_leaves_no_no_show tz fmt now st Hco) as Hnone.
  assert (UseAutoCancellation.useAutoCancellation tz fmt now
            (UseAutoCancellation.useAutoCancellation tz fmt now st)
          = UseAutoCancellation.useAutoCancellation tz fmt now st) as Hsame.
  { unfold UseAutoCancellation.useAutoCancellation at 1. now rewrite Hnone. }
  split; [exact Hnone|]. split; [exact Hsame|]. now rewrite Hsame.
Qed.

(** *** Status transitions *)

Lemma Forall2_refl_on {A} (P : A -> A -> Prop) (l : list A) :
  (forall x, P x x) -> Forall2 P l l.
Proof. intros H. induction l; constructor; auto. Qed.

Lemma Forall2_compose {A} (P : A -> A -> Prop) :
  (forall x y z, P x y -> P y z -> P x z) ->
  forall l1 l2 l3, Forall2 P l1 l2 -> Forall2 P l2 l3 -> Forall2 P l1 l3.
Proof.
  intros Htrans l1 l2 l3 H12. revert l3.
  induction H12 as [|x y l1 l2 Hxy _ IH]; intros l3 H23; inversion H23; subst; constructor.
  - eapply Htrans; eassumption.
  - now apply IH.
Qed.

Lemma Forall2_weaken_in {A} (P Q : A -> A -> Prop) (l l' : list A) :
  Forall2 P l l' -> (forall x y, In x l -> P x y -> Q x y) -> Forall2 Q l l'.
Proof.
  induction 1 as [|x y l l' Hxy _ IH]; intros Himp; constructor.
  - apply Himp; [now left | exact Hxy].
  - apply IH. intros a b Ha. apply Himp. now right.
Qed.

Lemma statusMonotone_refl r : statusMonotone r r.
Proof. repeat split; auto. Qed.

Lemma statusMonotone_trans r1 r2 r3 :
  statusMonotone r1 r2 -> statusMonotone r2 r3 -> statusMonotone r1 r3.
Proof.
  intros (Hid12 & Hterm12 & Hconf12) (Hid23 & Hterm23 & Hconf23). repeat split.
  - congruence.
  - intros Hterm. pose proof (Hterm12 Hterm) as H12. rewrite <- H12 in Hterm.
    rewrite (Hterm23 Hterm). exact H12.
  - intros Hconf. apply Hconf23, Hconf12, Hconf.
Qed.

Lemma coherent_unique_id st r r' :
  coherent st -> In r (reservations st) -> In r' (reservations st) -> id r = id r' -> r = r'.
Proof.
  intros [Hnd Hres]. rewrite Hres. clear Hres.
  induction (table st) as [|row rows IH]; simpl; [intros []|].
  apply List.NoDup_cons_iff in Hnd as [Hrow Hnd].
  assert (forall x, In x (map transformReservation rows) -> id x <> db_id row) as Hfresh.
  { intros x Hx Heq. apply Hrow. rewrite <- Heq, <- ids_of_transformed. now apply in_map. }
  intros [<- | Hr] [<- | Hr'] Heq.
  - reflexivity.
  - exfalso. now apply (Hfresh r' Hr').
  - exfalso. now apply (Hfresh r Hr).
  - now apply IH.
Qed.

(** A status update to a status other than confirmed, aimed at a reservation
    that is not in a terminal state, respects the state machine. *)
Lemma guarded_update_monotone row s c st :
  coherent st ->
  In row (reservations st) ->
  isTerminal (status row) = false ->
  s <> Confirmed ->
  Forall2 statusMonotone (reservations st)
    (reservations (updateReservationStatus (id row) s c st)).
Proof.
  intros Hco Hrow Hlive Hs.
  apply (Forall2_weaken_in (updatedAs (id row) s c)); [now apply update_reservations_frame|].
  intros r r' Hr Hupd. unfold updatedAs in Hupd.
  destruct (String.eqb_spec (id r) (id row)) as [Heq|_]; [|subst r'; apply statusMonotone_refl].
  assert (r = row) by (eapply coherent_unique_id; eassumption). subst r.
  destruct Hupd as (Hstatus & _ & Hsame). repeat split.
  - apply Hsame.
  - intros Hterm. congruence.
  - intros _. congruence.
Qed.

Lemma transition_monotone tz fmt st st' :
  coherent st ->
  transition tz fmt st st' ->
  coherent st' /\ Forall2 statusMonotone (reservations st) (reservations st').
Proof.
  intros Hco Hstep. destruct Hstep as [st row Hrow | st row Hrow | st row comment Hrow | st now].
  - unfold ReservationList.clickCheckIn. case_bool_decide as Hgate.
    + split; [now apply update_coherent|].
      apply guarded_update_monotone; try assumption; [now rewrite Hgate | discriminate].
    + split; [exact Hco | apply Forall2_refl_on, statusMonotone_refl].
  - unfold ReservationList.clickCheckOut. case_bool_decide as Hgate.
    + split; [now apply update_coherent|].
      apply guarded_update_monotone; try assumption; [now rewrite Hgate | discriminate].
    + split; [exact Hco | apply Forall2_refl_on, statusMonotone_refl].
  - unfold ReservationList.clickCancel, ReservationList.handleCancelReservation.
    destruct (bool_decide (status row = Confirmed) || bool_decide (status row = CheckedIn))
      eqn:Hgate; [|split; [exact Hco | apply Forall2_refl_on, statusMonotone_refl]].
    destruct (List.find _ (reservations st)) as [r0|] eqn:Hfind;
      [|split; [exact Hco | apply Forall2_refl_on, statusMonotone_refl]].
    apply find_some in Hfind as [Hr0 Hid]. apply String.eqb_eq in Hid.
    assert (r0 = row) by (eapply coherent_unique_id; eassumption). subst r0.
    split; [now apply update_coherent|].
    apply guarded_update_monotone; try assumption; [|discriminate].
    apply orb_true_iff in Hgate as [H|H]; apply bool_decide_eq_true in H; now rewrite H.
  - split; [now apply sweep_table|].
    eapply Forall2_weaken_in; [now apply (sweep_reservations tz fmt now)|].
    intros r r' _ Hswept. cbn beta in Hswept.
    destruct (UseAutoCancellation.isNoShow tz now r) eqn:Hsel;
      [|subst r'; apply statusMonotone_refl].
    destruct Hswept as (Hstatus & _ & Hsame). apply isNoShow_confirmed in Hsel.
    repeat split.
    + apply Hsame.
    + rewrite Hsel. discriminate.
    + intros Hne. now destruct Hne.
Qed.

(** C7. Along any sequence of the system's status transitions (check-in,
    check-out and cancel from the reservation list, each offered only in its
    source status, and the policy sweep, which selects confirmed
    reservations only: these are the calls of [updateReservationStatus]), a
    reservation in a terminal state keeps its status, and a reservation that
    has left confirmed does not return to it. *)
Theorem transitions_respect_terminal_states :
  forall tz toLocaleDateString st st',
    coherent st ->
    rtc (transition tz toLocaleDateString) st st' ->
    coherent st' /\ Forall2 statusMonotone (reservations st) (reservations st').
Proof.
  intros tz fmt st st' Hco Hrun. induction Hrun as [st | st st1 st' Hstep _ IH].
  - split; [exact Hco | apply Forall2_refl_on, statusMonotone_refl].
  - destruct (transition_monotone tz fmt st st1 Hco Hstep) as [Hco1 Hmono1].
    destruct (IH Hco1) as [Hco' Hmono']. split; [exact Hco'|].
    eapply Forall2_compose; [apply statusMonotone_trans | exact Hmono1 | exact Hmono'].
Qed.

End Store.

(** ** The sweep against §4.5 *)

Section NoShows.

Import SpecLifecycle.

(** [setHours(0, 0, 0, 0)] on a clock at a fixed offset. *)
Lemma local_midnight offset t :
  UseAutoCancellation.atLocalMidnight (fixedOffset offset) t
  = getCalendarDate (fixedOffset offset) t * MS_PER_DAY - offset.
Proof.
  unfold UseAutoCancellation.atLocalMidnight, setHours. fixed_clock.
  unfold MS_PER_HOUR, MS_PER_MINUTE. lia.
Qed.

Lemma isCheckInToday_spec offset now row :
  0 <= offset < MS_PER_DAY ->
  UseAutoCancellation.isCheckInToday (fixedOffset offset) now (transformReservation row)
  = checkInIsToday (fixedOffset offset) now (transformReservation row).
Proof.
  intros Hoffset. unfold UseAutoCancellation.isCheckInToday, checkInIsToday, Spec.dayOf.
  rewrite !local_midnight. cbn [transformReservation checkInDate].
  rewrite (local_day_of_stored offset _ Hoffset).
  fold (getUTCCalendarDate (DateUTC (check_in_date row))). rewrite getUTCCalendarDate_DateUTC.
  pose proof MS_PER_DAY_pos.
  destruct (Z.eqb_spec (check_in_date row) (getCalendarDate (fixedOffset offset) now)) as [->|Hne].
  - apply Z.eqb_refl.
  - apply Z.eqb_neq. nia.
Qed.

Lemma isStayOverdue_spec offset now row :
  0 <= offset < MS_PER_DAY ->
  UseAutoCancellation.isStayOverdue (fixedOffset offset) now (transformReservation row)
  = departedBeforeToday (fixedOffset offset) now (transformReservation row).
Proof.
  intros Hoffset. unfold UseAutoCancellation.isStayOverdue, departedBeforeToday, Spec.dayOf.
  rewrite !local_midnight. cbn [transformReservation checkOutDate].
  rewrite (local_day_of_stored offset _ Hoffset).
  fold (getUTCCalendarDate (DateUTC (check_out_date row))). rewrite getUTCCalendarDate_DateUTC.
  pose proof MS_PER_DAY_pos.
  destruct (Z.ltb_spec (check_out_date row) (getCalendarDate (fixedOffset offset) now)).
  - apply Z.ltb_lt. nia.
  - apply Z.ltb_ge. nia.
Qed.

(** [now >= cutoffTime] on a clock at a fixed offset. *)
Lemma cutoff_spec offset now :
  (now >=? setHours (fixedOffset offset) now 11 0) = atOrPastCutoff (fixedOffset offset) now.
Proof.
  unfold atOrPastCutoff, setHours, getCalendarDate. fixed_clock.
  pose proof MS_PER_DAY_pos.
  pose proof (Z.div_mod (now + offset) MS_PER_DAY ltac:(lia)) as Hdm.
  rewrite Z.geb_leb.
  destruct (Z.leb_spec (11 * MS_PER_HOUR) ((now + offset) mod MS_PER_DAY)).
  - apply Z.leb_le. unfold MS_PER_MINUTE. lia.
  - apply Z.leb_gt. unfold MS_PER_MINUTE. lia.
Qed.

(** At UTC and east of it the filter of the sweep selects a stored
    reservation exactly when §4.5 cancels it. *)
Lemma isNoShow_spec offset now row :
  0 <= offset < MS_PER_DAY ->
  UseAutoCancellation.isNoShow (fixedOffset offset) now (transformReservation row)
  = autoCancelled (fixedOffset offset) now (transformReservation row).
Proof.
  intros Hoffset. unfold UseAutoCancellation.isNoShow, autoCancelled.
  rewrite (isCheckInToday_spec _ _ _ Hoffset), (isStayOverdue_spec _ _ _ Hoffset), cutoff_spec.
  destruct (bool_decide _); reflexivity.
Qed.

Lemma cutoffReason_cites fmt r :
  cites "11:00" (UseAutoCancellation.cutoffReason fmt r).
Proof.
  exists "Automatically cancelled - Guest did not check in by "%string,
    (" AM on " +:+ fmt (checkInDate r))%string. reflexivity.
Qed.

Lemma departureReason_cites fmt r :
  cites "departure date" (UseAutoCancellation.departureReason fmt r)
  /\ cites (fmt (checkOutDate r)) (UseAutoCancellation.departureReason fmt r).
Proof.
  split.
  - exists "Automatically cancelled - Guest did not check in by "%string,
      (" (" +:+ fmt (checkOutDate r) +:+ ")")%string. reflexivity.
  - exists "Automatically cancelled - Guest did not check in by departure date ("%string,
      ")"%string. reflexivity.
Qed.

(** At UTC and east of it, by less than a day, the sweep does what §4.5
    says: it cancels the confirmed reservations whose check-in date is today
    once the clock shows 11:00, and those whose check-out date is before
    today, each with its reason, and touches nothing else. *)
Lemma sweep_cancels_exactly_no_shows_east_of_utc offset toLocaleDateString now st :
  0 <= offset < MS_PER_DAY ->
  coherent st ->
  Forall2 (sweptAs (fixedOffset offset) toLocaleDateString now)
    (reservations st)
    (reservations
       (UseAutoCancellation.useAutoCancellation (fixedOffset offset) toLocaleDateString now st)).
Proof.
  intros Hoffset Hco.
  eapply Forall2_weaken_in;
    [exact (sweep_reservations (fixedOffset offset) toLocaleDateString now st Hco)|].
  intros r r' Hin Hswept. cbn beta in Hswept.
  destruct Hco as [_ Hres]. rewrite Hres in Hin. apply in_map_iff in Hin as (row & <- & _).
  unfold sweptAs. rewrite <- (isNoShow_spec _ _ _ Hoffset).
  destruct (UseAutoCancellation.isNoShow _ now (transformReservation row)); [|exact Hswept].
  destruct Hswept as (Hstatus & Hcomment & Hsame). split; [exact Hstatus|]. split; [|exact Hsame].
  eexists. split; [exact Hcomment|].
  unfold citesReason. rewrite <- (isStayOverdue_spec _ _ _ Hoffset).
  destruct (UseAutoCancellation.isStayOverdue _ now (transformReservation row)).
  - apply departureReason_cites.
  - apply cutoffReason_cites.
Qed.

(** C5. West of UTC the sweep cancels on the wrong day. The hotel's clock is
    at UTC-6 and the store holds a confirmed reservation for January 10th to
    12th. At 11:01 on January 9th, the day before arrival, §4.5 cancels
    nothing, and the sweep cancels the reservation, citing the 11:00 cutoff.
    At noon on January 12th, the day of departure, §4.5 cancels nothing
    either (the check-out date is not before today), and the sweep cancels
    the reservation, citing the missed departure date. *)
Theorem sweep_cancels_on_the_wrong_day :
  forall toLocaleDateString,
    let guest := transformReservation Examples.confirmedRow in
    let sweep := UseAutoCancellation.useAutoCancellation Examples.tzCentral toLocaleDateString in
    autoCancelled Examples.tzCentral Examples.jan9_11h01_central guest = false
    /\ UseAutoCancellation.checkForNoShows Examples.tzCentral toLocaleDateString
         Examples.jan9_11h01_central (reservations Examples.store)
       = [{| UseAutoCancellation.updId := "RES-Y";
             UseAutoCancellation.updStatus := Cancelled;
             UseAutoCancellation.updComment :=
               Some (UseAutoCancellation.cutoffReason toLocaleDateString guest) |}]
    /\ map (fun r => (id r, status r))
         (reservations (sweep Examples.jan9_11h01_central Examples.store))
       = [("RES-X"%string, Cancelled); ("RES-Y"%string, Cancelled)]
    /\ autoCancelled Examples.tzCentral Examples.jan12_noon_central guest = false
    /\ UseAutoCancellation.checkForNoShows Examples.tzCentral toLocaleDateString
         Examples.jan12_noon_central (reservations Examples.store)
       = [{| UseAutoCancellation.updId := "RES-Y";
             UseAutoCancellation.updStatus := Cancelled;
             UseAutoCancellation.updComment :=
               Some (UseAutoCancellation.departureReason toLocaleDateString guest) |}]
    /\ map (fun r => (id r, status r))
         (reservations (sweep Examples.jan12_noon_central Examples.store))
       = [("RES-X"%string, Cancelled); ("RES-Y"%string, Cancelled)].
Proof.
  intros fmt. repeat split; vm_compute; reflexivity.
Qed.

End NoShows.

(** ** The store of the examples *)

Lemma store_coherent : SpecLifecycle.coherent Examples.store.
Proof.
  split; [|reflexivity]. simpl.
  repeat constructor; simpl; intuition discriminate.
Defined.

Lemma updateReservationStatus_frame_witness :
  Forall2 (SpecLifecycle.updatedAs "RES-Y" Cancelled (Some "guest called"%string))
    (reservations Examples.store)
    (reservations (updateReservationStatus "RES-Y" Cancelled (Some "guest called"%string)
                     Examples.store)).
Proof.
  apply (updateReservationStatus_frame "RES-Y" Cancelled (Some "guest called"%string)
           Examples.store store_coherent).
Defined.

Lemma sweep_idempotent_witness :
  UseAutoCancellation.useAutoCancellation Examples.tzUTC Examples.printDate Examples.jan10_11h01
    (UseAutoCancellation.useAutoCancellation Examples.tzUTC Examples.printDate
       Examples.jan10_11h01 Examples.store)
  = UseAutoCancellation.useAutoCancellation Examples.tzUTC Examples.printDate
      Examples.jan10_11h01 Examples.store.
Proof.
  apply (sweep_idempotent Examples.tzUTC Examples.printDate Examples.jan10_11h01
           Examples.store store_coherent).
Defined.

Lemma transitions_respect_terminal_states_witness :
  Forall2 SpecLifecycle.statusMonotone
    (reservations Examples.store)
    (reservations (UseAutoCancellation.useAutoCancellation Examples.tzUTC Examples.printDate
                     Examples.jan10_11h01 Examples.store)).
Proof.
  apply (transitions_respect_terminal_states Examples.tzUTC Examples.printDate
           Examples.store _ store_coherent).
  apply rtc_once. apply PolicySweep.
Defined.

(** ** The scenarios of the specification, run on the embedding *)

Example scenario_empty_hotel :
  App.checkRoomAvailability Examples.tzUTC Examples.standardRooms []
    (Examples.standardStay Examples.jan10 Examples.jan12) = []
  /\ ReservationForm.getAvailableRooms Examples.tzUTC (rooms Examples.standardRooms) []
       Examples.standardRooms None (Examples.standardForm (Some Examples.jan10) (Some Examples.jan12))
     = [Examples.room101; Examples.room102].
Proof. split; vm_compute; reflexivity. Qed.

Example scenario_one_generic_booking :
  App.checkRoomAvailability Examples.tzUTC Examples.standardRooms [Examples.genericBooking]
    (Examples.standardStay Examples.jan11 Examples.jan13) = []
  /\ ReservationForm.getAvailableRooms Examples.tzUTC (rooms Examples.standardRooms)
       [Examples.genericBooking] Examples.standardRooms None
       (Examples.standardForm (Some Examples.jan11) (Some Examples.jan13))
     = [Examples.room101].
Proof. split; vm_compute; reflexivity. Qed.

Example scenario_both_rooms_booked :
  App.checkRoomAvailability Examples.tzUTC Examples.standardRooms
    [Examples.bookingOf101; Examples.genericBooking]
    (Examples.standardStay Examples.jan10 Examples.jan12)
  = [DateUTC Examples.jan10; DateUTC Examples.jan11].
Proof. vm_compute; reflexivity. Qed.

Example scenario_no_show_at_11h01 :
  map (fun r => (id r, status r, cancellationComment r))
    (reservations (UseAutoCancellation.useAutoCancellation Examples.tzUTC Examples.printDate
                     Examples.jan10_11h01 Examples.store))
  = [("RES-X", Cancelled, None);
     ("RES-Y", Cancelled,
      Some "Automatically cancelled - Guest did not check in by 11:00 AM on 1/10/2025")]%string.
Proof. vm_compute; reflexivity. Qed.

Example scenario_checked_in_is_not_swept :
  map (fun r => (id r, status r))
    (reservations (UseAutoCancellation.useAutoCancellation Examples.tzUTC Examples.printDate
                     Examples.jan10_11h01 Examples.houseStore))
  = [("RES-H", CheckedIn); ("RES-Y", Cancelled)]%string.
Proof. vm_compute; reflexivity. Qed.

(** On the hotel's clock (UTC-6) the stored dates, midnight UTC, fall on the
    evening before: the booking that starts on January 10th is seen by the
    form's resolver as occupying room 2 on the night of January 9th, and is
    swept as a no-show at 11:01 on January 9th. *)
Example stored_dates_on_the_hotel_clock :
  map roomId
    (ReservationForm.getAvailableRooms Examples.tzCentral (rooms Examples.standardRooms)
       (reservations Examples.store) Examples.standardRooms None
       (Examples.standardForm (Some Examples.jan9) (Some Examples.jan10)))
    = ["1"]%string
  /\ map (fun r => (id r, status r))
       (reservations (UseAutoCancellation.useAutoCancellation Examples.tzCentral Examples.printDate
                        Examples.jan9_11h01_central Examples.store))
     = [("RES-X", Cancelled); ("RES-Y", Cancelled)]%string.
Proof. split; vm_compute; reflexivity. Qed.


(** * Further properties of the cited files *)

(** ** The availability check *)

Lemma occupiedCount_cons policy type r existing night :
  Spec.occupiedCount policy type existing night
  <= Spec.occupiedCount policy type (r :: existing) night
  <= Spec.occupiedCount policy type existing night + 1.
Proof.
  unfold Spec.occupiedCount. cbn [List.filter].
  match goal with |- context [if ?c then _ else _] => destruct c end; cbn [length]; lia.
Qed.

Lemma filter_filter_implied {A} (f g : A -> bool) (l : list A) :
  (forall x, f x = true -> g x = true) ->
  List.filter f (List.filter g l) = List.filter f l.
Proof.
  intros Himp. induction l as [|x l IH]; [reflexivity|]. cbn [List.filter].
  destruct (g x) eqn:Hg; cbn [List.filter].
  - now rewrite IH.
  - destruct (f x) eqn:Hf; [|exact IH]. rewrite (Himp x Hf) in Hg. discriminate.
Qed.

Lemma occupiedCount_relevant policy type existing night :
  Spec.occupiedCount policy type
    (List.filter (fun r => Spec.isLive r && String.eqb (roomType r) type) existing) night
  = Spec.occupiedCount policy type existing night.
Proof.
  unfold Spec.occupiedCount. f_equal. f_equal. apply filter_filter_implied.
  intros r Hr. apply andb_true_iff in Hr as [Hr _]. apply andb_true_iff in Hr as [Htype Hlive].
  now rewrite Htype, Hlive.
Qed.

(** Cancelled and checked-out reservations, and reservations of another
    room type, have no influence on the result of the check. *)
Theorem checkRoomAvailability_reads_live_same_type_only :
  forall tz policy existing candidate,
    App.checkRoomAvailability tz policy
      (List.filter
         (fun r => negb (bool_decide (status r = Cancelled))
                   && negb (bool_decide (status r = CheckedOut))
                   && String.eqb (roomType r) (newRoomType candidate))
         existing) candidate
    = App.checkRoomAvailability tz policy existing candidate.
Proof.
  intros tz policy existing candidate.
  change (fun r => negb (bool_decide (status r = Cancelled))
                   && negb (bool_decide (status r = CheckedOut))
                   && String.eqb (roomType r) (newRoomType candidate))
    with (fun r => Spec.isLive r && String.eqb (roomType r) (newRoomType candidate)).
  rewrite !checkRoomAvailability_as_filter.
  apply filter_ext. intros night. unfold Spec.overbooked.
  now rewrite occupiedCount_relevant.
Qed.

(** One more existing reservation never clears an overbooked night. *)
Theorem checkRoomAvailability_monotone :
  forall tz policy existing candidate r night,
    In night (App.checkRoomAvailability tz policy existing candidate) ->
    In night (App.checkRoomAvailability tz policy (r :: existing) candidate).
Proof.
  intros tz policy existing candidate r night. rewrite !checkRoomAvailability_as_filter.
  rewrite !filter_In. intros [Hnight Hover]. split; [exact Hnight|].
  unfold Spec.overbooked in *. apply Z.gtb_gt in Hover. apply Z.gtb_gt.
  pose proof (occupiedCount_cons policy (newRoomType candidate) r existing night). lia.
Qed.

Lemma checkRoomAvailability_monotone_witness :
  In (DateUTC Examples.jan10)
    (App.checkRoomAvailability Examples.tzUTC Examples.standardRooms
       [Examples.stayA; Examples.bookingOf101; Examples.genericBooking]
       (Examples.standardStay Examples.jan10 Examples.jan12)).
Proof.
  apply (checkRoomAvailability_monotone Examples.tzUTC Examples.standardRooms
           [Examples.bookingOf101; Examples.genericBooking]
           (Examples.standardStay Examples.jan10 Examples.jan12) Examples.stayA).
  vm_compute. left. reflexivity.
Defined.

Lemma checkRoomAvailability_no_room tz policy existing candidate :
  (forall room, In room (rooms policy) -> isActive room = true ->
                roomTypeId room <> newRoomType candidate) ->
  App.checkRoomAvailability tz policy existing candidate
  = Spec.stayNights tz (newCheckInDate candidate) (newCheckOutDate candidate).
Proof.
  intros Hnone. rewrite checkRoomAvailability_as_filter.
  assert (Spec.activeRoomsOfType (rooms policy) (newRoomType candidate) = []) as Hempty.
  { unfold Spec.activeRoomsOfType.
    induction (rooms policy) as [|room l IH]; [reflexivity|]. cbn [List.filter].
    destruct (isActive room) eqn:Hact; cbn [andb].
    - destruct (String.eqb_spec (roomTypeId room) (newRoomType candidate)) as [Heq|_].
      + exfalso. apply (Hnone room); [now left | exact Hact | exact Heq].
      + apply IH. intros room' Hin. apply Hnone. now right.
    - apply IH. intros room' Hin. apply Hnone. now right. }
  induction (Spec.stayNights _ _) as [|night l IH]; [reflexivity|]. cbn [List.filter].
  assert (Spec.overbooked policy (newRoomType candidate) existing night = true) as ->.
  { unfold Spec.overbooked. rewrite Hempty. apply Z.gtb_gt. unfold Spec.occupiedCount.
    cbn [length]. lia. }
  now rewrite IH.
Qed.

(** When the requested type has no active room, every night of the stay is
    reported, and nothing else, whatever the existing reservations: the
    nights are check-in, then the same time of day on each following day of
    the browser's clock ([setDate(getDate() + 1)]), before check-out. *)
Theorem checkRoomAvailability_without_rooms :
  forall tz policy existing candidate night,
    (forall room, In room (rooms policy) -> isActive room = true ->
                  roomTypeId room <> newRoomType candidate) ->
    In night (App.checkRoomAvailability tz policy existing candidate)
    <-> exists k : nat,
          night = Nat.iter k (setDateNextDay tz) (newCheckInDate candidate)
          /\ night < newCheckOutDate candidate.
Proof.
  intros tz policy existing candidate night Hnone.
  rewrite (checkRoomAvailability_no_room tz policy existing candidate Hnone).
  apply (stayNights_elem tz _ _ _ _ (Nat.le_refl _)).
Qed.

Lemma checkRoomAvailability_without_rooms_witness :
  In (DateUTC Examples.jan11)
    (App.checkRoomAvailability Examples.tzUTC Examples.standardRooms []
       {| newCheckInDate := DateUTC Examples.jan10; newCheckOutDate := DateUTC Examples.jan12;
          newRoomType := "suite" |}).
Proof.
  apply (checkRoomAvailability_without_rooms Examples.tzUTC Examples.standardRooms []
           {| newCheckInDate := DateUTC Examples.jan10; newCheckOutDate := DateUTC Examples.jan12;
              newRoomType := "suite" |}).
  - intros room Hin _. vm_compute in Hin. destruct Hin as [<- | [<- | []]]; vm_compute; congruence.
  - exists 1%nat. vm_compute. split; reflexivity.
Defined.

(** A stay whose check-out is not after its check-in has no night: the check
    reports nothing, however full the hotel is. *)
Theorem checkRoomAvailability_empty_stay :
  forall tz policy existing candidate,
    newCheckOutDate candidate <= newCheckInDate candidate ->
    App.checkRoomAvailability tz policy existing candidate = [].
Proof.
  intros tz policy existing candidate Hle. rewrite checkRoomAvailability_as_filter.
  now rewrite stayNights_done.
Qed.

Lemma checkRoomAvailability_empty_stay_witness :
  App.checkRoomAvailability Examples.tzUTC Examples.standardRooms
    [Examples.bookingOf101; Examples.genericBooking]
    (Examples.standardStay Examples.jan11 Examples.jan11) = [].
Proof.
  apply (checkRoomAvailability_empty_stay Examples.tzUTC Examples.standardRooms
           [Examples.bookingOf101; Examples.genericBooking]
           (Examples.standardStay Examples.jan11 Examples.jan11)).
  vm_compute. congruence.
Defined.


(** ** The room resolver *)

Lemma filter_length_le_implied {A} (f g : A -> bool) (l : list A) :
  (forall x, f x = true -> g x = true) ->
  (length (List.filter f l) <= length (List.filter g l))%nat.
Proof.
  intros Himp. induction l as [|x l IH]; [reflexivity|]. cbn [List.filter].
  destruct (f x) eqn:Hf.
  - rewrite (Himp x Hf). cbn [length]. lia.
  - destruct (g x); cbn [length]; lia.
Qed.

Lemma poolReduction_cons pool r blocking :
  (length (SpecRooms.poolReduction pool (r :: blocking))
   <= length (SpecRooms.poolReduction pool blocking))%nat.
Proof.
  unfold SpecRooms.poolReduction. rewrite !length_take.
  pose proof (filter_length_le_implied
                (fun room => negb (existsb (fun r0 => SpecRooms.pins r0 room) (r :: blocking)))
                (fun room => negb (existsb (fun r0 => SpecRooms.pins r0 room) blocking)) pool) as Hle.
  assert (length (List.filter SpecRooms.isGeneric blocking)
          <= length (List.filter SpecRooms.isGeneric (r :: blocking)))%nat as Hgen.
  { cbn [List.filter]. destruct (SpecRooms.isGeneric r); cbn [length]; lia. }
  assert (forall room,
            negb (existsb (fun r0 => SpecRooms.pins r0 room) (r :: blocking)) = true ->
            negb (existsb (fun r0 => SpecRooms.pins r0 room) blocking) = true) as Himp.
  { intros room. cbn [existsb]. destruct (SpecRooms.pins r room); [discriminate | auto]. }
  specialize (Hle Himp). lia.
Qed.

(** One more existing reservation never makes more rooms available. *)
Theorem getAvailableRooms_antitone :
  forall tz roster existing policy initialData formData r,
    (length (ReservationForm.getAvailableRooms tz roster (r :: existing) policy initialData formData)
     <= length (ReservationForm.getAvailableRooms tz roster existing policy initialData formData))%nat.
Proof.
  intros tz roster existing policy initialData formData r.
  destruct (ReservationForm.formCheckInDate formData) as [checkIn|] eqn:Hin;
    [|unfold ReservationForm.getAvailableRooms; rewrite Hin; reflexivity].
  destruct (ReservationForm.formCheckOutDate formData) as [checkOut|] eqn:Hout;
    [|unfold ReservationForm.getAvailableRooms; rewrite Hin, Hout; reflexivity].
  destruct (String.eqb_spec (ReservationForm.formRoomType formData) "") as [Hempty|Htype].
  { unfold ReservationForm.getAvailableRooms. rewrite Hin, Hout, Hempty. reflexivity. }
  rewrite !(getAvailableRooms_reduces_the_pool _ _ _ _ _ _ checkIn checkOut Hin Hout Htype).
  cbn [List.filter].
  destruct (ReservationForm.overlapsWindow _ _ _ _ _ _ r); [apply poolReduction_cons | reflexivity].
Qed.

(** Every room returned is a room of the roster that is active and of the
    requested type. *)
Theorem getAvailableRooms_only_active_rooms_of_type :
  forall tz roster existing policy initialData formData room,
    In room (ReservationForm.getAvailableRooms tz roster existing policy initialData formData) ->
    In room roster /\ isActive room = true
    /\ roomTypeId room = ReservationForm.formRoomType formData.
Proof.
  intros tz roster existing policy initialData formData room.
  unfold ReservationForm.getAvailableRooms.
  destruct (ReservationForm.formCheckInDate formData) as [checkIn|]; [|intros []].
  destruct (ReservationForm.formCheckOutDate formData) as [checkOut|]; [|intros []].
  destruct (String.eqb (ReservationForm.formRoomType formData) ""); [intros []|].
  rewrite reducePool_spec. intros Hin.
  apply In_take, filter_In in Hin as [Hin _]. apply filter_In in Hin as [Hroster Hroom].
  apply andb_true_iff in Hroom as [Htype Hactive]. apply String.eqb_eq in Htype. auto.
Qed.

Lemma getAvailableRooms_only_active_rooms_of_type_witness :
  isActive Examples.room101 = true.
Proof.
  apply (getAvailableRooms_only_active_rooms_of_type Examples.tzUTC (rooms Examples.standardRooms)
           [Examples.genericBooking] Examples.standardRooms None
           (Examples.standardForm (Some Examples.jan11) (Some Examples.jan13)) Examples.room101).
  vm_compute. left. reflexivity.
Defined.

Lemma filter_filter_and {A} (f g : A -> bool) (l : list A) :
  List.filter f (List.filter g l) = List.filter (fun x => g x && f x) l.
Proof.
  induction l as [|x l IH]; [reflexivity|]. cbn [List.filter].
  destruct (g x); cbn [List.filter andb]; [destruct (f x)|]; now rewrite IH.
Qed.

(** While a reservation is edited, availability is computed as if that
    reservation (every entry with its id) were not in the list. *)
Theorem getAvailableRooms_leaves_out_edited :
  forall tz roster existing policy editing formData,
    ReservationForm.getAvailableRooms tz roster existing policy (Some editing) formData
    = ReservationForm.getAvailableRooms tz roster
        (List.filter (fun r => negb (String.eqb (id r) (id editing))) existing)
        policy None formData.
Proof.
  intros tz roster existing policy editing formData. unfold ReservationForm.getAvailableRooms.
  destruct (ReservationForm.formCheckInDate formData) as [checkIn|]; [|reflexivity].
  destruct (ReservationForm.formCheckOutDate formData) as [checkOut|]; [|reflexivity].
  destruct (String.eqb (ReservationForm.formRoomType formData) ""); [reflexivity|].
  rewrite filter_filter_and.
  erewrite (filter_ext (ReservationForm.overlapsWindow tz policy (Some editing) _ _ _));
    [reflexivity|].
  intros r. unfold ReservationForm.overlapsWindow.
  destruct (String.eqb (id r) (id editing)); reflexivity.
Qed.

Lemma getAvailableRooms_ignores_selected_room tz roster existing policy initialData formData room :
  ReservationForm.getAvailableRooms tz roster existing policy initialData
    (FormState.setSpecificRoomId formData room)
  = ReservationForm.getAvailableRooms tz roster existing policy initialData formData.
Proof. reflexivity. Qed.

Lemma setSpecificRoomId_same formData :
  FormState.setSpecificRoomId formData (ReservationForm.formSpecificRoomId formData) = formData.
Proof. destruct formData. reflexivity. Qed.

Section AvailabilityEffect.

Variables (tz : Zone) (roster : list Room) (existing : list Reservation) (policy : HotelSettings)
          (initialData : option Reservation).

#[local] Abbreviation available f :=
  (ReservationForm.getAvailableRooms tz roster existing policy initialData f).

#[local] Abbreviation run f :=
  ((FormState.availabilityEffect tz roster existing policy initialData f).1).

#[local] Abbreviation shown f :=
  ((FormState.availabilityEffect tz roster existing policy initialData f).2).

(* The room selected in the form is none, or one of the available rooms. *)
#[local] Abbreviation selectionOk f :=
  (ReservationForm.formSpecificRoomId f = ""%string
   \/ exists room, In room (available f) /\ roomId room = ReservationForm.formSpecificRoomId f).

Lemma availabilityEffect_hidden f : shown f = false -> run f = f.
Proof.
  unfold FormState.availabilityEffect.
  destruct (ReservationForm.formCheckInDate f); [|reflexivity].
  destruct (ReservationForm.formCheckOutDate f); [|reflexivity].
  destruct (String.eqb (ReservationForm.formRoomType f) ""); [reflexivity | discriminate].
Qed.

(** The three outcomes of one run when the availability is shown. *)
Lemma availabilityEffect_cases f :
  shown f = true ->
  (run f = f
   /\ (ReservationForm.formSpecificRoomId f = ""%string
       \/ existsb (fun room => String.eqb (roomId room) (ReservationForm.formSpecificRoomId f))
            (available f) = true))
  \/ (ReservationForm.formSpecificRoomId f = ""%string
      /\ exists room, available f = [room] /\ run f = FormState.setSpecificRoomId f (roomId room))
  \/ (ReservationForm.formSpecificRoomId f <> ""%string
      /\ existsb (fun room => String.eqb (roomId room) (ReservationForm.formSpecificRoomId f))
           (available f) = false
      /\ run f = FormState.setSpecificRoomId f "").
Proof.
  unfold FormState.availabilityEffect.
  destruct (ReservationForm.formCheckInDate f); [|discriminate].
  destruct (ReservationForm.formCheckOutDate f); [|discriminate].
  destruct (String.eqb (ReservationForm.formRoomType f) ""); [discriminate|].
  intros _. cbn [fst].
  destruct (String.eqb_spec (ReservationForm.formSpecificRoomId f) "") as [Hnone|Hsome];
    cbn [negb andb].
  - destruct (ReservationForm.getAvailableRooms tz roster existing policy initialData f)
      as [|room [|room' rest]]; [left; split; [reflexivity | now left] | |
                                  left; split; [reflexivity | now left]].
    right. left. split; [exact Hnone|]. exists room. now split.
  - destruct (existsb _ _) eqn:Hex; cbn [negb].
    + left. split; [|now right].
      destruct (ReservationForm.getAvailableRooms tz roster existing policy initialData f)
        as [|? [|? ?]]; reflexivity.
    + right. right. split; [exact Hsome|]. split; [reflexivity|].
      destruct (ReservationForm.getAvailableRooms tz roster existing policy initialData f)
        as [|? [|? ?]]; reflexivity.
Qed.

Lemma shown_setSpecificRoomId f room : shown (FormState.setSpecificRoomId f room) = shown f.
Proof.
  unfold FormState.availabilityEffect. cbn.
  destruct (ReservationForm.formCheckInDate f); [|reflexivity].
  destruct (ReservationForm.formCheckOutDate f); [|reflexivity].
  destruct (String.eqb (ReservationForm.formRoomType f) ""); reflexivity.
Qed.

Lemma availabilityEffect_selectionOk f : shown f = true -> selectionOk (run f).
Proof.
  intros Hshown.
  destruct (availabilityEffect_cases f Hshown)
    as [[Hsame Hwhy] | [(Hnone & room & Hav & Hrun) | (Hsome & Hex & Hrun)]].
  - rewrite Hsame. destruct Hwhy as [Hnone | Hex]; [now left|]. right.
    apply existsb_exists in Hex as (room & Hin & Heq). apply String.eqb_eq in Heq.
    exists room. now split.
  - rewrite Hrun. right. exists room.
    rewrite getAvailableRooms_ignores_selected_room, Hav. split; [now left | reflexivity].
  - rewrite Hrun. now left.
Qed.

Lemma availabilityEffect_stable f : selectionOk f -> run (run f) = run f.
Proof.
  intros Hok. destruct (shown f) eqn:Hshown; [|now rewrite !(availabilityEffect_hidden f Hshown)].
  destruct (availabilityEffect_cases f Hshown)
    as [[Hsame _] | [(Hnone & room & Hav & Hrun) | (Hsome & Hex & Hrun)]].
  - now rewrite !Hsame.
  - rewrite Hrun.
    assert (shown (FormState.setSpecificRoomId f (roomId room)) = true) as Hshown'
      by now rewrite shown_setSpecificRoomId.
    destruct (availabilityEffect_cases _ Hshown')
      as [[Hsame' _] | [(Hnone' & room' & Hav' & Hrun') | (Hsome' & Hex' & Hrun')]].
    + exact Hsame'.
    + rewrite Hrun'.
      rewrite getAvailableRooms_ignores_selected_room, Hav in Hav'. injection Hav' as <-.
      destruct f. reflexivity.
    + exfalso.
      rewrite getAvailableRooms_ignores_selected_room, Hav in Hex'. cbn in Hex'.
      rewrite String.eqb_refl in Hex'. discriminate.
  - exfalso. destruct Hok as [Hok | (room & Hin & Hid)]; [contradiction|].
    assert (existsb (fun room0 => String.eqb (roomId room0) (ReservationForm.formSpecificRoomId f))
              (available f) = true) as Hex'.
    { apply existsb_exists. exists room. split; [exact Hin | now apply String.eqb_eq]. }
    congruence.
Qed.

(** After the availability effect has run with the availability shown, the
    room selected in the form is none or one of the rooms
    [getAvailableRooms] returns; from its second run on, the effect changes
    nothing. *)
Theorem availabilityEffect_keeps_room_available :
  forall formData,
    ((FormState.availabilityEffect tz roster existing policy initialData formData).2 = true ->
     let formData' :=
       (FormState.availabilityEffect tz roster existing policy initialData formData).1 in
     ReservationForm.formSpecificRoomId formData' = ""%string
     \/ exists room,
          In room (ReservationForm.getAvailableRooms tz roster existing policy initialData formData')
          /\ roomId room = ReservationForm.formSpecificRoomId formData')
    /\ (FormState.availabilityEffect tz roster existing policy initialData
          (FormState.availabilityEffect tz roster existing policy initialData
             (FormState.availabilityEffect tz roster existing policy initialData formData).1).1).1
       = (FormState.availabilityEffect tz roster existing policy initialData
            (FormState.availabilityEffect tz roster existing policy initialData formData).1).1.
Proof.
  intros formData. split.
  - intros Hshown. exact (availabilityEffect_selectionOk formData Hshown).
  - change (run (run (run formData)) = run (run formData)).
    destruct (shown formData) eqn:Hshown.
    + apply availabilityEffect_stable. now apply availabilityEffect_selectionOk.
    + now rewrite !(availabilityEffect_hidden formData Hshown).
Qed.

End AvailabilityEffect.


(** ** Rows and reservations *)

(** Reading a row into a reservation and writing it back gives the columns
    of the row. *)
Theorem transformToDbReservation_round_trip :
  forall row,
    StoreOps.transformToDbReservation (transformReservation row) = StoreOps.columnsOf row.
Proof.
  intros row. unfold StoreOps.transformToDbReservation, StoreOps.columnsOf, toISODate.
  simpl. now rewrite !getUTCCalendarDate_DateUTC.
Qed.

(** ** Editing a reservation *)

Lemma days_lost_by_the_clock offset :
  offset / MS_PER_DAY + (- offset) / MS_PER_DAY = - (if offset mod MS_PER_DAY =? 0 then 0 else 1).
Proof.
  destruct (Z.eqb_spec (offset mod MS_PER_DAY) 0) as [Hz|Hnz].
  - rewrite Z.div_opp_l_z by (discriminate || exact Hz). lia.
  - rewrite Z.div_opp_l_nz by (discriminate || exact Hnz). lia.
Qed.

Lemma formatDateForInput_stored offset day :
  FormState.formatDateForInput (fixedOffset offset) (DateUTC day) = day + offset / MS_PER_DAY.
Proof.
  unfold FormState.formatDateForInput, getCalendarDate, DateUTC. fixed_clock.
  rewrite (Z.add_comm (day * MS_PER_DAY) offset), Z.div_add by discriminate. lia.
Qed.

Lemma toISODate_local offset day :
  toISODate (DateLocal (fixedOffset offset) day) = day + (- offset) / MS_PER_DAY.
Proof.
  unfold toISODate, getUTCCalendarDate, DateLocal. fixed_clock.
  replace (day * MS_PER_DAY - offset) with (- offset + day * MS_PER_DAY) by lia.
  rewrite Z.div_add by discriminate. lia.
Qed.

(** Opening the form on a stored reservation and saving it untouched writes
    the dates back unchanged only when the clock's offset from UTC is a whole
    number of days; with any other offset both dates are written one day
    earlier. *)
Theorem edit_without_change_shifts_dates :
  forall offset row,
    check_in_date row < check_out_date row ->
    let tz := fixedOffset offset in
    let editing := transformReservation row in
    let lost := if offset mod MS_PER_DAY =? 0 then 0 else 1 in
    exists updateData,
      AppEdit.editUpdateData tz editing (FormState.initialFormData tz (Some editing) None)
        = Some updateData
      /\ StoreOps.u_check_in_date updateData = Some (check_in_date row - lost)
      /\ StoreOps.u_check_out_date updateData = Some (check_out_date row - lost).
Proof.
  intros offset row Hlt tz editing lost.
  unfold AppEdit.editUpdateData, ReservationForm.handleSubmit.
  cbn [FormState.initialFormData ReservationForm.formCheckInDate ReservationForm.formCheckOutDate
       ReservationForm.parseLocalDate ReservationForm.dateLe].
  subst editing tz. cbn [transformReservation checkInDate checkOutDate].
  rewrite !formatDateForInput_stored.
  destruct (Z.leb_spec (DateLocal (fixedOffset offset) (check_out_date row + offset / MS_PER_DAY))
                       (DateLocal (fixedOffset offset) (check_in_date row + offset / MS_PER_DAY)))
    as [Hbad|_].
  { exfalso. unfold DateLocal in Hbad. fixed_clock. unfold MS_PER_DAY in Hbad. lia. }
  cbn [AppEdit.editPatch StoreOps.buildUpdateData ReservationForm.subCheckInDate
       ReservationForm.subCheckOutDate StoreOps.pCheckInDate StoreOps.pCheckOutDate].
  eexists. split; [reflexivity|].
  cbn [StoreOps.u_check_in_date StoreOps.u_check_out_date].
  rewrite !toISODate_local. pose proof (days_lost_by_the_clock offset) as Hlost.
  fold lost in Hlost. split; f_equal; lia.
Qed.

Lemma edit_without_change_shifts_dates_witness :
  exists updateData,
    AppEdit.editUpdateData Examples.tzCentral (transformReservation Examples.confirmedRow)
      (FormState.initialFormData Examples.tzCentral
         (Some (transformReservation Examples.confirmedRow)) None)
      = Some updateData
    /\ StoreOps.u_check_in_date updateData = Some Examples.jan9
    /\ StoreOps.u_check_out_date updateData = Some Examples.jan11.
Proof.
  apply (edit_without_change_shifts_dates (- 6 * MS_PER_HOUR) Examples.confirmedRow).
  reflexivity.
Defined.

(** ** Status updates on the store *)

Lemma filter_absent_key (i : string) (rows : list DatabaseReservation) :
  ~ In i (map db_id rows) ->
  List.filter (fun row => String.eqb (db_id row) i) rows = [].
Proof.
  induction rows as [|row rows IH]; [reflexivity|]. cbn [map List.filter]. intros Hno.
  destruct (String.eqb_spec (db_id row) i) as [Heq|_].
  - exfalso. apply Hno. now left.
  - apply IH. intros H. apply Hno. now right.
Qed.

Lemma map_write_absent (f : DatabaseReservation -> DatabaseReservation) (i : string)
    (rows : list DatabaseReservation) :
  ~ In i (map db_id rows) ->
  map (fun row => if String.eqb (db_id row) i then f row else row) rows = rows.
Proof.
  induction rows as [|row rows IH]; [reflexivity|]. cbn [map]. intros Hno.
  destruct (String.eqb_spec (db_id row) i) as [Heq|_].
  - exfalso. apply Hno. now left.
  - f_equal. apply IH. intros H. apply Hno. now right.
Qed.

Lemma updateReservationStatus_absent i s c st :
  ~ In i (map db_id (table st)) ->
  updateReservationStatus i s c st
  = {| table := table st; reservations := reservations st;
       error := Some "Failed to update reservation status"%string |}.
Proof.
  intros Hno. unfold updateReservationStatus, updateRow.
  rewrite (map_write_absent (applyUpdateData s c) i (table st) Hno).
  now rewrite (filter_absent_key i (table st) Hno).
Qed.

(** A status update for an id that is not in the table writes nothing and
    leaves the list alone; the error it records is the fallback message of
    the [catch], since what [.single()] returns is not an [Error] object. *)
Theorem updateReservationStatus_unknown_id :
  forall reservationId newStatus comment st,
    ~ In reservationId (map db_id (table st)) ->
    updateReservationStatus reservationId newStatus comment st
    = {| table := table st; reservations := reservations st;
       error := Some "Failed to update reservation status"%string |}.
Proof.
  intros i s c st Hno. now apply updateReservationStatus_absent.
Qed.

Lemma updateReservationStatus_unknown_id_witness :
  updateReservationStatus "RES-0" Cancelled None Examples.store
  = {| table := table Examples.store; reservations := reservations Examples.store;
       error := Some "Failed to update reservation status"%string |}.
Proof.
  apply (updateReservationStatus_unknown_id "RES-0" Cancelled None Examples.store).
  vm_compute. intuition discriminate.
Defined.

Lemma applyUpdateData_twice s c row :
  applyUpdateData s c (applyUpdateData s c row) = applyUpdateData s c row.
Proof.
  unfold applyUpdateData. simpl.
  destruct (bool_decide (s = Cancelled) && truthy c); reflexivity.
Qed.

Lemma updateRow_twice i s c row : updateRow i s c (updateRow i s c row) = updateRow i s c row.
Proof.
  unfold updateRow. destruct (String.eqb (db_id row) i) eqn:Hi.
  - cbn [applyUpdateData db_id]. rewrite Hi. apply applyUpdateData_twice.
  - now rewrite Hi.
Qed.

(** Applying the same status update twice is the same as applying it once,
    on the table, on the list and on the error. *)
Theorem updateReservationStatus_idempotent :
  forall reservationId newStatus comment st,
    updateReservationStatus reservationId newStatus comment
      (updateReservationStatus reservationId newStatus comment st)
    = updateReservationStatus reservationId newStatus comment st.
Proof.
  intros i s c st. unfold updateReservationStatus.
  set (table' := map (updateRow i s c) (table st)).
  assert (map (updateRow i s c) table' = table') as Htwice.
  { subst table'. rewrite map_map. apply map_ext. intros row. apply updateRow_twice. }
  destruct (List.filter (fun row => String.eqb (db_id row) i) table') as [|data [|data' rest]] eqn:Hsel;
    cbn [table reservations error]; rewrite Htwice, Hsel; try reflexivity.
  f_equal. rewrite map_map. apply map_ext. intros r.
  destruct (String.eqb (id r) i) eqn:Hr; [|now rewrite Hr].
  assert (In data (List.filter (fun row => String.eqb (db_id row) i) table')) as Hdata
    by (rewrite Hsel; now left).
  apply filter_In in Hdata as [_ Hid]. cbn [transformReservation id]. now rewrite Hid.
Qed.

Section StoreOrder.

Import SpecLifecycle.

Lemma update_error i s c st :
  coherent st ->
  error (updateReservationStatus i s c st)
  = if existsb (fun row => String.eqb (db_id row) i) (table st)
    then error st else Some "Failed to update reservation status"%string.
Proof.
  intros [Hnd _]. unfold updateReservationStatus.
  pose proof (filter_key_NoDup db_id i (map (updateRow i s c) (table st))) as Hle.
  rewrite map_updateRow_ids in Hle. specialize (Hle Hnd).
  destruct (existsb _ (table st)) eqn:Hex.
  - apply existsb_exists in Hex as (row & Hrow & Hid).
    assert (In (updateRow i s c row)
              (List.filter (fun row0 => String.eqb (db_id row0) i)
                 (map (updateRow i s c) (table st)))) as Hin.
    { apply filter_In. split; [now apply in_map | now rewrite updateRow_id]. }
    destruct (List.filter _ (map (updateRow i s c) (table st))) as [|data [|data' rest]];
      [destruct Hin | reflexivity | simpl in Hle; lia].
  - assert (List.filter (fun row => String.eqb (db_id row) i)
              (map (updateRow i s c) (table st)) = []) as ->; [|reflexivity].
    apply filter_absent_key. rewrite map_updateRow_ids. intros Hin.
    apply in_map_iff in Hin as (row & Hid & Hrow).
    assert (existsb (fun row0 => String.eqb (db_id row0) i) (table st) = true) as Hyes.
    { apply existsb_exists. exists row. split; [exact Hrow | now apply String.eqb_eq]. }
    congruence.
Qed.

Lemma existsb_key_updateRow i j s c rows :
  existsb (fun row => String.eqb (db_id row) i) (map (updateRow j s c) rows)
  = existsb (fun row => String.eqb (db_id row) i) rows.
Proof.
  induction rows as [|row rows IH]; [reflexivity|]. cbn [map existsb].
  now rewrite updateRow_id, IH.
Qed.

Lemma State_eq (a b : State) :
  table a = table b -> reservations a = reservations b -> error a = error b -> a = b.
Proof. destruct a, b. simpl. intros -> -> ->. reflexivity. Qed.

(** Status updates of two different reservations can be applied in either
    order: the store ends in the same state. *)
Theorem updateReservationStatus_commute :
  forall i s c j s' c' st,
    coherent st ->
    i <> j ->
    updateReservationStatus i s c (updateReservationStatus j s' c' st)
    = updateReservationStatus j s' c' (updateReservationStatus i s c st).
Proof.
  intros i s c j s' c' st Hco Hne.
  pose proof (update_coherent j s' c' st Hco) as Hco_j.
  pose proof (update_coherent i s c st Hco) as Hco_i.
  assert (table (updateReservationStatus i s c (updateReservationStatus j s' c' st))
          = table (updateReservationStatus j s' c' (updateReservationStatus i s c st))) as Htable.
  { rewrite !update_table, !map_map. apply map_ext. intros row.
    unfold updateRow. destruct (String.eqb_spec (db_id row) i) as [Hi|Hi],
      (String.eqb_spec (db_id row) j) as [Hj|Hj]; cbn [applyUpdateData db_id];
      try congruence.
    - destruct (String.eqb_spec (db_id row) i); [|contradiction].
      destruct (String.eqb_spec (db_id row) j); [contradiction | reflexivity].
    - destruct (String.eqb_spec (db_id row) i); [contradiction|].
      destruct (String.eqb_spec (db_id row) j); [reflexivity | contradiction].
    - destruct (String.eqb_spec (db_id row) i); [contradiction|].
      destruct (String.eqb_spec (db_id row) j); [contradiction | reflexivity]. }
  apply State_eq.
  - exact Htable.
  - destruct (update_coherent i s c _ Hco_j) as [_ ->].
    destruct (update_coherent j s' c' _ Hco_i) as [_ ->]. now rewrite Htable.
  - rewrite !update_error by assumption. rewrite !update_table, !existsb_key_updateRow.
    destruct (existsb _ (table st)), (existsb _ (table st)); reflexivity.
Qed.

Lemma updateReservationStatus_commute_witness :
  updateReservationStatus "RES-X" CheckedIn None
    (updateReservationStatus "RES-Y" Cancelled (Some "late"%string) Examples.store)
  = updateReservationStatus "RES-Y" Cancelled (Some "late"%string)
      (updateReservationStatus "RES-X" CheckedIn None Examples.store).
Proof.
  apply (updateReservationStatus_commute "RES-X" CheckedIn None "RES-Y" Cancelled
           (Some "late"%string) Examples.store store_coherent).
  discriminate.
Defined.

End StoreOrder.

(** ** Edits, reminders and deletions on the store *)

Section StoreEdits.

Import SpecLifecycle.

Lemma filter_key_unique (rows : list DatabaseReservation) row :
  List.NoDup (map db_id rows) ->
  In row rows ->
  List.filter (fun row0 => String.eqb (db_id row0) (db_id row)) rows = [row].
Proof.
  induction rows as [|row0 rows IH]; [intros _ []|]. cbn [map List.filter].
  intros Hnd Hin. apply List.NoDup_cons_iff in Hnd as [Hfresh Hnd].
  destruct Hin as [-> | Hin].
  - rewrite String.eqb_refl. f_equal. now apply filter_absent_key.
  - destruct (String.eqb_spec (db_id row0) (db_id row)) as [Heq|_]; [|now apply IH].
    exfalso. apply Hfresh. rewrite Heq. now apply in_map.
Qed.

(** Writing [f] to the rows with id [i] keeps the list the image of the table. *)
Lemma written_rows (f : DatabaseReservation -> DatabaseReservation) (i : string) st :
  (forall row, db_id (f row) = db_id row) ->
  coherent st ->
  let table' := map (fun row => if String.eqb (db_id row) i then f row else row) (table st) in
  List.NoDup (map db_id table')
  /\ match List.filter (fun row => String.eqb (db_id row) i) table' with
     | [data] =>
         map (fun r => if String.eqb (id r) i then transformReservation data else r)
           (reservations st)
     | _ => reservations st
     end = map transformReservation table'.
Proof.
  intros Hid [Hnd Hres] table'.
  assert (map db_id table' = map db_id (table st)) as Hids.
  { subst table'. rewrite map_map. apply map_ext. intros row.
    destruct (String.eqb (db_id row) i); [apply Hid | reflexivity]. }
  split; [now rewrite Hids|].
  destruct (List.filter _ table') as [|data [|data' rest]] eqn:Hsel.
  - rewrite Hres. subst table'. rewrite map_map. apply map_ext_in. intros row Hrow.
    destruct (String.eqb (db_id row) i) eqn:Hi; [|reflexivity].
    assert (In (f row) []) as []. rewrite <- Hsel. apply filter_In. split.
    + apply in_map_iff. exists row. now rewrite Hi.
    + now rewrite Hid.
  - rewrite Hres. subst table'. rewrite !map_map. apply map_ext_in. intros row Hrow.
    cbn [transformReservation id]. destruct (String.eqb (db_id row) i) eqn:Hi; [|reflexivity].
    assert (In (f row) [data]) as [<- | []]; [|reflexivity].
    rewrite <- Hsel. apply filter_In. split.
    + apply in_map_iff. exists row. now rewrite Hi.
    + now rewrite Hid.
  - exfalso. pose proof (filter_key_NoDup db_id i table') as Hle.
    rewrite Hids, Hsel in Hle. specialize (Hle Hnd). simpl in Hle. lia.
Qed.

(** An accepted update of the one row with that id. *)
Lemma accepted_update rejects updateData patch row st :
  coherent st ->
  In row (table st) ->
  StoreOps.buildUpdateData patch = inr updateData ->
  rejects (StoreOps.applyUpdate updateData row) = false ->
  let st' := StoreOps.updateReservation rejects (db_id row) patch st in
  coherent st'
  /\ reservations st'
     = map (fun row0 => transformReservation
                          (if String.eqb (db_id row0) (db_id row)
                           then StoreOps.applyUpdate updateData row0 else row0)) (table st).
Proof.
  intros Hco Hrow Hbuild Hok st'. subst st'. unfold StoreOps.updateReservation.
  rewrite Hbuild. rewrite (filter_key_unique (table st) row (proj1 Hco) Hrow).
  cbn [existsb]. rewrite Hok. cbn [orb].
  destruct (written_rows (StoreOps.applyUpdate updateData) (db_id row) st (fun _ => eq_refl) Hco)
    as [Hnd Hres].
  cbn zeta in Hnd, Hres.
  destruct (List.filter _ (map _ (table st))) as [|data [|data' rest]];
    cbn [table reservations]; (split; [split; [exact Hnd | exact Hres] | rewrite Hres; now rewrite map_map]).
Qed.

(** Saving an edit sets the status to confirmed whatever it was, so a
    cancelled, checked-in or checked-out reservation comes back as confirmed;
    the id, the creation time, the reminder and confirmation bookkeeping and
    the cancellation comment are kept, an empty special-requests field leaves
    the stored requests, and no other reservation changes. *)
Theorem edit_resets_status_to_confirmed :
  forall tz rejects st row formData updateData,
    coherent st ->
    In row (table st) ->
    AppEdit.editUpdateData tz (transformReservation row) formData = Some updateData ->
    rejects (StoreOps.applyUpdate updateData row) = false ->
    let st' := AppEdit.submitEdit tz rejects (transformReservation row) formData st in
    coherent st'
    /\ Forall2
         (fun r r' =>
            if String.eqb (id r) (db_id row)
            then status r' = Confirmed
                 /\ id r' = id r /\ createdAt r' = createdAt r
                 /\ reminderSent r' = reminderSent r /\ reminderDate r' = reminderDate r
                 /\ confirmationSent r' = confirmationSent r
                 /\ confirmationDate r' = confirmationDate r
                 /\ cancellationComment r' = cancellationComment r
                 /\ (ReservationForm.formSpecialRequests formData = ""%string ->
                     specialRequests r' = specialRequests r)
            else r' = r)
         (reservations st) (reservations st').
Proof.
  intros tz rejects st row formData updateData Hco Hrow Hedit Hok st'. subst st'.
  unfold AppEdit.editUpdateData in Hedit. unfold AppEdit.submitEdit.
  destruct (ReservationForm.handleSubmit tz formData) as [message|payload] eqn:Hsubmit;
    [discriminate|].
  destruct (StoreOps.buildUpdateData (AppEdit.editPatch (transformReservation row) payload))
    as [message|u] eqn:Hbuild; [discriminate|]. injection Hedit as ->.
  unfold AppEdit.updateReservation. cbn [transformReservation id].
  destruct (accepted_update rejects updateData _ row st Hco Hrow Hbuild Hok) as [Hco' Hres].
  split; [exact Hco'|]. cbn zeta in Hres. rewrite Hres. destruct Hco as [Hnd ->].
  apply Forall2_map_map_in. intros row0 Hrow0. cbn [transformReservation id].
  destruct (String.eqb_spec (db_id row0) (db_id row)) as [Hsame|_]; [|reflexivity].
  assert (row0 = row) as ->.
  { pose proof (filter_key_unique (table st) row Hnd Hrow) as Huniq.
    assert (In row0 (List.filter (fun r => String.eqb (db_id r) (db_id row)) (table st))) as Hin
      by (apply filter_In; split; [exact Hrow0 | now apply String.eqb_eq]).
    rewrite Huniq in Hin. destruct Hin as [<- | []]. reflexivity. }
  unfold ReservationForm.handleSubmit in Hsubmit.
  destruct (ReservationForm.dateLe _ _); [discriminate|]. injection Hsubmit as <-.
  unfold StoreOps.buildUpdateData, AppEdit.editPatch in Hbuild.
  cbn [StoreOps.pCheckInDate StoreOps.pCheckOutDate ReservationForm.subCheckInDate
       ReservationForm.subCheckOutDate] in Hbuild.
  destruct (ReservationForm.parseLocalDate tz (ReservationForm.formCheckInDate formData));
    [|discriminate].
  destruct (ReservationForm.parseLocalDate tz (ReservationForm.formCheckOutDate formData));
    [|discriminate].
  injection Hbuild as <-. cbn.
  repeat split; try reflexivity.
  - destruct (reminder_date row); reflexivity.
  - intros ->. reflexivity.
Qed.

Lemma edit_resets_status_to_confirmed_witness :
  map status
    (reservations
       (AppEdit.submitEdit Examples.tzUTC (fun _ => false)
          (transformReservation Examples.cancelledRow)
          (FormState.initialFormData Examples.tzUTC
             (Some (transformReservation Examples.cancelledRow)) None)
          Examples.store))
  = [Confirmed; Confirmed].
Proof.
  destruct (edit_resets_status_to_confirmed Examples.tzUTC (fun _ => false) Examples.store
              Examples.cancelledRow
              (FormState.initialFormData Examples.tzUTC
                 (Some (transformReservation Examples.cancelledRow)) None)
              {| StoreOps.u_customer_id := Some "customer-1"%string;
                 StoreOps.u_check_in_date := Some Examples.jan10;
                 StoreOps.u_check_out_date := Some Examples.jan11;
                 StoreOps.u_room_type := Some "standard"%string;
                 StoreOps.u_specific_room_id := Some ""%string;
                 StoreOps.u_number_of_guests := Some 2;
                 StoreOps.u_total_amount := Some 240;
                 StoreOps.u_status := Some Confirmed;
                 StoreOps.u_special_requests := None;
                 StoreOps.u_reminder_sent := Some false;
                 StoreOps.u_reminder_date := None;
                 StoreOps.u_confirmation_sent := None;
                 StoreOps.u_confirmation_date := None;
                 StoreOps.u_cancellation_comment := None |}
              store_coherent) as [_ _].
  - vm_compute. left. reflexivity.
  - vm_compute. reflexivity.
  - reflexivity.
  - vm_compute. reflexivity.
Defined.

(** A reminder that was sent is recorded on that reservation only, as the
    flag and the time of sending; the reservation then no longer counts as
    needing a reminder, in the list and under the pending-reminders card. *)
Theorem sendReminder_records_the_reminder :
  forall rejects sentAt st row,
    coherent st ->
    In row (table st) ->
    (forall updateData,
        StoreOps.buildUpdateData (AppEdit.reminderPatch sentAt) = inr updateData ->
        rejects (StoreOps.applyUpdate updateData row) = false) ->
    let st' := AppEdit.sendReminder rejects true true sentAt (db_id row) st in
    coherent st'
    /\ Forall2
         (fun r r' => if String.eqb (id r) (db_id row)
                      then r' = AppEdit.withReminder sentAt r else r' = r)
         (reservations st) (reservations st')
    /\ forall r' tz today now hotelSettings,
         In r' (reservations st') -> id r' = db_id row ->
         ListFlags.needsReminder now r' = false
         /\ AppViews.matchesCardFilter tz today now hotelSettings
              {| AppViews.filterStatus := None;
                 AppViews.filterDateType := Some AppViews.PendingReminders |} r' = false.
Proof.
  intros rejects sentAt st row Hco Hrow Hok st'. subst st'. unfold AppEdit.sendReminder.
  assert (exists r0, List.find (fun r => String.eqb (id r) (db_id row)) (reservations st) = Some r0)
    as [r0 ->].
  { destruct (List.find _ (reservations st)) as [r0|] eqn:Hfind; [now exists r0|].
    exfalso. destruct Hco as [_ Hres].
    pose proof (find_none _ _ Hfind (transformReservation row)) as Hnone.
    rewrite Hres in Hnone. specialize (Hnone (in_map _ _ _ Hrow)).
    cbn [transformReservation id] in Hnone. rewrite String.eqb_refl in Hnone. discriminate. }
  cbn [andb].
  destruct (accepted_update rejects _ (AppEdit.reminderPatch sentAt) row st Hco Hrow eq_refl
              (Hok _ eq_refl)) as [Hco' Hres].
  cbn zeta in Hres.
  assert (Forall2
            (fun r r' => if String.eqb (id r) (db_id row)
                         then r' = AppEdit.withReminder sentAt r else r' = r)
            (reservations st)
            (reservations (StoreOps.updateReservation rejects (db_id row)
                             (AppEdit.reminderPatch sentAt) st))) as Hframe.
  { rewrite Hres. destruct Hco as [_ ->]. apply Forall2_map_map_in. intros row0 _.
    cbn [transformReservation id]. destruct (String.eqb (db_id row0) (db_id row)); reflexivity. }
  split; [exact Hco' | split; [exact Hframe|]].
  intros r' tz today now hotelSettings Hr' Hid.
  assert (reminderSent r' = true) as Hsent.
  { clear Hres. induction Hframe as [|r r1 l l1 Hr _ IH]; [destruct Hr'|].
    destruct Hr' as [<- | Hr']; [|now apply IH].
    destruct (String.eqb_spec (id r) (db_id row)) as [_|Hne]; [now subst r1|].
    subst r1. contradiction. }
  unfold ListFlags.needsReminder, AppViews.matchesCardFilter.
  cbn [AppViews.filterStatus AppViews.filterDateType]. rewrite Hsent. cbn [negb].
  rewrite !andb_false_r. cbn [andb negb]. split; reflexivity.
Qed.

Lemma sendReminder_records_the_reminder_witness :
  map reminderSent
    (reservations (AppEdit.sendReminder (fun _ => false) true true Examples.jan10_11h01 "RES-Y"
                     Examples.store))
  = [false; true].
Proof.
  destruct (sendReminder_records_the_reminder (fun _ => false) Examples.jan10_11h01 Examples.store
              Examples.confirmedRow store_coherent) as [_ _].
  - vm_compute. right. left. reflexivity.
  - reflexivity.
  - vm_compute. reflexivity.
Defined.

Lemma filter_map_key (i : string) (rows : list DatabaseReservation) :
  List.filter (fun r => negb (String.eqb (id r) i)) (map transformReservation rows)
  = map transformReservation (List.filter (fun row => negb (String.eqb (db_id row) i)) rows).
Proof.
  induction rows as [|row rows IH]; [reflexivity|]. cbn [map List.filter transformReservation id].
  destruct (String.eqb (db_id row) i); cbn [negb map]; now rewrite IH.
Qed.

Lemma NoDup_filter_keys (g : DatabaseReservation -> bool) (rows : list DatabaseReservation) :
  List.NoDup (map db_id rows) -> List.NoDup (map db_id (List.filter g rows)).
Proof.
  induction rows as [|row rows IH]; [intros H; exact H|]. cbn [map List.filter]. intros Hnd.
  apply List.NoDup_cons_iff in Hnd as [Hfresh Hnd]. destruct (g row); [|now apply IH].
  cbn [map]. apply List.NoDup_cons; [|now apply IH].
  intros Hin. apply Hfresh. apply in_map_iff in Hin as (row' & Heq & Hin').
  apply filter_In in Hin' as [Hin' _]. rewrite <- Heq. now apply in_map.
Qed.

(** Deleting a reservation removes it, and only it, from the table and from
    the list; a status update for the deleted id afterwards changes nothing
    and records the fallback message of its [catch]. *)
Theorem deleteReservation_removes_only_that_reservation :
  forall reservationId st,
    coherent st ->
    let st' := StoreOps.deleteReservation reservationId st in
    coherent st'
    /\ (forall r, In r (reservations st') <-> In r (reservations st) /\ id r <> reservationId)
    /\ forall newStatus comment,
         updateReservationStatus reservationId newStatus comment st'
         = {| table := table st'; reservations := reservations st';
              error := Some "Failed to update reservation status"%string |}.
Proof.
  intros i st [Hnd Hres] st'. subst st'. unfold StoreOps.deleteReservation. split; [|split].
  - split; cbn [table reservations]; [now apply NoDup_filter_keys|].
    rewrite Hres. apply filter_map_key.
  - intros r. cbn [reservations]. rewrite filter_In, negb_true_iff, String.eqb_neq. reflexivity.
  - intros s c. apply (updateReservationStatus_absent i s c). cbn [table].
    intros Hin. apply in_map_iff in Hin as (row & Hid & Hrow).
    apply filter_In in Hrow as [_ Hkeep]. rewrite Hid, String.eqb_refl in Hkeep. discriminate.
Qed.

Lemma deleteReservation_removes_only_that_reservation_witness :
  map id (reservations (StoreOps.deleteReservation "RES-X" Examples.store)) = ["RES-Y"%string].
Proof.
  destruct (deleteReservation_removes_only_that_reservation "RES-X" Examples.store store_coherent)
    as [_ _].
  vm_compute. reflexivity.
Defined.

End StoreEdits.

(** ** The clock, the cards and the flags *)

Lemma minutes_of_day offset now :
  getHours (fixedOffset offset) now * 60 + getMinutes (fixedOffset offset) now
  = ((now + offset) mod MS_PER_DAY) / MS_PER_MINUTE.
Proof.
  unfold getHours, getMinutes. fixed_clock.
  change MS_PER_DAY with 86400000. change MS_PER_HOUR with 3600000.
  change MS_PER_MINUTE with 60000.
  set (x := now + offset).
  replace (x mod 3600000) with ((x mod 86400000) mod 3600000).
  2:{ rewrite (Z.div_mod x 86400000) at 2 by lia.
      replace (86400000 * (x / 86400000) + x mod 86400000)
        with (x mod 86400000 + (x / 86400000 * 24) * 3600000) by lia.
      now rewrite Z.mod_add by lia. }
  generalize (x mod 86400000). intros y.
  pose proof (Z.div_mod y 3600000 ltac:(lia)) as Hy.
  replace (y / 60000) with ((y mod 3600000 + (y / 3600000 * 60) * 60000) / 60000)
    by (f_equal; lia).
  rewrite Z.div_add by lia. lia.
Qed.

Lemma local_midnight_mod offset t :
  setHours (fixedOffset offset) t 0 0 = t - (t + offset) mod MS_PER_DAY.
Proof.
  unfold setHours, getCalendarDate. fixed_clock.
  pose proof (Z.div_mod (t + offset) MS_PER_DAY ltac:(discriminate)).
  unfold MS_PER_DAY, MS_PER_HOUR, MS_PER_MINUTE in *. lia.
Qed.

Lemma local_midnight_mono offset t t' :
  t <= t' -> setHours (fixedOffset offset) t 0 0 <= setHours (fixedOffset offset) t' 0 0.
Proof.
  intros Hle. unfold setHours, getCalendarDate. fixed_clock.
  assert ((t + offset) / MS_PER_DAY <= (t' + offset) / MS_PER_DAY)
    by (apply Z.div_le_mono; [reflexivity | lia]).
  unfold MS_PER_DAY, MS_PER_HOUR, MS_PER_MINUTE in *. lia.
Qed.

Lemma isOverdueCheckOut_mono offset now later hotelSettings reservation :
  now <= later ->
  AppViews.isOverdueCheckOut (fixedOffset offset) now hotelSettings reservation = true ->
  AppViews.isOverdueCheckOut (fixedOffset offset) later hotelSettings reservation = true.
Proof.
  revert hotelSettings reservation. intros hs r Hle. unfold AppViews.isOverdueCheckOut.
  destruct (negb (bool_decide (status r = CheckedIn))); [discriminate|].
  rewrite !minutes_of_day.
  pose proof (local_midnight_mono offset now later Hle) as Hmid.
  pose proof (local_midnight_mod offset now) as Hnow.
  pose proof (local_midnight_mod offset later) as Hlater.
  set (today := setHours (fixedOffset offset) now 0 0) in *.
  set (today' := setHours (fixedOffset offset) later 0 0) in *.
  set (out := setHours (fixedOffset offset) (checkOutDate r) 0 0).
  destruct (Z.ltb_spec out today) as [Hpast|Hnot].
  - intros _. destruct (Z.ltb_spec out today'); [reflexivity | lia].
  - destruct (Z.eqb_spec out today) as [Heq|Hne]; cbn [andb]; [|discriminate].
    destruct (Z.gtb_spec ((now + offset) mod MS_PER_DAY / MS_PER_MINUTE)
                (hours (checkOutTime hs) * 60 + minutes (checkOutTime hs))) as [Hgt|]; [|discriminate].
    intros _. destruct (Z.ltb_spec out today') as [|Hnot']; [reflexivity|].
    assert (today' = today) as Hsame by lia.
    destruct (Z.eqb_spec out today'); [|lia]. cbn [andb].
    assert ((now + offset) mod MS_PER_DAY <= (later + offset) mod MS_PER_DAY) as Hclock by lia.
    apply (Z.div_le_mono _ _ MS_PER_MINUTE ltac:(reflexivity)) in Hclock.
    destruct (Z.gtb_spec ((later + offset) mod MS_PER_DAY / MS_PER_MINUTE)
                (hours (checkOutTime hs) * 60 + minutes (checkOutTime hs))); [reflexivity | lia].
Qed.

(** A guest who is overdue for check-out stays overdue as the clock moves on,
    until the status changes: the overdue list never drops a checked-in
    reservation by itself. The clock is at a fixed offset from UTC. *)
Theorem isOverdueCheckOut_persists :
  forall offset now later hotelSettings reservation,
    now <= later ->
    AppViews.isOverdueCheckOut (fixedOffset offset) now hotelSettings reservation = true ->
    AppViews.isOverdueCheckOut (fixedOffset offset) later hotelSettings reservation = true.
Proof. intros offset now later hs r. apply isOverdueCheckOut_mono. Qed.

Lemma isOverdueCheckOut_persists_witness :
  AppViews.isOverdueCheckOut Examples.tzUTC (Examples.jan10_11h01 + MS_PER_HOUR)
    Examples.defaultSettings (transformReservation Examples.inHouseRow) = true.
Proof.
  apply (isOverdueCheckOut_persists 0 Examples.jan10_11h01); [vm_compute; discriminate|].
  vm_compute. reflexivity.
Defined.

(** Whatever the sweep cancels for missing the 11:00 cutoff, and not for a
    departure date in the past, the reservation list flags as a no-show risk
    at that same moment: the flag (from 9:00) always precedes the
    cancellation. The clock is at a fixed offset from UTC. *)
Theorem cutoff_cancellation_was_flagged :
  forall offset now reservation,
    UseAutoCancellation.isNoShow (fixedOffset offset) now reservation = true ->
    UseAutoCancellation.isStayOverdue (fixedOffset offset) now reservation = false ->
    ListFlags.isNoShowRisk (fixedOffset offset) now reservation = true.
Proof.
  intros offset now r. unfold UseAutoCancellation.isNoShow, ListFlags.isNoShowRisk.
  destruct (bool_decide (status r = Confirmed)); cbn [negb]; [|discriminate].
  intros Hsweep Hstay. rewrite Hstay, orb_false_r in Hsweep.
  apply andb_true_iff in Hsweep as [Htoday Hcut].
  unfold UseAutoCancellation.isCheckInToday in Htoday. rewrite !local_midnight in Htoday.
  apply Z.eqb_eq in Htoday.
  assert (getCalendarDate (fixedOffset offset) (checkInDate r)
          = getCalendarDate (fixedOffset offset) now) as ->
    by (unfold MS_PER_DAY in Htoday; lia).
  rewrite Z.eqb_refl. cbn [andb].
  apply Z.geb_le in Hcut. apply Z.geb_le. unfold getHours.
  pose proof (local_midnight_mod offset now) as Hmid. unfold setHours in Hcut, Hmid.
  fixed_clock.
  assert (11 * MS_PER_HOUR <= (now + offset) mod MS_PER_DAY) as Hclock
    by (unfold MS_PER_HOUR, MS_PER_MINUTE in *; lia).
  apply (Z.div_le_mono _ _ MS_PER_HOUR ltac:(reflexivity)) in Hclock.
  rewrite Z.div_mul in Hclock by discriminate. lia.
Qed.

Lemma cutoff_cancellation_was_flagged_witness :
  ListFlags.isNoShowRisk Examples.tzUTC Examples.jan10_11h01
    (transformReservation Examples.confirmedRow) = true.
Proof.
  apply (cutoff_cancellation_was_flagged 0); vm_compute; reflexivity.
Defined.

(** West of Greenwich a stored departure date falls on the evening before on
    the local clock, so the overdue list counts a checked-in guest as overdue
    from local midnight at the start of the departure day, whatever the
    check-out time is. *)
Theorem overdue_from_midnight_west_of_utc :
  forall offset now hotelSettings reservation departure,
    - MS_PER_DAY < offset < 0 ->
    status reservation = CheckedIn ->
    checkOutDate reservation = DateUTC departure ->
    getCalendarDate (fixedOffset offset) now = departure ->
    AppViews.isOverdueCheckOut (fixedOffset offset) now hotelSettings reservation = true.
Proof.
  intros offset now hs r d Htz Hst Hout Hday. unfold AppViews.isOverdueCheckOut.
  rewrite Hst, bool_decide_eq_true_2 by reflexivity. cbn [negb].
  assert (setHours (fixedOffset offset) (checkOutDate r) 0 0
          < setHours (fixedOffset offset) now 0 0) as Hlt.
  { unfold setHours. rewrite Hday, Hout. unfold getCalendarDate, DateUTC. fixed_clock.
    assert ((d * MS_PER_DAY + offset) / MS_PER_DAY = d - 1) as ->.
    { symmetry. apply (Z.div_unique _ _ _ (offset + MS_PER_DAY)); unfold MS_PER_DAY in *; lia. }
    unfold MS_PER_DAY in *. lia. }
  apply Z.ltb_lt in Hlt. now rewrite Hlt.
Qed.

Lemma overdue_from_midnight_west_of_utc_witness :
  AppViews.isOverdueCheckOut Examples.tzCentral (DateLocal Examples.tzCentral Examples.jan9)
    Examples.defaultSettings (transformReservation Examples.inHouseRow) = true.
Proof.
  apply (overdue_from_midnight_west_of_utc (- 6 * MS_PER_HOUR) _ _ _ Examples.jan9).
  - vm_compute. split; reflexivity.
  - reflexivity.
  - reflexivity.
  - vm_compute. reflexivity.
Defined.

(** With stored dates the pending-reminders card keeps exactly the confirmed
    reservations without a reminder whose check-in day is today or one of the
    next three days. *)
Theorem pending_reminders_window :
  forall tz today now hotelSettings reservation arrival,
    checkInDate reservation = DateUTC arrival ->
    AppViews.matchesCardFilter tz (DateUTC today) now hotelSettings
      {| AppViews.filterStatus := None;
         AppViews.filterDateType := Some AppViews.PendingReminders |} reservation = true
    <-> status reservation = Confirmed
        /\ reminderSent reservation = false
        /\ today <= arrival <= today + 3.
Proof.
  intros tz t now hs r c Hin. unfold AppViews.matchesCardFilter.
  cbn [AppViews.filterStatus AppViews.filterDateType]. rewrite Hin.
  assert (ceilDays (DateUTC c - DateUTC t) = c - t) as ->.
  { unfold ceilDays, DateUTC, MS_PER_DAY.
    replace (- (c * (24 * 60 * 60 * 1000) - t * (24 * 60 * 60 * 1000)))
      with ((t - c) * (1000 * 60 * 60 * 24)) by lia.
    rewrite Z.div_mul by discriminate. lia. }
  destruct (reminderSent r), (bool_decide_reflect (status r = Confirmed)) as [Hst|Hst],
    (Z.leb_spec (c - t) 3), (Z.geb_spec (c - t) 0); cbn [andb negb];
    split; try discriminate; try (intros (? & ? & ?); try discriminate; try contradiction; lia).
  intros _. repeat split; try assumption; lia.
Qed.

Lemma pending_reminders_window_witness :
  AppViews.matchesCardFilter Examples.tzUTC (DateUTC Examples.jan9) Examples.jan9
    Examples.defaultSettings
    {| AppViews.filterStatus := None;
       AppViews.filterDateType := Some AppViews.PendingReminders |}
    (transformReservation Examples.confirmedRow) = true.
Proof.
  apply (pending_reminders_window _ _ _ _ _ Examples.jan10); [reflexivity|].
  vm_compute. repeat split; discriminate.
Defined.

(** ** The dashboard cards and the list behind them *)

Section Cards.

Variable trim : string -> string.
Variable matchesSearch : string -> Reservation -> bool.
Hypothesis trim_empty : trim "" = ""%string.

Lemma filter_length_ext (f g : Reservation -> bool) rs :
  (forall r, f r = g r) -> length (List.filter f rs) = length (List.filter g rs).
Proof. intros Hfg. now rewrite (filter_ext f g Hfg). Qed.

Lemma todayUTC_same_day mount now :
  getUTCCalendarDate mount = getUTCCalendarDate now ->
  AppViews.todayUTC mount = AppViews.todayUTC now.
Proof. unfold AppViews.todayUTC. now intros ->. Qed.

(** A click on the upcoming, checked-in or no-show-risk card shows as many
    rows as the number on the card, as long as the page was loaded on the
    current UTC day (the list compares with the day of loading, the card with
    the day of rendering). *)
Theorem card_count_is_list_length :
  forall tz mount computedAt now hotelSettings reservations view key value,
    getUTCCalendarDate mount = getUTCCalendarDate now ->
    In (key, value)
       (Dashboard.clickableStats tz now
          (AppViews.overdueCheckOuts tz computedAt hotelSettings reservations) reservations) ->
    key = "upcoming"%string \/ key = "checked-in"%string \/ key = "no-show-risk"%string ->
    length (AppFilter.filteredReservations trim matchesSearch tz (AppViews.todayUTC mount) now
              hotelSettings (AppFilter.handleFilterClick key view) reservations)
    = value.
Proof.
  intros tz mount computedAt now hs rs view key value Hday Hcard Hkey.
  rewrite (todayUTC_same_day mount now Hday).
  unfold AppFilter.filteredReservations.
  destruct Hkey as [-> | [-> | ->]];
    repeat (destruct Hcard as [Hcard | Hcard];
            [first [discriminate Hcard | injection Hcard as <-]|]);
    try destruct Hcard; unfold Dashboard.upcomingReservations, Dashboard.currentlyCheckedIn,
      Dashboard.noShowRisk;
    set (view' := AppFilter.handleFilterClick _ view); vm_compute in view'; subst view';
    cbn [AppFilter.reservationSearchTerm AppFilter.currentReservationFilter];
    rewrite trim_empty; cbn [String.eqb];
    apply filter_length_ext; intros r; unfold AppViews.matchesCardFilter;
    cbn [AppViews.filterStatus AppViews.filterDateType].
  - now destruct (_ && _).
  - now destruct (bool_decide _).
  - now destruct (_ && _ && _).
Qed.

(** The number on the overdue card is the length of the overdue list of
    [App], a memo that holds the value computed at [computedAt], when the
    reservations or the check-out time last changed. On a clock at UTC, with
    the page loaded on the current UTC day, a click on the card shows the
    reservations that are overdue now: never fewer than the number on the
    card, and exactly as many when the memo was computed at this instant. *)
Theorem overdue_card_count_at_most_list_length_on_utc_clock :
  forall mount computedAt now hotelSettings reservations view value,
    getUTCCalendarDate mount = getUTCCalendarDate now ->
    computedAt <= now ->
    In ("overdue"%string, value)
       (Dashboard.clickableStats (fixedOffset 0) now
          (AppViews.overdueCheckOuts (fixedOffset 0) computedAt hotelSettings reservations)
          reservations) ->
    let shown :=
      length (AppFilter.filteredReservations trim matchesSearch (fixedOffset 0)
                (AppViews.todayUTC mount) now hotelSettings
                (AppFilter.handleFilterClick "overdue" view) reservations) in
    shown = length (List.filter (AppViews.isOverdueCheckOut (fixedOffset 0) now hotelSettings)
                      reservations)
    /\ (value <= shown)%nat
    /\ (computedAt = now -> value = shown).
Proof.
  intros mount computedAt now hs rs view value Hday Hle Hcard shown.
  assert (value = length (AppViews.overdueCheckOuts (fixedOffset 0) computedAt hs rs)) as ->.
  { repeat (destruct Hcard as [Hcard | Hcard];
            [first [discriminate Hcard | injection Hcard as <-; reflexivity]|]).
    destruct Hcard. }
  assert (shown = length (List.filter (AppViews.isOverdueCheckOut (fixedOffset 0) now hs) rs))
    as Hshown.
  { subst shown. rewrite (todayUTC_same_day mount now Hday).
    unfold AppFilter.filteredReservations.
    set (view' := AppFilter.handleFilterClick _ view). vm_compute in view'. subst view'.
    cbn [AppFilter.reservationSearchTerm AppFilter.currentReservationFilter].
    rewrite trim_empty. cbn [String.eqb].
    apply filter_length_ext. intros r.
    unfold AppViews.matchesCardFilter, AppViews.isOverdueCheckOut, AppViews.todayUTC.
    cbn [AppViews.filterStatus AppViews.filterDateType].
    assert (forall t, setHours (fixedOffset 0) t 0 0 = DateUTC (getUTCCalendarDate t)) as Hmid.
    { intros t. unfold setHours, DateUTC, getCalendarDate, getUTCCalendarDate. fixed_clock.
      replace (t + 0) with t by lia. unfold MS_PER_DAY, MS_PER_HOUR, MS_PER_MINUTE. lia. }
    rewrite !Hmid.
    destruct (bool_decide (status r = CheckedIn)); cbn [negb andb]; [|reflexivity].
    destruct (_ <? _); cbn [orb negb]; [reflexivity|].
    now destruct (_ && _). }
  split; [exact Hshown|]. rewrite Hshown. unfold AppViews.overdueCheckOuts. split.
  - apply filter_length_le_implied. intros r. now apply isOverdueCheckOut_mono.
  - now intros ->.
Qed.

End Cards.

Lemma card_count_is_list_length_witness :
  length (AppFilter.filteredReservations (fun s => s) (fun _ _ => false) Examples.tzUTC
            (AppViews.todayUTC Examples.jan9) Examples.jan9 Examples.defaultSettings
            (AppFilter.handleFilterClick "upcoming"
               {| AppFilter.activeTab := "dashboard"; AppFilter.reservationSearchTerm := "RES";
                  AppFilter.currentReservationFilter := None |})
            (reservations Examples.store))
  = 1%nat.
Proof.
  apply (card_count_is_list_length (fun s => s) (fun _ _ => false) eq_refl Examples.tzUTC
           Examples.jan9 Examples.jan9 Examples.jan9 Examples.defaultSettings
           (reservations Examples.store) _ "upcoming"%string 1%nat eq_refl).
  - left. reflexivity.
  - left. reflexivity.
Defined.

(** The memo was computed at 10:00 on January 9th, before the check-out time
    of 11:00: the card shows 0. At 11:01 the list behind it has one row. *)
Lemma overdue_card_count_at_most_list_length_on_utc_clock_witness :
  length (AppFilter.filteredReservations (fun s => s) (fun _ _ => false) (fixedOffset 0)
            (AppViews.todayUTC (DateUTC Examples.jan9)) (Examples.jan10_11h01 - MS_PER_DAY)
            Examples.defaultSettings
            (AppFilter.handleFilterClick "overdue"
               {| AppFilter.activeTab := "dashboard"; AppFilter.reservationSearchTerm := "";
                  AppFilter.currentReservationFilter := None |})
            (reservations Examples.houseStore))
  = 1%nat
  /\ (0 <= 1)%nat.
Proof.
  pose proof (overdue_card_count_at_most_list_length_on_utc_clock (fun s => s) (fun _ _ => false)
                eq_refl (DateUTC Examples.jan9) (DateUTC Examples.jan9 + 10 * MS_PER_HOUR)
                (Examples.jan10_11h01 - MS_PER_DAY) Examples.defaultSettings
                (reservations Examples.houseStore)
                {| AppFilter.activeTab := "dashboard"; AppFilter.reservationSearchTerm := "";
                   AppFilter.currentReservationFilter := None |} 0%nat) as H.
  destruct H as (Hshown & Hle & _).
  - vm_compute. reflexivity.
  - vm_compute. discriminate.
  - vm_compute. right. right. left. reflexivity.
  - split; [|exact Hle]. rewrite Hshown. vm_compute. reflexivity.
Defined.
